(** * Instagram Follower Analyzer: a shallow embedding of
      [instagram_analyzer.py] and the properties of its report pipeline.

    The script is embedded as it is written: Python [str] values are
    [string]s (one [ascii] per code point below 256), Python [set] objects
    live in a store and are passed by reference, the console, the provider
    calls, the clock and the file system are fields of an explicit world
    that every statement threads, and exceptions are results of a small
    state-and-exception monad. *)

From Stdlib Require Import Ascii DecimalString.
From stdpp Require Import base gmap sets list strings sorting.

(** ** Python [str] primitives used by the script *)

Module PyStr.

(** [str.isspace] on one character: the code points below 256 that
    Python treats as whitespace (TAB..CR, FS..US, SPACE, NEL, NBSP). *)
Definition isspace (c : ascii) : bool :=
  let n := nat_of_ascii c in
  ((9 <=? n) && (n <=? 13)) || ((28 <=? n) && (n <=? 32))
  || (n =? 133) || (n =? 160).

(** Membership of a character in the argument of [lstrip(chars)]. *)
Fixpoint mem (c : ascii) (chars : string) : bool :=
  match chars with
  | EmptyString => false
  | String d rest => if decide (c = d) then true else mem c rest
  end.

(** [s.lstrip(...)]: drop the longest prefix of characters satisfying [p]. *)
Fixpoint lstrip_by (p : ascii → bool) (s : string) : string :=
  match s with
  | EmptyString => EmptyString
  | String c rest => if p c then lstrip_by p rest else s
  end.

(** [s.rstrip(...)]: drop the longest suffix of characters satisfying [p]. *)
Fixpoint rstrip_by (p : ascii → bool) (s : string) : string :=
  match s with
  | EmptyString => EmptyString
  | String c rest =>
      match rstrip_by p rest with
      | EmptyString => if p c then EmptyString else String c EmptyString
      | kept => String c kept
      end
  end.

(** [s.strip()] with no argument strips whitespace on both sides. *)
Definition strip (s : string) : string :=
  rstrip_by isspace (lstrip_by isspace s).

(** [s.lstrip(chars)] *)
Definition lstrip (chars s : string) : string :=
  lstrip_by (λ c, mem c chars) s.

(** Every character of [s] satisfies [p]. *)
Fixpoint all_chars (p : ascii → bool) (s : string) : bool :=
  match s with
  | EmptyString => true
  | String c rest => p c && all_chars p rest
  end.

(** First and last character of a string. *)
Definition first_char (s : string) : option ascii :=
  match s with
  | EmptyString => None
  | String c _ => Some c
  end.

Fixpoint last_char (s : string) : option ascii :=
  match s with
  | EmptyString => None
  | String c EmptyString => Some c
  | String _ rest => last_char rest
  end.

(** [str(n)] for a non-negative [int]. *)
Definition of_N (n : N) : string :=
  NilZero.string_of_uint (N.to_uint n).
Definition of_nat (n : nat) : string := of_N (N.of_nat n).

(** [c * n] for a one-character string, as in ["=" * 60]. *)
Fixpoint replicate_char (n : nat) (c : ascii) : string :=
  match n with
  | 0 => EmptyString
  | S k => String c (replicate_char k c)
  end.

(** [s.zfill(width)] for a string of digits, as the [%02d] of
    [strftime] pads. *)
Definition zfill (width : nat) (s : string) : string :=
  replicate_char (width - String.length s) "0" +:+ s.

Definition is_digit (c : ascii) : bool :=
  let n := N_of_ascii c in ((48 <=? n) && (n <=? 57))%N.

(** The number a non-empty string of decimal digits denotes. *)
Fixpoint value_from (acc : N) (s : string) : option N :=
  match s with
  | EmptyString => Some acc
  | String c rest =>
      if is_digit c
      then value_from (10 * acc + (N_of_ascii c - 48))%N rest
      else None
  end.

Definition digits_value (s : string) : option N :=
  match s with
  | EmptyString => None
  | _ => value_from 0%N s
  end.

(** [sorted(xs)] on strings: ascending by code point, lexicographic. *)
Definition sorted (xs : list string) : list string :=
  merge_sort String.le xs.

End PyStr.

(** ** Line 90: normalisation of the target username *)

Definition normalize_target (raw : string) : string :=
  PyStr.lstrip "@" (PyStr.strip raw).

(** ** Line 55: the mutual set *)

Definition mutual_of (followers following : gset string) : gset string :=
  followers ∩ following.

(** ** Lines 56 and 61: [datetime.now().strftime(...)] *)

Record datetime := DateTime {
  year : nat; month : nat; day : nat;
  hour : nat; minute : nat; second : nat
}.

Module Strftime.

(** [%m], [%d], [%H], [%M], [%S]: decimal, zero padded to two digits. *)
Definition two (n : nat) : string := PyStr.zfill 2 (PyStr.of_nat n).

(** [%Y]: decimal, zero padded to four digits. *)
Definition four (n : nat) : string := PyStr.zfill 4 (PyStr.of_nat n).

(** ["%Y%m%d_%H%M%S"] *)
Definition compact (t : datetime) : string :=
  four (year t) +:+ two (month t) +:+ two (day t) +:+ "_"
    +:+ two (hour t) +:+ two (minute t) +:+ two (second t).

(** ["%Y-%m-%d %H:%M:%S"] *)
Definition human (t : datetime) : string :=
  four (year t) +:+ "-" +:+ two (month t) +:+ "-" +:+ two (day t) +:+ " "
    +:+ two (hour t) +:+ ":" +:+ two (minute t) +:+ ":" +:+ two (second t).

(** A reading of the clock: a four-digit year, and the ranges the
    [datetime] class enforces on the other fields. *)
Definition valid (t : datetime) : Prop :=
  10 ^ 3 ≤ year t < 10 ^ 4 ∧ 1 ≤ month t ≤ 12 ∧ 1 ≤ day t ≤ 31 ∧
  hour t < 24 ∧ minute t < 60 ∧ second t < 60.

End Strftime.

(** ** Exceptions, provider, world *)

Inductive exn_class :=
| BadCredentialsException
| TwoFactorAuthRequiredException
| LoginRequiredException
| ProfileNotExistsException
| ConnectionException        (* any other exception of the provider *)
| OSError
| EOFError.

Global Instance exn_class_eq_dec : EqDecision exn_class.
Proof. solve_decision. Defined.

(** What a Python computation can raise: [sys.exit(code)] raises
    [SystemExit], which [except Exception] does not catch; everything else
    the script meets is a subclass of [Exception] and carries a message. *)
Inductive exn :=
| SystemExit (code : nat)
| Exception (cls : exn_class) (msg : string).

(** What the provider raises: an exception class and its message. *)
Definition error : Type := exn_class * string.

(** The fields of [instaloader.Profile] the script reads. *)
Record profile := Profile {
  full_name : string;
  n_followers : nat;     (* profile.followers *)
  n_followees : nat      (* profile.followees *)
}.

(** A lazy paginated enumeration: the usernames it yields, and how it
    ends ([None]: exhausted normally; [Some err]: raises [err] after
    them). *)
Record enumeration := Enumeration {
  yields : list string;
  ending : option error
}.

(** The external provider, as the script sees it. *)
Record provider := Provider {
  login : string → string → option error;
  two_factor_login : string → option error;
  from_username : string → error + profile;
  get_followees : enumeration;
  get_followers : enumeration
}.

(** The rest of the environment: the clock (successive readings of
    [datetime.now()]), the iteration order of a [set] object (unspecified
    by Python; it varies with the hash seed), and whether [open(name, "w")]
    succeeds. *)
Record env := Env {
  service : provider;
  now : nat → datetime;
  iter_order : gset string → list string;
  creatable : string → bool
}.

(** The iteration order enumerates exactly the elements of the set,
    each once. *)
Definition iter_ok (e : env) : Prop :=
  ∀ X : gset string, iter_order e X ≡ₚ elements X.

(** One call to the provider. *)
Inductive request :=
| ReqLogin (user password : string)
| ReqTwoFactor (code : string)
| ReqProfile (name : string)
| ReqFollowees
| ReqFollowers.

(** References to [set] objects are indices into the store. *)
Abbreviation ref := nat.

Record world := World {
  stdin : list string;                  (* lines still to be typed *)
  console : list string;                (* what has been shown, oldest first *)
  net : list request;                   (* provider calls made, oldest first *)
  heap : list (gset string);            (* the [set] objects *)
  fs : gmap string (list string);       (* files: name ↦ successive writes *)
  ticks : nat                           (* readings of the clock so far *)
}.

(** ** The state-and-exception monad *)

Definition M (A : Type) : Type := world → (exn + A) * world.

Definition ret {A} (a : A) : M A := λ w, (inr a, w).

Definition bind {A B} (m : M A) (k : A → M B) : M B :=
  λ w, match m w with
       | (inr a, w') => k a w'
       | (inl e, w') => (inl e, w')
       end.

Definition raise {A} (e : exn) : M A := λ w, (inl e, w).

(** [try: body  except ...: handler]; [handler e = None] when no
    [except] clause matches, and the exception propagates. An exception
    raised by the handler itself is not caught here. *)
Definition try_except {A} (body : M A) (handler : exn → option (M A)) : M A :=
  λ w, match body w with
       | (inr a, w') => (inr a, w')
       | (inl e, w') =>
           match handler e with
           | Some h => h w'
           | None => (inl e, w')
           end
       end.

Declare Scope py_scope.
Delimit Scope py_scope with py.
Notation "x <- m ;; k" := (bind m (λ x, k))
  (at level 100, m at next level, right associativity) : py_scope.
Notation "m ;; k" := (bind m (λ _, k))
  (at level 100, right associativity) : py_scope.
Open Scope py_scope.

Definition modify (f : world → world) : M unit := λ w, (inr tt, f w).
Definition gets {A} (f : world → A) : M A := λ w, (inr (f w), w).

Definition show (s : string) (w : world) : world :=
  World (stdin w) (console w ++ [s]) (net w) (heap w) (fs w) (ticks w).

(** The characters written in the source as backslash-n and backslash-r. *)
Definition nl : string := String "010"%char EmptyString.
Definition cr : string := String "013"%char EmptyString.

(** [print(s, end=e)] *)
Definition print_end (s e : string) : M unit := modify (show (s +:+ e)).
(** [print(s)] *)
Definition print (s : string) : M unit := print_end s nl.

(** [sys.exit(code)] *)
Definition sys_exit {A} (code : nat) : M A := raise (SystemExit code).

(** [input(prompt)]: shows the prompt, reads one line; [EOFError] when
    no input is left. [getpass.getpass(prompt)] is the same on the model's
    console (nothing typed is ever recorded on it). *)
Definition input (prompt : string) : M string :=
  λ w, let w1 := show prompt w in
       match stdin w1 with
       | [] => (inl (Exception EOFError "EOF when reading a line"), w1)
       | line :: rest =>
           (inr line,
            World rest (console w1) (net w1) (heap w1) (fs w1) (ticks w1))
       end.
Definition getpass (prompt : string) : M string := input prompt.

(** A call to the provider is recorded, then answers. *)
Definition call (r : request) : M unit :=
  modify (λ w, World (stdin w) (console w) (net w ++ [r]) (heap w) (fs w) (ticks w)).

Definition throw {A} (err : error) : M A := raise (Exception err.1 err.2).

Definition answer (r : option error) : M unit :=
  match r with
  | None => ret tt
  | Some err => throw err
  end.

(** [datetime.now()] *)
Definition datetime_now (e : env) : M datetime :=
  λ w, (inr (now e (ticks w)),
        World (stdin w) (console w) (net w) (heap w) (fs w) (S (ticks w))).

(** *** [set] objects *)

Definition deref (w : world) (r : ref) : gset string :=
  default ∅ (heap w !! r).

(** Allocation of a new [set] object holding [X]. *)
Definition new_set (X : gset string) : M ref :=
  λ w, (inr (length (heap w)),
        World (stdin w) (console w) (net w) (heap w ++ [X]) (fs w) (ticks w)).

(** [s.add(x)] mutates the object in place. *)
Definition set_add (r : ref) (x : string) : M unit :=
  modify (λ w, World (stdin w) (console w) (net w)
                 (alter (λ X, {[x]} ∪ X) r (heap w)) (fs w) (ticks w)).

(** [len(s)] *)
Definition set_len (r : ref) : M nat := gets (λ w, size (deref w r)).

(** [a & b] builds a new object and leaves its operands alone. *)
Definition set_and (a b : ref) : M ref :=
  λ w, new_set (mutual_of (deref w a) (deref w b)) w.

(** [sorted(s)]: a new list, from the set's iteration order. *)
Definition sorted_set (e : env) (r : ref) : M (list string) :=
  gets (λ w, PyStr.sorted (iter_order e (deref w r))).

(** *** Files *)

(** [open(name, "w", encoding="utf-8")]: creates or truncates. *)
Definition open_w (e : env) (name : string) : M unit :=
  λ w, if creatable e name
       then (inr tt, World (stdin w) (console w) (net w) (heap w)
                       (<[name := []]> (fs w)) (ticks w))
       else (inl (Exception OSError name), w).

(** [f.write(s)], when the device accepts the data; [OnDisk.write] below
    is the write that can fail. *)
Definition write (name s : string) : M unit :=
  modify (λ w, World (stdin w) (console w) (net w) (heap w)
                 (alter (λ chunks, chunks ++ [s]) name (fs w)) (ticks w)).

(** [for x in xs: body(x)] over a list. *)
Fixpoint for_in {A} (xs : list A) (body : A → M unit) : M unit :=
  match xs with
  | [] => ret tt
  | x :: rest => body x ;; for_in rest body
  end.

(** [for x in enumeration: body(x)]: the items, then the ending. *)
Definition for_enum (en : enumeration) (body : string → M unit) : M unit :=
  for_in (yields en) body ;; answer (ending en).

(** ** [get_profile_data] (lines 13-50) *)

Definition get_profile_data (e : env) (target_username : string)
  : M (ref * ref) :=
  print (nl +:+ "Fetching profile: @" +:+ target_username) ;;
  profile <- try_except
    (call (ReqProfile target_username) ;;
     match from_username (service e) target_username with
     | inl err => throw err
     | inr p => ret p
     end)
    (λ x, match x with
          | Exception ProfileNotExistsException _ => Some (
              print ("Error: Profile @" +:+ target_username
                       +:+ " does not exist.") ;;
              sys_exit 1)
          | Exception LoginRequiredException _ => Some (
              print "Error: This profile is private. Login is required and you must follow this account." ;;
              sys_exit 1)
          | _ => None
          end) ;;
  print ("Profile found: " +:+ full_name profile
           +:+ " | Followers: " +:+ PyStr.of_nat (n_followers profile)
           +:+ " | Following: " +:+ PyStr.of_nat (n_followees profile)) ;;
  print (nl +:+ "Note: Fetching large follower/following lists may take a while due to Instagram rate limits.") ;;
  print (nl +:+ "Fetching following list...") ;;
  following <- new_set ∅ ;;
  try_except
    (call ReqFollowees ;;
     for_enum (get_followees (service e)) (λ username,
       set_add following username ;;
       n <- set_len following ;;
       print_end ("  Following: " +:+ PyStr.of_nat n) cr))
    (λ x, match x with
          | Exception LoginRequiredException _ => Some (
              print (nl +:+ "Error: Login required to fetch following list.") ;;
              sys_exit 1)
          | _ => None
          end) ;;
  n <- set_len following ;;
  print ("  Following fetched: " +:+ PyStr.of_nat n) ;;
  print (nl +:+ "Fetching followers list...") ;;
  followers <- new_set ∅ ;;
  try_except
    (call ReqFollowers ;;
     for_enum (get_followers (service e)) (λ username,
       set_add followers username ;;
       n <- set_len followers ;;
       print_end ("  Followers: " +:+ PyStr.of_nat n) cr))
    (λ x, match x with
          | Exception LoginRequiredException _ => Some (
              print (nl +:+ "Error: Login required to fetch followers list.") ;;
              sys_exit 1)
          | _ => None
          end) ;;
  n <- set_len followers ;;
  print ("  Followers fetched: " +:+ PyStr.of_nat n) ;;
  ret (followers, following).

(** ** [write_report] (lines 53-82) *)

Definition report_name (target_username : string) (t : datetime) : string :=
  target_username +:+ "_analysis_" +:+ Strftime.compact t +:+ ".txt".

Definition rule (n : nat) (c : ascii) : string :=
  PyStr.replicate_char n c +:+ nl.

Definition entry_line (username : string) : string :=
  "@" +:+ username +:+ nl.

Definition write_report (e : env) (target_username : string)
    (followers following : ref) : M (string * nat * nat * nat) :=
  mutual <- set_and followers following ;;
  timestamp <- datetime_now e ;;
  let filename := report_name target_username timestamp in
  open_w e filename ;;
  write filename ("Instagram Follower Analysis for @" +:+ target_username +:+ nl) ;;
  generated <- datetime_now e ;;
  write filename ("Generated: " +:+ Strftime.human generated +:+ nl) ;;
  write filename (rule 60 "=" +:+ nl) ;;
  (* Following *)
  n <- set_len following ;;
  write filename ("ACCOUNTS @" +:+ target_username +:+ " FOLLOWS ("
                    +:+ PyStr.of_nat n +:+ ")" +:+ nl) ;;
  write filename (rule 40 "-") ;;
  names <- sorted_set e following ;;
  for_in names (λ username, write filename (entry_line username)) ;;
  (* Followers *)
  n <- set_len followers ;;
  write filename (nl +:+ "ACCOUNTS THAT FOLLOW @" +:+ target_username +:+ " ("
                    +:+ PyStr.of_nat n +:+ ")" +:+ nl) ;;
  write filename (rule 40 "-") ;;
  names <- sorted_set e followers ;;
  for_in names (λ username, write filename (entry_line username)) ;;
  (* Mutual follows *)
  n <- set_len mutual ;;
  write filename (nl +:+ "MUTUAL FOLLOWS - Both follow each other ("
                    +:+ PyStr.of_nat n +:+ ")" +:+ nl) ;;
  write filename (rule 40 "-") ;;
  names <- sorted_set e mutual ;;
  for_in names (λ username, write filename (entry_line username)) ;;
  len_followers <- set_len followers ;;
  len_following <- set_len following ;;
  len_mutual <- set_len mutual ;;
  ret (filename, len_followers, len_following, len_mutual).

(** ** [main] (lines 85-134) *)

Definition main (e : env) : M unit :=
  print (PyStr.replicate_char 60 "=") ;;
  print "       Instagram Follower Analyzer" ;;
  print (PyStr.replicate_char 60 "=") ;;
  raw <- input (nl +:+ "Enter the Instagram username to analyze: ") ;;
  let target_username := normalize_target raw in
  (if decide (target_username = "")
   then print "Error: Username cannot be empty." ;; sys_exit 1
   else ret tt) ;;
  print (nl +:+ "Login is required to access follower/following data.") ;;
  print "Your credentials are used only to authenticate with Instagram." ;;
  raw_user <- input "Your Instagram username (for login): " ;;
  let session_username := PyStr.strip raw_user in
  session_password <- getpass "Your Instagram password: " ;;
  print (nl +:+ "Logging in...") ;;
  try_except
    (call (ReqLogin session_username session_password) ;;
     answer (login (service e) session_username session_password) ;;
     print "Login successful.")
    (λ x, match x with
          | Exception BadCredentialsException _ => Some (
              print "Error: Invalid username or password." ;;
              sys_exit 1)
          | Exception TwoFactorAuthRequiredException _ => Some (
              raw_code <- input "Two-factor authentication required. Enter the code: " ;;
              let code := PyStr.strip raw_code in
              call (ReqTwoFactor code) ;;
              answer (two_factor_login (service e) code) ;;
              print "Login successful.")
          | Exception _ msg => Some (
              print ("Login error: " +:+ msg) ;;
              sys_exit 1)
          | SystemExit _ => None
          end) ;;
  data <- get_profile_data e target_username ;;
  let followers := data.1 in
  let following := data.2 in
  print (nl +:+ "Writing report...") ;;
  result <- write_report e target_username followers following ;;
  let '(filename, n_followers, n_following, n_mutual) := result in
  print (nl +:+ "Analysis complete!") ;;
  print ("  Following:      " +:+ PyStr.of_nat n_following) ;;
  print ("  Followers:      " +:+ PyStr.of_nat n_followers) ;;
  print ("  Mutual follows: " +:+ PyStr.of_nat n_mutual) ;;
  print (nl +:+ "Report saved to: " +:+ filename).

(** The exit status of the interpreter: 0 when [main] returns, the code
    of [sys.exit], and 1 (after a traceback on stderr, which is no output
    of the script) when an exception escapes [main]. *)
Definition exit_status (r : exn + unit) : nat :=
  match r with
  | inr _ => 0
  | inl (SystemExit code) => code
  | inl (Exception _ _) => 1
  end.

(** The first world of a run: nothing shown, nothing requested, no set
    object; [typed] is what the user will type, [files] what is on disk. *)
Definition initial (typed : list string) (files : gmap string (list string))
  : world := World typed [] [] [] files 0.


(** ** Vocabulary of the statements *)

(** In the words of the specification: [res] is [raw] without the whitespace around it
    and without the ["@"] in front. [raw] is cut into leading whitespace,
    a core that neither starts nor ends with whitespace, and trailing
    whitespace; the core is a run of ["@"] followed by [res], which does
    not start with ["@"]. Every character of [res] is a character of
    [raw], as typed. *)
Definition normal_form (raw res : string) : Prop :=
  ∃ (pre post : string) (n : nat),
    raw = pre +:+ (PyStr.replicate_char n "@" +:+ res) +:+ post ∧
    PyStr.all_chars PyStr.isspace pre = true ∧
    PyStr.all_chars PyStr.isspace post = true ∧
    (∀ c, PyStr.first_char (PyStr.replicate_char n "@" +:+ res) = Some c →
          PyStr.isspace c = false) ∧
    (∀ c, PyStr.last_char (PyStr.replicate_char n "@" +:+ res) = Some c →
          PyStr.isspace c = false) ∧
    PyStr.first_char res ≠ Some "@"%char.


(** [names] lists the set [X] in ascending order, each element once. *)
Definition lists_sorted (names : list string) (X : gset string) : Prop :=
  StronglySorted String.le names ∧ NoDup names ∧ ∀ u, u ∈ names ↔ u ∈ X.

(** A reference that points to an object of the store. *)
Definition valid_ref (w : world) (r : ref) : Prop := r < length (heap w).

(** The world after more chunks have been written to an open file. *)
Definition append_to (name : string) (chunks : list string) (w : world)
  : world :=
  World (stdin w) (console w) (net w) (heap w)
        (alter (λ old, old ++ chunks) name (fs w)) (ticks w).

(** One section of the report: its header line, the rule under it, and
    one entry line per name. *)
Definition section_of (header : string) (names : list string) : list string :=
  header :: rule 40 "-" :: (entry_line <$> names).

(** The layout of a report: the title, the generation line and a rule,
    then the sections of the accounts followed, of the followers and of
    the mutual follows, each with the count shown in its header and the
    names listed under it. *)
Definition report_layout (target : string) (generated : datetime)
    (n_following : nat) (following : list string)
    (n_followers : nat) (followers : list string)
    (n_mutual : nat) (mutual : list string) : list string :=
  [ "Instagram Follower Analysis for @" +:+ target +:+ nl;
    "Generated: " +:+ Strftime.human generated +:+ nl;
    rule 60 "=" +:+ nl ]
  ++ section_of ("ACCOUNTS @" +:+ target +:+ " FOLLOWS ("
                   +:+ PyStr.of_nat n_following +:+ ")" +:+ nl) following
  ++ section_of (nl +:+ "ACCOUNTS THAT FOLLOW @" +:+ target +:+ " ("
                   +:+ PyStr.of_nat n_followers +:+ ")" +:+ nl) followers
  ++ section_of (nl +:+ "MUTUAL FOLLOWS - Both follow each other ("
                   +:+ PyStr.of_nat n_mutual +:+ ")" +:+ nl) mutual.

(** [s] is the number [n] written on exactly [width] decimal digits. *)
Definition decimal_field (width n : nat) (s : string) : Prop :=
  String.length s = width ∧ PyStr.digits_value s = Some (N.of_nat n).

(** A field of the timestamp: the decimal of [m] padded to [width] has
    exactly [width] characters and reads back as [m]. *)
Definition field_ok (width : nat) (m : N) : bool :=
  let s := PyStr.zfill width (PyStr.of_N m) in
  (String.length s =? width) && bool_decide (PyStr.digits_value s = Some m).

(** [field_ok] on [count] successive numbers from [m]. *)
Fixpoint fields_ok (width count : nat) (m : N) : bool :=
  match count with
  | 0 => true
  | S k => field_ok width m && fields_ok width k (N.succ m)
  end.

(** ** Scenario 1 of the specification

    The target follows alice and bob, and is followed by bob and carol. *)

Definition scenario_provider : provider :=
  Provider (λ _ _, None) (λ _, None)
    (λ _, inr (Profile "Target" 2 2))
    (Enumeration ["alice"; "bob"] None)
    (Enumeration ["bob"; "carol"] None).

Definition scenario_clock (n : nat) : datetime :=
  DateTime 2024 3 5 7 8 (9 + n).

Definition scenario_env : env :=
  Env scenario_provider scenario_clock elements (λ _, true).

(** Another process on the same data: a later clock, and the sets
    iterated in the opposite order. *)
Definition scenario_env_later : env :=
  Env scenario_provider (λ n, DateTime 2025 11 30 23 59 (n + 40))
      (λ X, reverse (elements X)) (λ _, true).

(** The store once both lists are fetched: followers at 0, following at 1. *)
Definition scenario_fetched : world :=
  World [] [] [] [ {[ "bob"; "carol" ]}; {[ "alice"; "bob" ]} ] ∅ 0.

(** ** How a fetch can end, as the provider decides it *)

(** The provider refuses access: the profile is not found or private at
    resolution, or a login-required error is raised while the following
    list is enumerated, or while the followers list is (the following
    list having been enumerated in full). *)
Inductive fetch_refused (e : env) (target : string) : Prop :=
| refused_not_found (msg : string) :
    from_username (service e) target = inl (ProfileNotExistsException, msg) →
    fetch_refused e target
| refused_private (msg : string) :
    from_username (service e) target = inl (LoginRequiredException, msg) →
    fetch_refused e target
| refused_following (p : profile) (msg : string) :
    from_username (service e) target = inr p →
    ending (get_followees (service e)) = Some (LoginRequiredException, msg) →
    fetch_refused e target
| refused_followers (p : profile) (msg : string) :
    from_username (service e) target = inr p →
    ending (get_followees (service e)) = None →
    ending (get_followers (service e)) = Some (LoginRequiredException, msg) →
    fetch_refused e target.

(** The profile is resolved and both enumerations run to their end. *)
Definition fetch_complete (e : env) (target : string) : Prop :=
  (∃ p, from_username (service e) target = inr p) ∧
  ending (get_followees (service e)) = None ∧
  ending (get_followers (service e)) = None.

(** What the handlers of [get_profile_data] make of an error of the
    provider: at resolution, and during an enumeration. *)
Definition on_lookup_error (err : error) : exn :=
  match err.1 with
  | ProfileNotExistsException | LoginRequiredException => SystemExit 1
  | _ => Exception err.1 err.2
  end.

Definition on_enum_error (err : error) : exn :=
  match err.1 with
  | LoginRequiredException => SystemExit 1
  | _ => Exception err.1 err.2
  end.

(** The result of [get_profile_data] in a store of [n] objects. *)
Definition fetch_result (e : env) (target : string) (n : nat)
  : exn + (ref * ref) :=
  match from_username (service e) target with
  | inl err => inl (on_lookup_error err)
  | inr _ =>
      match ending (get_followees (service e)) with
      | Some err => inl (on_enum_error err)
      | None =>
          match ending (get_followers (service e)) with
          | Some err => inl (on_enum_error err)
          | None => inr (S n, n)
          end
      end
  end.

(** ** Vocabulary for whole runs *)

(** Lines 125-134 of [main]: what follows a successful login, for the
    target username [main] has read. *)
Definition fetch_and_report (e : env) (target_username : string) : M unit :=
  data <- get_profile_data e target_username ;;
  let followers := data.1 in
  let following := data.2 in
  print (nl +:+ "Writing report...") ;;
  result <- write_report e target_username followers following ;;
  let '(filename, n_followers, n_following, n_mutual) := result in
  print (nl +:+ "Analysis complete!") ;;
  print ("  Following:      " +:+ PyStr.of_nat n_following) ;;
  print ("  Followers:      " +:+ PyStr.of_nat n_followers) ;;
  print ("  Mutual follows: " +:+ PyStr.of_nat n_mutual) ;;
  print (nl +:+ "Report saved to: " +:+ filename).

(** The target username of a run: the first line typed, normalised. *)
Definition typed_target (w : world) : string :=
  normalize_target (default "" (head (stdin w))).

(** What the console shows up to the first prompt. *)
Definition banner : list string :=
  [ PyStr.replicate_char 60 "=" +:+ nl;
    "       Instagram Follower Analyzer" +:+ nl;
    PyStr.replicate_char 60 "=" +:+ nl;
    nl +:+ "Enter the Instagram username to analyze: " ].

(** ** Scenario 5 of the specification

    The following list is enumerated in full; the provider then raises a
    login-required error while the followers are enumerated. *)

Definition scenario5_provider : provider :=
  Provider (λ _ _, None) (λ _, None)
    (λ _, inr (Profile "Target" 2 2))
    (Enumeration ["alice"; "bob"] None)
    (Enumeration ["bob"]
       (Some (LoginRequiredException, "Login required to access followers.")))%string.

Definition scenario5_env : env :=
  Env scenario5_provider scenario_clock elements (λ _, true).

(** What the user types in the scenarios: the target, then the
    credentials of the session. *)
Definition scenario_typed : list string := [" @target "; "me"; "secret"].

(** ** A two-factor login whose code is rejected

    The first login raises the two-factor challenge; the retry with the
    code typed raises [BadCredentialsException]. *)

Definition twofactor_provider : provider :=
  Provider
    (λ _ _, Some (TwoFactorAuthRequiredException,
                  "Login error: two-factor authentication required."))
    (λ _, Some (BadCredentialsException, "2FA error: invalid code."))
    (λ _, inr (Profile "Target" 2 2))
    (Enumeration ["alice"; "bob"] None)
    (Enumeration ["bob"; "carol"] None).

Definition twofactor_env : env :=
  Env twofactor_provider scenario_clock elements (λ _, true).

(** The sibling path: the first login itself raises
    [BadCredentialsException]. *)
Definition badlogin_provider : provider :=
  Provider
    (λ _ _, Some (BadCredentialsException, "Login error: wrong password."))
    (λ _, None)
    (λ _, inr (Profile "Target" 2 2))
    (Enumeration ["alice"; "bob"] None)
    (Enumeration ["bob"; "carol"] None).

Definition badlogin_env : env :=
  Env badlogin_provider scenario_clock elements (λ _, true).

(** ** Vocabulary for the login and the fetch *)

(** What the console shows from the start of a run to the login: the
    banner and the prompt for the target, the notice, the two prompts for
    the credentials, and the login line. *)
Definition login_shown : list string :=
  banner ++
  [ (nl +:+ "Login is required to access follower/following data.") +:+ nl;
    "Your credentials are used only to authenticate with Instagram." +:+ nl;
    "Your Instagram username (for login): ";
    "Your Instagram password: ";
    (nl +:+ "Logging in...") +:+ nl ].

(** The prompt of line 118. *)
Definition two_factor_prompt : string :=
  "Two-factor authentication required. Enter the code: ".

(** A provider whose login fails for a reason of its own (the network
    is down). *)
Definition offline_provider : provider :=
  Provider
    (λ _ _, Some (ConnectionException, "Network unreachable"))
    (λ _, None)
    (λ _, inr (Profile "Target" 2 2))
    (Enumeration ["alice"; "bob"] None)
    (Enumeration ["bob"; "carol"] None).

Definition offline_env : env :=
  Env offline_provider scenario_clock elements (λ _, true).

(** A provider that asks for the two-factor code and accepts it. *)
Definition challenge_provider : provider :=
  Provider
    (λ _ _, Some (TwoFactorAuthRequiredException, "challenge"))
    (λ _, None)
    (λ _, inr (Profile "Target" 2 2))
    (Enumeration ["alice"; "bob"] None)
    (Enumeration ["bob"; "carol"] None).

Definition challenge_env : env :=
  Env challenge_provider scenario_clock elements (λ _, true).

(** The progress lines of a collecting loop that starts from the set
    [X]: after each item, the label and the size of the set so far. *)
Fixpoint progress_from (label : string) (X : gset string)
    (items : list string) : list string :=
  match items with
  | [] => []
  | u :: rest =>
      ((label +:+ PyStr.of_nat (size ({[u]} ∪ X))) +:+ cr)
        :: progress_from label ({[u]} ∪ X) rest
  end.

(** The same lines, read off the enumeration: the [k]-th line shows the
    number of distinct usernames among the first [k] items. *)
Definition progress_lines (label : string) (items : list string)
  : list string :=
  (λ k, (label +:+ PyStr.of_nat (size (list_to_set (take k items) : gset string)))
          +:+ cr) <$> seq 1 (length items).

(** The first line [get_profile_data] shows. *)
Definition fetch_intro (target : string) : string :=
  (nl +:+ "Fetching profile: @" +:+ target) +:+ nl.

(** What it shows once the profile is resolved. *)
Definition profile_shown (p : profile) : list string :=
  [ ("Profile found: " +:+ full_name p
       +:+ " | Followers: " +:+ PyStr.of_nat (n_followers p)
       +:+ " | Following: " +:+ PyStr.of_nat (n_followees p)) +:+ nl;
    (nl +:+ "Note: Fetching large follower/following lists may take a while due to Instagram rate limits.") +:+ nl;
    (nl +:+ "Fetching following list...") +:+ nl ].

(** What it shows between the two enumerations, the following set
    being [A]. *)
Definition following_done (A : gset string) : list string :=
  [ ("  Following fetched: " +:+ PyStr.of_nat (size A)) +:+ nl;
    (nl +:+ "Fetching followers list...") +:+ nl ].

(** Its last line, the followers set being [B]. *)
Definition followers_done (B : gset string) : string :=
  ("  Followers fetched: " +:+ PyStr.of_nat (size B)) +:+ nl.

(** The error line of an enumeration ([what] is "following" or
    "followers"): shown for a login-required error, and for no other. *)
Definition denied_line (what : string) (err : error) : list string :=
  match err.1 with
  | LoginRequiredException =>
      [ (nl +:+ "Error: Login required to fetch " +:+ what +:+ " list.") +:+ nl ]
  | _ => []
  end.

(** The error line of the resolution. *)
Definition lookup_line (target : string) (err : error) : list string :=
  match err.1 with
  | ProfileNotExistsException =>
      [ ("Error: Profile @" +:+ target +:+ " does not exist.") +:+ nl ]
  | LoginRequiredException =>
      [ "Error: This profile is private. Login is required and you must follow this account." +:+ nl ]
  | _ => []
  end.

(** Everything [get_profile_data] shows in a complete fetch. *)
Definition fetch_shown (e : env) (target : string) (p : profile)
  : list string :=
  fetch_intro target :: profile_shown p
    ++ progress_lines "  Following: " (yields (get_followees (service e)))
    ++ following_done (list_to_set (yields (get_followees (service e))))
    ++ progress_lines "  Followers: " (yields (get_followers (service e)))
    ++ [followers_done (list_to_set (yields (get_followers (service e))))].

(** The last lines of a successful run (lines 127-134). *)
Definition summary_shown (filename : string)
    (n_following n_followers n_mutual : nat) : list string :=
  [ (nl +:+ "Writing report...") +:+ nl;
    (nl +:+ "Analysis complete!") +:+ nl;
    ("  Following:      " +:+ PyStr.of_nat n_following) +:+ nl;
    ("  Followers:      " +:+ PyStr.of_nat n_followers) +:+ nl;
    ("  Mutual follows: " +:+ PyStr.of_nat n_mutual) +:+ nl;
    (nl +:+ "Report saved to: " +:+ filename) +:+ nl ].

(** The report of the following set [A] and the followers set [B], as
    [write_report] lays it out when the sets are iterated as [e] does. *)
Definition report_of (e : env) (target : string) (generated : datetime)
    (A B : gset string) : list string :=
  report_layout target generated
    (size A) (PyStr.sorted (iter_order e A))
    (size B) (PyStr.sorted (iter_order e B))
    (size (B ∩ A)) (PyStr.sorted (iter_order e (B ∩ A))).

(** ** Providers of the error scenarios *)

(** Scenario 4 of the specification: no such profile. *)
Definition notfound_provider : provider :=
  Provider (λ _ _, None) (λ _, None)
    (λ name, inl (ProfileNotExistsException,
                  "Profile " +:+ name +:+ " does not exist."))
    (Enumeration [] None) (Enumeration [] None).

Definition notfound_env : env :=
  Env notfound_provider scenario_clock elements (λ _, true).

(** A private profile the session does not follow. *)
Definition private_provider : provider :=
  Provider (λ _ _, None) (λ _, None)
    (λ _, inl (LoginRequiredException, "Login required."))
    (Enumeration [] None) (Enumeration [] None).

Definition private_env : env :=
  Env private_provider scenario_clock elements (λ _, true).

(** The list of accounts followed is not visible. *)
Definition hidden_provider : provider :=
  Provider (λ _ _, None) (λ _, None)
    (λ _, inr (Profile "Target" 2 2))
    (Enumeration ["alice"] (Some (LoginRequiredException, "Login required.")))
    (Enumeration ["bob"; "carol"] None).

Definition hidden_env : env :=
  Env hidden_provider scenario_clock elements (λ _, true).

(** The connection drops while the followers are enumerated. *)
Definition flaky_provider : provider :=
  Provider (λ _ _, None) (λ _, None)
    (λ _, inr (Profile "Target" 2 2))
    (Enumeration ["alice"; "bob"] None)
    (Enumeration ["bob"] (Some (ConnectionException, "Connection reset")))%string.

Definition flaky_env : env :=
  Env flaky_provider scenario_clock elements (λ _, true).

(** A provider that yields the same usernames more than once. *)
Definition repeating_provider : provider :=
  Provider (λ _ _, None) (λ _, None)
    (λ _, inr (Profile "Target" 2 2))
    (Enumeration ["bob"; "alice"; "bob"] None)
    (Enumeration ["carol"; "carol"; "bob"] None).

Definition repeating_env : env :=
  Env repeating_provider scenario_clock elements (λ _, true).


(** Scenario 1 with every clock reading in the same second. *)
Definition same_second_env : env :=
  Env scenario_provider (λ _, DateTime 2024 3 5 7 8 9) elements (λ _, true).

(** The line the login handlers show for a failure that is not the
    two-factor challenge (lines 115 and 122). *)
Definition login_error_line (cls : exn_class) (msg : string) : string :=
  match cls with
  | BadCredentialsException => "Error: Invalid username or password." +:+ nl
  | _ => ("Login error: " +:+ msg) +:+ nl
  end.

(** The calls of a whole session, in order: the login, the two-factor
    completion when there is one, the profile lookup and the two
    enumerations. *)
Definition session_requests (user pw : string) (code : option string)
    (target : string) : list request :=
  ReqLogin user pw
    :: match code with Some c => [ReqTwoFactor c] | None => [] end
    ++ [ReqProfile target; ReqFollowees; ReqFollowers].



(** ** Writes that fail (lines 59-80)

    [open] is not the only call on the report file that can raise. Each
    [f.write], and the close that ends the [with] block (it flushes what
    is still buffered), raises [OSError] when the device refuses the
    data: a full disk, a quota, an I/O error. By then the file exists,
    created or truncated by [open], and what it holds afterwards is what
    reached the device. [write] above is the write that the device
    accepts; the definitions of [OnDisk] take the device as a parameter,
    and are otherwise the same translation of the source. *)

(** The device under the files. [write_fault d name written chunk]: does
    writing [chunk] to the file [name], which has received [written]
    since it was opened, fail? [close_fault d name written]: does closing
    it? A failure is the message of the [OSError] and what the file is
    left holding (nothing is assumed of it). *)
Record disk := Disk {
  write_fault : string → list string → string → option (string * list string);
  close_fault : string → list string → option (string * list string)
}.

Module OnDisk.

(** What an open file has received. *)
Definition written (name : string) (w : world) : list string :=
  default [] (fs w !! name).

(** A failed write or close: [OSError], the file left as the fault says. *)
Definition fail {A} (name : string) (fault : string * list string) : M A :=
  λ w, (inl (Exception OSError fault.1),
        World (stdin w) (console w) (net w) (heap w)
          (<[name := fault.2]> (fs w)) (ticks w)).

(** [f.write(s)] *)
Definition write (d : disk) (name s : string) : M unit :=
  λ w, match write_fault d name (written name w) s with
       | Some fault => fail name fault w
       | None =>
           (inr tt, World (stdin w) (console w) (net w) (heap w)
                      (alter (λ chunks, chunks ++ [s]) name (fs w)) (ticks w))
       end.

(** The close at the end of the [with] block. (When the block is left
    by an exception the file is closed too; what it then holds is what
    the fault that raised says.) *)
Definition close (d : disk) (name : string) : M unit :=
  λ w, match close_fault d name (written name w) with
       | Some fault => fail name fault w
       | None => (inr tt, w)
       end.

(** [write_report] (lines 53-82) *)
Definition write_report (d : disk) (e : env) (target_username : string)
    (followers following : ref) : M (string * nat * nat * nat) :=
  mutual <- set_and followers following ;;
  timestamp <- datetime_now e ;;
  let filename := report_name target_username timestamp in
  open_w e filename ;;
  write d filename ("Instagram Follower Analysis for @" +:+ target_username +:+ nl) ;;
  generated <- datetime_now e ;;
  write d filename ("Generated: " +:+ Strftime.human generated +:+ nl) ;;
  write d filename (rule 60 "=" +:+ nl) ;;
  (* Following *)
  n <- set_len following ;;
  write d filename ("ACCOUNTS @" +:+ target_username +:+ " FOLLOWS ("
                      +:+ PyStr.of_nat n +:+ ")" +:+ nl) ;;
  write d filename (rule 40 "-") ;;
  names <- sorted_set e following ;;
  for_in names (λ username, write d filename (entry_line username)) ;;
  (* Followers *)
  n <- set_len followers ;;
  write d filename (nl +:+ "ACCOUNTS THAT FOLLOW @" +:+ target_username +:+ " ("
                      +:+ PyStr.of_nat n +:+ ")" +:+ nl) ;;
  write d filename (rule 40 "-") ;;
  names <- sorted_set e followers ;;
  for_in names (λ username, write d filename (entry_line username)) ;;
  (* Mutual follows *)
  n <- set_len mutual ;;
  write d filename (nl +:+ "MUTUAL FOLLOWS - Both follow each other ("
                      +:+ PyStr.of_nat n +:+ ")" +:+ nl) ;;
  write d filename (rule 40 "-") ;;
  names <- sorted_set e mutual ;;
  for_in names (λ username, write d filename (entry_line username)) ;;
  close d filename ;;
  len_followers <- set_len followers ;;
  len_following <- set_len following ;;
  len_mutual <- set_len mutual ;;
  ret (filename, len_followers, len_following, len_mutual).

(** Lines 125-134 of [main]. *)
Definition fetch_and_report (d : disk) (e : env) (target_username : string)
  : M unit :=
  data <- get_profile_data e target_username ;;
  let followers := data.1 in
  let following := data.2 in
  print (nl +:+ "Writing report...") ;;
  result <- write_report d e target_username followers following ;;
  let '(filename, n_followers, n_following, n_mutual) := result in
  print (nl +:+ "Analysis complete!") ;;
  print ("  Following:      " +:+ PyStr.of_nat n_following) ;;
  print ("  Followers:      " +:+ PyStr.of_nat n_followers) ;;
  print ("  Mutual follows: " +:+ PyStr.of_nat n_mutual) ;;
  print (nl +:+ "Report saved to: " +:+ filename).

(** [main] (lines 85-134) *)
Definition main (d : disk) (e : env) : M unit :=
  print (PyStr.replicate_char 60 "=") ;;
  print "       Instagram Follower Analyzer" ;;
  print (PyStr.replicate_char 60 "=") ;;
  raw <- input (nl +:+ "Enter the Instagram username to analyze: ") ;;
  let target_username := normalize_target raw in
  (if decide (target_username = "")
   then print "Error: Username cannot be empty." ;; sys_exit 1
   else ret tt) ;;
  print (nl +:+ "Login is required to access follower/following data.") ;;
  print "Your credentials are used only to authenticate with Instagram." ;;
  raw_user <- input "Your Instagram username (for login): " ;;
  let session_username := PyStr.strip raw_user in
  session_password <- getpass "Your Instagram password: " ;;
  print (nl +:+ "Logging in...") ;;
  try_except
    (call (ReqLogin session_username session_password) ;;
     answer (login (service e) session_username session_password) ;;
     print "Login successful.")
    (λ x, match x with
          | Exception BadCredentialsException _ => Some (
              print "Error: Invalid username or password." ;;
              sys_exit 1)
          | Exception TwoFactorAuthRequiredException _ => Some (
              raw_code <- input "Two-factor authentication required. Enter the code: " ;;
              let code := PyStr.strip raw_code in
              call (ReqTwoFactor code) ;;
              answer (two_factor_login (service e) code) ;;
              print "Login successful.")
          | Exception _ msg => Some (
              print ("Login error: " +:+ msg) ;;
              sys_exit 1)
          | SystemExit _ => None
          end) ;;
  data <- get_profile_data e target_username ;;
  let followers := data.1 in
  let following := data.2 in
  print (nl +:+ "Writing report...") ;;
  result <- write_report d e target_username followers following ;;
  let '(filename, n_followers, n_following, n_mutual) := result in
  print (nl +:+ "Analysis complete!") ;;
  print ("  Following:      " +:+ PyStr.of_nat n_following) ;;
  print ("  Followers:      " +:+ PyStr.of_nat n_followers) ;;
  print ("  Mutual follows: " +:+ PyStr.of_nat n_mutual) ;;
  print (nl +:+ "Report saved to: " +:+ filename).

End OnDisk.

(** The first failure of the device when [chunks] are written one after
    the other to the file [name], which has received [written], and the
    file is then closed; [None] when all is accepted. *)
Fixpoint first_fault (d : disk) (name : string) (written chunks : list string)
  : option (string * list string) :=
  match chunks with
  | [] => close_fault d name written
  | chunk :: rest =>
      match write_fault d name written chunk with
      | Some fault => Some fault
      | None => first_fault d name (written ++ [chunk]) rest
      end
  end.

(** The first failure among the writes alone. *)
Fixpoint first_write_fault (d : disk) (name : string)
    (written chunks : list string) : option (string * list string) :=
  match chunks with
  | [] => None
  | chunk :: rest =>
      match write_fault d name written chunk with
      | Some fault => Some fault
      | None => first_write_fault d name (written ++ [chunk]) rest
      end
  end.

(** A device that accepts everything. *)
Definition sound_disk : disk := Disk (λ _ _ _, None) (λ _ _, None).

(** A device that is full after three writes to a file: the fourth write
    fails, and the file keeps the first three. *)
Definition full_disk : disk :=
  Disk (λ _ written _,
          if decide (3 ≤ length written)
          then Some ("No space left on device", take 3 written) else None)
       (λ _ _, None).

(** * Properties *)

(** ** Stripping *)

Section strip_facts.
Variable p : ascii → bool.

Lemma app_nil_r_str (s : string) : s +:+ "" = s.
Proof. induction s as [|c s IH]; [done|]. unfold String.app in *. simpl. by rewrite IH. Qed.

Lemma app_assoc_str (a b c : string) : (a +:+ b) +:+ c = a +:+ (b +:+ c).
Proof.
  induction a as [|x a IH]; [done|].
  unfold String.app in *. simpl. by rewrite IH.
Qed.

Lemma app_cons_str (x : ascii) (a b : string) :
  String x a +:+ b = String x (a +:+ b).
Proof. done. Qed.

(** [lstrip] removes a prefix made of stripped characters, and what is
    left does not start with one. *)
Lemma lstrip_by_split (s : string) :
  ∃ pre, s = pre +:+ PyStr.lstrip_by p s ∧ PyStr.all_chars p pre = true.
Proof.
  induction s as [|c s [pre [Hs Hpre]]]; [by exists ""|].
  simpl. destruct (p c) eqn:Hc.
  - exists (String c pre). split; [by rewrite app_cons_str, <- Hs|].
    simpl. by rewrite Hc.
  - by exists "".
Qed.

Lemma lstrip_by_first (s : string) (c : ascii) :
  PyStr.first_char (PyStr.lstrip_by p s) = Some c → p c = false.
Proof.
  induction s as [|d s IH]; [done|]. simpl.
  destruct (p d) eqn:Hd; [done|]. simpl. by intros [= <-].
Qed.

(** What is already free of a stripped first character is left alone,
    and a prefix of stripped characters is absorbed. *)
Lemma lstrip_by_stable (s : string) :
  (∀ c, PyStr.first_char s = Some c → p c = false) →
  PyStr.lstrip_by p s = s.
Proof. destruct s as [|c s]; [done|]. simpl. intros H. by rewrite (H c). Qed.

Lemma lstrip_by_absorb (pre s : string) :
  PyStr.all_chars p pre = true →
  PyStr.lstrip_by p (pre +:+ s) = PyStr.lstrip_by p s.
Proof.
  induction pre as [|c pre IH]; [done|]. simpl.
  intros [Hc Hpre]%andb_prop. rewrite Hc. auto.
Qed.

Lemma lstrip_by_all (s : string) :
  PyStr.all_chars p s = true → PyStr.lstrip_by p s = "".
Proof.
  intros H. rewrite <- (app_nil_r_str s). by rewrite lstrip_by_absorb.
Qed.

Lemma rstrip_by_split (s : string) :
  ∃ post, s = PyStr.rstrip_by p s +:+ post ∧ PyStr.all_chars p post = true.
Proof.
  induction s as [|c s [post [Hs Hpost]]]; [by exists ""|].
  simpl. destruct (PyStr.rstrip_by p s) as [|d kept] eqn:Hk.
  - destruct (p c) eqn:Hc.
    + exists (String c post). split; [by rewrite Hs at 1|]. simpl. by rewrite Hc.
    + exists post. by rewrite Hs at 1.
  - exists post. rewrite app_cons_str. by rewrite Hs at 1.
Qed.

Lemma rstrip_by_last (s : string) (c : ascii) :
  PyStr.last_char (PyStr.rstrip_by p s) = Some c → p c = false.
Proof.
  induction s as [|d s IH]; [done|]. simpl.
  destruct (PyStr.rstrip_by p s) as [|x kept] eqn:Hk.
  - destruct (p d) eqn:Hd; [done|]. simpl. by intros [= <-].
  - simpl in *. done.
Qed.

Lemma rstrip_by_first (s : string) :
  PyStr.rstrip_by p s ≠ "" →
  PyStr.first_char (PyStr.rstrip_by p s) = PyStr.first_char s.
Proof.
  destruct s as [|d s]; [done|]. simpl.
  destruct (PyStr.rstrip_by p s); [destruct (p d)|]; done.
Qed.

Lemma rstrip_by_all (s : string) :
  PyStr.all_chars p s = true → PyStr.rstrip_by p s = "".
Proof.
  induction s as [|c s IH]; [done|]. simpl.
  intros [Hc Hs]%andb_prop. by rewrite IH, Hc.
Qed.

Lemma rstrip_by_absorb (s post : string) :
  PyStr.all_chars p post = true →
  PyStr.rstrip_by p (s +:+ post) = PyStr.rstrip_by p s.
Proof.
  intros Hpost. induction s as [|c s IH].
  - by apply rstrip_by_all.
  - rewrite app_cons_str. simpl. by rewrite IH.
Qed.

Lemma rstrip_by_stable (s : string) :
  (∀ c, PyStr.last_char s = Some c → p c = false) →
  PyStr.rstrip_by p s = s.
Proof.
  induction s as [|c s IH]; [done|]. simpl. intros H.
  destruct s as [|d s].
  - simpl. by rewrite (H c).
  - rewrite IH; [done|]. intros x Hx. by apply H.
Qed.
End strip_facts.

(** ** The normalised target username *)

Lemma mem_at (c : ascii) : PyStr.mem c "@" = true ↔ c = "@"%char.
Proof. simpl. case_decide; naive_solver. Qed.

Lemma all_at_replicate (s : string) :
  PyStr.all_chars (λ c, PyStr.mem c "@") s = true ↔
  s = PyStr.replicate_char (String.length s) "@".
Proof.
  induction s as [|c s IH]; [done|]. cbn [PyStr.all_chars String.length PyStr.replicate_char].
  rewrite andb_true_iff, mem_at, IH. split.
  - intros [-> Hs]. by f_equal.
  - intros H. injection H as -> Hs. done.
Qed.

Lemma length_replicate_char (n : nat) (c : ascii) :
  String.length (PyStr.replicate_char n c) = n.
Proof. induction n; simpl; auto. Qed.

Lemma strip_split (raw : string) :
  ∃ pre post,
    raw = pre +:+ PyStr.strip raw +:+ post ∧
    PyStr.all_chars PyStr.isspace pre = true ∧
    PyStr.all_chars PyStr.isspace post = true ∧
    (∀ c, PyStr.first_char (PyStr.strip raw) = Some c → PyStr.isspace c = false) ∧
    (∀ c, PyStr.last_char (PyStr.strip raw) = Some c → PyStr.isspace c = false).
Proof.
  destruct (lstrip_by_split PyStr.isspace raw) as (pre & Hraw & Hpre).
  destruct (rstrip_by_split PyStr.isspace (PyStr.lstrip_by PyStr.isspace raw))
    as (post & Hl & Hpost).
  exists pre, post. unfold PyStr.strip. repeat split; try done.
  - by rewrite <- Hl.
  - intros c Hc. apply (lstrip_by_first PyStr.isspace raw).
    rewrite <- (rstrip_by_first PyStr.isspace); [done|].
    by intros E; rewrite E in Hc.
  - apply rstrip_by_last.
Qed.

Lemma first_char_app (a b : string) :
  a ≠ "" → PyStr.first_char (a +:+ b) = PyStr.first_char a.
Proof. by destruct a. Qed.

Lemma strip_unique (pre core post : string) :
  PyStr.all_chars PyStr.isspace pre = true →
  PyStr.all_chars PyStr.isspace post = true →
  (∀ c, PyStr.first_char core = Some c → PyStr.isspace c = false) →
  (∀ c, PyStr.last_char core = Some c → PyStr.isspace c = false) →
  PyStr.strip (pre +:+ core +:+ post) = core.
Proof.
  intros Hpre Hpost Hfirst Hlast. unfold PyStr.strip.
  rewrite lstrip_by_absorb by done.
  destruct core as [|c core].
  - change ("" +:+ post) with post. by rewrite lstrip_by_all.
  - rewrite lstrip_by_stable.
    + rewrite rstrip_by_absorb by done. by apply rstrip_by_stable.
    + rewrite first_char_app by done. done.
Qed.

(** [normalize_target raw] is in [normal_form] with [raw], and it is the
    only such string. *)
Lemma normalize_target_in_normal_form (raw : string) :
  normal_form raw (normalize_target raw).
Proof.
  destruct (strip_split raw) as (pre & post & Hraw & Hpre & Hpost & Hf & Hl).
  destruct (lstrip_by_split (λ c, PyStr.mem c "@") (PyStr.strip raw))
    as (ats & Hcore & Hats).
  apply all_at_replicate in Hats.
  fold (PyStr.lstrip "@" (PyStr.strip raw)) in Hcore.
  fold (normalize_target raw) in Hcore.
  exists pre, post, (String.length ats).
  rewrite <- Hats, <- Hcore. repeat split; try done.
  intros Hat.
  apply (lstrip_by_first (λ c, PyStr.mem c "@")) in Hat. done.
Qed.

Lemma normal_form_unique (raw res : string) :
  normal_form raw res → res = normalize_target raw.
Proof.
  intros (pre & post & n & Hraw & Hpre & Hpost & Hf & Hl & Hres).
  unfold normalize_target. rewrite Hraw, strip_unique by done.
  unfold PyStr.lstrip. rewrite lstrip_by_absorb.
  - symmetry. apply lstrip_by_stable. intros c Hc.
    destruct (PyStr.mem c "@") eqn:Hm; [|done].
    apply mem_at in Hm as ->. done.
  - apply all_at_replicate. by rewrite length_replicate_char.
Qed.

(** ** The mutual set *)

(** C1. The set the program computes from a following set [A] and a
    followers set [B] is [A ∩ B]; it is included in both, has at most
    [min |A| |B|] elements, and is empty when both are; [followers &
    following] always returns, with a new object holding that set. *)
Theorem mutual_is_intersection (A B : gset string) :
  mutual_of B A = A ∩ B ∧
  mutual_of B A ⊆ A ∧ mutual_of B A ⊆ B ∧
  size (mutual_of B A) ≤ size A `min` size B ∧
  mutual_of (∅ : gset string) ∅ = ∅ ∧
  ∀ (w : world) (followers following : ref),
    ∃ w', set_and followers following w = (inr (length (heap w)), w') ∧
          deref w' (length (heap w)) = deref w following ∩ deref w followers.
Proof.
  unfold mutual_of. split_and!.
  - apply (comm_L (∩)).
  - apply intersection_subseteq_r.
  - apply intersection_subseteq_l.
  - apply Nat.min_glb; apply subseteq_size;
      [apply intersection_subseteq_r | apply intersection_subseteq_l].
  - apply (left_absorb_L ∅ (∩)).
  - intros w followers following. eexists. split; [done|].
    unfold deref at 1. simpl. rewrite lookup_app_r, Nat.sub_diag by done.
    simpl. unfold mutual_of. apply (comm_L (∩)).
Qed.

(** ** Sorting a set *)

(** The order of [sorted]: strings compare character by character, by
    code point, and a proper prefix comes first. *)
Lemma le_lexicographic (a b : ascii) (s t : string) :
  String.le "" t ∧
  ¬ String.le (String a s) "" ∧
  (String.le (String a s) (String b t) ↔
     (N_of_ascii a < N_of_ascii b)%N ∨ (a = b ∧ String.le s t)).
Proof.
  unfold String.le, String.leb. split_and!.
  - by destruct t.
  - simpl. tauto.
  - simpl. unfold Ascii.compare.
    destruct (N.compare_spec (N_of_ascii a) (N_of_ascii b)) as [Heq|Hlt|Hgt].
    + assert (a = b) as -> by (by rewrite <- (ascii_N_embedding a), Heq,
                                     ascii_N_embedding).
      split; [by right|]. intros [Hlt|[_ Hle]]; [lia|done].
    + split; [by left|done].
    + split; [done|]. intros [Hlt|[-> _]]; lia.
Qed.

Lemma sorted_Permutation (xs : list string) : PyStr.sorted xs ≡ₚ xs.
Proof. apply merge_sort_Permutation. Qed.

Lemma sorted_StronglySorted (xs : list string) :
  StronglySorted String.le (PyStr.sorted xs).
Proof. apply (StronglySorted_merge_sort _). Qed.

Lemma sorted_length (xs : list string) : length (PyStr.sorted xs) = length xs.
Proof. apply Permutation_length, sorted_Permutation. Qed.

(** Sorting forgets the order the elements came in. *)
Lemma sorted_order_irrelevant (xs ys : list string) :
  xs ≡ₚ ys → PyStr.sorted xs = PyStr.sorted ys.
Proof.
  intros Hp. apply (StronglySorted_unique String.le);
    [apply sorted_StronglySorted..|].
  by rewrite !sorted_Permutation.
Qed.

Lemma sorted_set_lists (e : env) (X : gset string) :
  iter_ok e → lists_sorted (PyStr.sorted (iter_order e X)) X.
Proof.
  intros Hit. split_and!.
  - apply sorted_StronglySorted.
  - rewrite sorted_Permutation, (Hit X). apply NoDup_elements.
  - intros u. rewrite sorted_Permutation, (Hit X). apply elem_of_elements.
Qed.

Lemma sorted_set_length (e : env) (X : gset string) :
  iter_ok e → length (PyStr.sorted (iter_order e X)) = size X.
Proof.
  intros Hit. rewrite sorted_length, (Hit X). done.
Qed.

(** The sorted list of a set does not depend on its iteration order. *)
Lemma sorted_set_canonical (e : env) (X : gset string) :
  iter_ok e →
  PyStr.sorted (iter_order e X) = PyStr.sorted (elements X).
Proof. intros Hit. apply sorted_order_irrelevant, Hit. Qed.

(** ** Running [write_report] *)

Lemma append_to_append_to (name : string) (cs1 cs2 : list string) (w : world) :
  append_to name cs2 (append_to name cs1 w) = append_to name (cs1 ++ cs2) w.
Proof.
  unfold append_to. simpl. f_equal.
  apply map_eq. intros k. destruct (decide (name = k)) as [->|Hne].
  - rewrite !lookup_alter_eq. destruct (fs w !! k); simpl; [|done].
    by rewrite (assoc_L (++)).
  - by rewrite !lookup_alter_ne.
Qed.

Lemma for_in_write (name : string) (names : list string) (w : world) :
  for_in names (λ username, write name (entry_line username)) w
  = (inr tt, append_to name (entry_line <$> names) w).
Proof.
  revert w. induction names as [|u names IH]; intros w.
  - simpl. unfold ret, append_to. f_equal. destruct w; simpl. f_equal.
    symmetry. apply alter_id. intros old _. by rewrite (right_id_L [] (++)).
  - cbn [for_in]. unfold bind at 1. unfold write at 1, modify at 1.
    change (World _ _ _ _ _ _) with (append_to name [entry_line u] w).
    rewrite IH, append_to_append_to. done.
Qed.

(** A successful call of [write_report], in full: what it returns and the
    world it leaves. *)
Lemma write_report_run (e : env) (target : string) (followers following : ref)
    (w : world) :
  valid_ref w followers → valid_ref w following →
  creatable e (report_name target (now e (ticks w))) = true →
  write_report e target followers following w
  = (inr (report_name target (now e (ticks w)),
          size (deref w followers), size (deref w following),
          size (deref w followers ∩ deref w following)),
     World (stdin w) (console w) (net w)
       (heap w ++ [deref w followers ∩ deref w following])
       (<[report_name target (now e (ticks w)) :=
            report_layout target (now e (S (ticks w)))
              (size (deref w following))
              (PyStr.sorted (iter_order e (deref w following)))
              (size (deref w followers))
              (PyStr.sorted (iter_order e (deref w followers)))
              (size (deref w followers ∩ deref w following))
              (PyStr.sorted (iter_order e
                 (deref w followers ∩ deref w following)))]> (fs w))
       (S (S (ticks w)))).
Proof.
  intros Hfr Hfg Hcr. unfold valid_ref in *.
  destruct w as [si co ne hp files tk]. simpl in *.
  unfold write_report, bind, set_and, new_set, datetime_now, open_w,
    set_len, sorted_set, gets, write, modify, deref.
  simpl. rewrite Hcr. simpl.
  set (name := report_name target (now e tk)).
  remember (mutual_of (default ∅ (hp !! followers))
              (default ∅ (hp !! following))) as M eqn:HM.
  assert (Hlf : (hp ++ [M]) !! followers = hp !! followers)
    by (by apply lookup_app_l).
  assert (Hlg : (hp ++ [M]) !! following = hp !! following)
    by (by apply lookup_app_l).
  assert (Hlm : (hp ++ [M]) !! length hp = Some M)
    by (by apply list_lookup_middle).
  do 3 (rewrite ?Hlf, ?Hlg, ?Hlm, ?alter_insert_eq; simpl;
        rewrite (for_in_write name); unfold append_to; simpl).
  rewrite ?Hlf, ?Hlg, ?Hlm, ?alter_insert_eq. simpl.
  unfold report_layout, section_of, ret. subst M. unfold mutual_of.
  do 2 f_equal. rewrite <- !(assoc_L (++)). done.
Qed.

(** ** The timestamp *)

Section fields.
Variable width : nat.

Lemma fields_ok_spec (count : nat) (m : N) :
  fields_ok width count m = true →
  ∀ i, i < count → field_ok width (m + N.of_nat i) = true.
Proof.
  revert m. induction count as [|k IH]; intros m Hall i Hi; [lia|].
  simpl in Hall. apply andb_prop in Hall as [Hm Hrest].
  destruct i as [|i].
  - by rewrite N.add_0_r.
  - replace (m + N.of_nat (S i))%N with (N.succ m + N.of_nat i)%N by lia.
    apply IH; [done|lia].
Qed.

Lemma fields_below (bound : nat) :
  fields_ok width bound 0 = true →
  ∀ n, n < bound →
    String.length (PyStr.zfill width (PyStr.of_nat n)) = width ∧
    PyStr.digits_value (PyStr.zfill width (PyStr.of_nat n))
    = Some (N.of_nat n).
Proof.
  intros Hall n Hn. pose proof (fields_ok_spec bound 0 Hall n Hn) as Hok.
  rewrite N.add_0_l in Hok. unfold field_ok in Hok.
  apply andb_prop in Hok as [Hlen Hval].
  apply Nat.eqb_eq in Hlen. apply bool_decide_eq_true in Hval. done.
Qed.
End fields.

Lemma two_digits (n : nat) :
  n < 100 →
  String.length (Strftime.two n) = 2 ∧
  PyStr.digits_value (Strftime.two n) = Some (N.of_nat n).
Proof. apply fields_below. vm_compute. reflexivity. Qed.

Lemma four_digits (n : nat) :
  n < 10 ^ 4 →
  String.length (Strftime.four n) = 4 ∧
  PyStr.digits_value (Strftime.four n) = Some (N.of_nat n).
Proof. apply fields_below. vm_compute. reflexivity. Qed.

(** ** The report *)

(** C2. The report [write_report] writes for a target is three sections,
    in the order following, followers, mutual; each begins with a header
    line that holds the label of the section and its count, each entry
    line is ["@"] and the username, and the entries of each section are
    in ascending lexicographic order without duplicates. *)
Theorem report_sections_sorted (e : env) (target : string)
    (followers following : ref) (w : world) :
  iter_ok e → valid_ref w followers → valid_ref w following →
  creatable e (report_name target (now e (ticks w))) = true →
  ∃ (names_following names_followers names_mutual : list string)
    (result : string * nat * nat * nat) (w' : world),
    write_report e target followers following w = (inr result, w') ∧
    fs w' !! result.1.1.1
      = Some
          ([ "Instagram Follower Analysis for @" +:+ target +:+ nl;
             "Generated: " +:+ Strftime.human (now e (S (ticks w))) +:+ nl;
             PyStr.replicate_char 60 "=" +:+ nl +:+ nl ]
           ++ [ "ACCOUNTS @" +:+ target +:+ " FOLLOWS ("
                  +:+ PyStr.of_nat (length names_following) +:+ ")" +:+ nl;
                PyStr.replicate_char 40 "-" +:+ nl ]
           ++ ((λ username, "@" +:+ username +:+ nl) <$> names_following)
           ++ [ nl +:+ "ACCOUNTS THAT FOLLOW @" +:+ target +:+ " ("
                  +:+ PyStr.of_nat (length names_followers) +:+ ")" +:+ nl;
                PyStr.replicate_char 40 "-" +:+ nl ]
           ++ ((λ username, "@" +:+ username +:+ nl) <$> names_followers)
           ++ [ nl +:+ "MUTUAL FOLLOWS - Both follow each other ("
                  +:+ PyStr.of_nat (length names_mutual) +:+ ")" +:+ nl;
                PyStr.replicate_char 40 "-" +:+ nl ]
           ++ ((λ username, "@" +:+ username +:+ nl) <$> names_mutual)) ∧
    lists_sorted names_following (deref w following) ∧
    lists_sorted names_followers (deref w followers) ∧
    lists_sorted names_mutual (deref w following ∩ deref w followers).
Proof.
  intros Hit Hfr Hfg Hcr.
  eexists _, _, _, _, _. split; [by apply write_report_run|].
  simpl. rewrite lookup_insert_eq, <- !(sorted_set_length e) by done.
  split; [reflexivity|]. rewrite (comm_L (∩) (deref w following)).
  split_and!; by apply sorted_set_lists.
Qed.

Lemma report_sections_sorted_witness :
  iter_ok scenario_env ∧ valid_ref scenario_fetched 0 ∧
  valid_ref scenario_fetched 1 ∧
  ∃ (names_following names_followers names_mutual : list string)
    (result : string * nat * nat * nat) (w' : world),
    write_report scenario_env "target" 0 1 scenario_fetched = (inr result, w') ∧
    fs w' !! result.1.1.1
      = Some
          ([ "Instagram Follower Analysis for @" +:+ "target" +:+ nl;
             "Generated: " +:+ Strftime.human (scenario_clock 1) +:+ nl;
             PyStr.replicate_char 60 "=" +:+ nl +:+ nl ]
           ++ [ "ACCOUNTS @" +:+ "target" +:+ " FOLLOWS ("
                  +:+ PyStr.of_nat (length names_following) +:+ ")" +:+ nl;
                PyStr.replicate_char 40 "-" +:+ nl ]
           ++ ((λ username, "@" +:+ username +:+ nl) <$> names_following)
           ++ [ nl +:+ "ACCOUNTS THAT FOLLOW @" +:+ "target" +:+ " ("
                  +:+ PyStr.of_nat (length names_followers) +:+ ")" +:+ nl;
                PyStr.replicate_char 40 "-" +:+ nl ]
           ++ ((λ username, "@" +:+ username +:+ nl) <$> names_followers)
           ++ [ nl +:+ "MUTUAL FOLLOWS - Both follow each other ("
                  +:+ PyStr.of_nat (length names_mutual) +:+ ")" +:+ nl;
                PyStr.replicate_char 40 "-" +:+ nl ]
           ++ ((λ username, "@" +:+ username +:+ nl) <$> names_mutual)) ∧
    lists_sorted names_following (deref scenario_fetched 1) ∧
    lists_sorted names_followers (deref scenario_fetched 0) ∧
    lists_sorted names_mutual
      (deref scenario_fetched 1 ∩ deref scenario_fetched 0).
Proof.
  assert (Hit : iter_ok scenario_env) by (intros X; reflexivity).
  assert (H0 : valid_ref scenario_fetched 0) by (unfold valid_ref; simpl; lia).
  assert (H1 : valid_ref scenario_fetched 1) by (unfold valid_ref; simpl; lia).
  split_and!; try done.
  apply (report_sections_sorted scenario_env "target" 0 1 scenario_fetched);
    try done.
Defined.

(** C7. The report file is named
    ["{target_username}_analysis_{YYYYMMDD_HHMMSS}.txt"]: [write_report]
    returns that name and creates that file and no other, and the
    timestamp is the generation time (the reading of the clock taken for
    the name; the "Generated:" line of the report takes a reading of its
    own) as four digits of year, two of month, two of day, an underscore,
    and two digits each of hour, minute and second. *)
Theorem report_file_name (e : env) (target : string)
    (followers following : ref) (w : world) :
  valid_ref w followers → valid_ref w following →
  Strftime.valid (now e (ticks w)) →
  creatable e (report_name target (now e (ticks w))) = true →
  ∃ (YYYY MM DD hh mm ss : string) (filename : string)
    (counts : nat * nat * nat) (w' : world),
    write_report e target followers following w
      = (inr (filename, counts.1.1, counts.1.2, counts.2), w') ∧
    filename = target +:+ "_analysis_"
                 +:+ (YYYY +:+ MM +:+ DD +:+ "_" +:+ hh +:+ mm +:+ ss)
                 +:+ ".txt" ∧
    is_Some (fs w' !! filename) ∧
    (∀ other, other ≠ filename → fs w' !! other = fs w !! other) ∧
    decimal_field 4 (year (now e (ticks w))) YYYY ∧
    decimal_field 2 (month (now e (ticks w))) MM ∧
    decimal_field 2 (day (now e (ticks w))) DD ∧
    decimal_field 2 (hour (now e (ticks w))) hh ∧
    decimal_field 2 (minute (now e (ticks w))) mm ∧
    decimal_field 2 (second (now e (ticks w))) ss.
Proof.
  intros Hfr Hfg (Hy & Hmo & Hd & Hh & Hmi & Hs) Hcr.
  exists (Strftime.four (year (now e (ticks w)))),
         (Strftime.two (month (now e (ticks w)))),
         (Strftime.two (day (now e (ticks w)))),
         (Strftime.two (hour (now e (ticks w)))),
         (Strftime.two (minute (now e (ticks w)))),
         (Strftime.two (second (now e (ticks w)))).
  eexists _, (_, _, _), _. split; [by apply write_report_run|].
  simpl.
  split_and!;
    [ done
    | rewrite lookup_insert_eq; by eexists
    | intros other Hother; by rewrite lookup_insert_ne
    | .. ];
    first [apply four_digits | apply two_digits]; lia.
Qed.

Lemma report_file_name_witness :
  valid_ref scenario_fetched 0 ∧ valid_ref scenario_fetched 1 ∧
  Strftime.valid (scenario_clock 0) ∧
  ∃ (YYYY MM DD hh mm ss : string) (filename : string)
    (counts : nat * nat * nat) (w' : world),
    write_report scenario_env "target" 0 1 scenario_fetched
      = (inr (filename, counts.1.1, counts.1.2, counts.2), w') ∧
    filename = "target" +:+ "_analysis_"
                 +:+ (YYYY +:+ MM +:+ DD +:+ "_" +:+ hh +:+ mm +:+ ss)
                 +:+ ".txt" ∧
    is_Some (fs w' !! filename) ∧
    (∀ other, other ≠ filename → fs w' !! other = fs scenario_fetched !! other) ∧
    decimal_field 4 2024 YYYY ∧ decimal_field 2 3 MM ∧ decimal_field 2 5 DD ∧
    decimal_field 2 7 hh ∧ decimal_field 2 8 mm ∧ decimal_field 2 9 ss.
Proof.
  assert (H0 : valid_ref scenario_fetched 0) by (unfold valid_ref; simpl; lia).
  assert (H1 : valid_ref scenario_fetched 1) by (unfold valid_ref; simpl; lia).
  assert (Hv : Strftime.valid (scenario_clock 0))
    by (unfold Strftime.valid; simpl; lia).
  split_and!; try done.
  apply (report_file_name scenario_env "target" 0 1 scenario_fetched);
    done.
Defined.


(** C8. For a fixed following set [A], followers set [B] and target,
    two runs of report generation, at different times, from different
    stores and with the sets iterated in different orders, write the same
    sorted lists in the three sections: the two reports are the same
    layout, filled with the same counts and lists, and differ at most in
    the generation time (and in the file name, which carries it). *)
Theorem report_content_deterministic (A B : gset string) (target : string)
    (e1 e2 : env) (w1 w2 : world)
    (followers1 following1 followers2 following2 : ref) :
  iter_ok e1 → iter_ok e2 →
  valid_ref w1 followers1 → valid_ref w1 following1 →
  valid_ref w2 followers2 → valid_ref w2 following2 →
  deref w1 following1 = A → deref w1 followers1 = B →
  deref w2 following2 = A → deref w2 followers2 = B →
  creatable e1 (report_name target (now e1 (ticks w1))) = true →
  creatable e2 (report_name target (now e2 (ticks w2))) = true →
  ∃ (n_following n_followers n_mutual : nat)
    (names_following names_followers names_mutual : list string)
    (file1 file2 : string) (w1' w2' : world),
    write_report e1 target followers1 following1 w1
      = (inr (file1, n_followers, n_following, n_mutual), w1') ∧
    write_report e2 target followers2 following2 w2
      = (inr (file2, n_followers, n_following, n_mutual), w2') ∧
    fs w1' !! file1
      = Some (report_layout target (now e1 (S (ticks w1)))
                n_following names_following n_followers names_followers
                n_mutual names_mutual) ∧
    fs w2' !! file2
      = Some (report_layout target (now e2 (S (ticks w2)))
                n_following names_following n_followers names_followers
                n_mutual names_mutual).
Proof.
  intros Hit1 Hit2 Hfr1 Hfg1 Hfr2 Hfg2 HA1 HB1 HA2 HB2 Hcr1 Hcr2.
  exists (size A), (size B), (size (B ∩ A)),
         (PyStr.sorted (elements A)), (PyStr.sorted (elements B)),
         (PyStr.sorted (elements (B ∩ A))).
  eexists _, _, _, _.
  rewrite (write_report_run e1), (write_report_run e2) by done.
  rewrite HA1, HB1, HA2, HB2.
  rewrite !(sorted_set_canonical e1), !(sorted_set_canonical e2) by done.
  split; [reflexivity|]. split; [reflexivity|].
  simpl. rewrite !lookup_insert_eq. done.
Qed.

Lemma report_content_deterministic_witness :
  iter_ok scenario_env ∧ iter_ok scenario_env_later ∧
  ∃ (n_following n_followers n_mutual : nat)
    (names_following names_followers names_mutual : list string)
    (file1 file2 : string) (w1' w2' : world),
    write_report scenario_env "target" 0 1 scenario_fetched
      = (inr (file1, n_followers, n_following, n_mutual), w1') ∧
    write_report scenario_env_later "target" 0 1 scenario_fetched
      = (inr (file2, n_followers, n_following, n_mutual), w2') ∧
    fs w1' !! file1
      = Some (report_layout "target" (now scenario_env 1)
                n_following names_following n_followers names_followers
                n_mutual names_mutual) ∧
    fs w2' !! file2
      = Some (report_layout "target" (now scenario_env_later 1)
                n_following names_following n_followers names_followers
                n_mutual names_mutual).
Proof.
  assert (Hit1 : iter_ok scenario_env) by (intros X; reflexivity).
  assert (Hit2 : iter_ok scenario_env_later)
    by (intros X; apply reverse_Permutation).
  assert (H0 : valid_ref scenario_fetched 0) by (unfold valid_ref; simpl; lia).
  assert (H1 : valid_ref scenario_fetched 1) by (unfold valid_ref; simpl; lia).
  split_and!; try done.
  apply (report_content_deterministic
           (deref scenario_fetched 1) (deref scenario_fetched 0) "target"
           scenario_env scenario_env_later scenario_fetched scenario_fetched
           0 1 0 1); done.
Defined.

(** When the file cannot be created, [write_report] raises [OSError]
    out of [open]; nothing is written. *)
Lemma write_report_refused (e : env) (target : string)
    (followers following : ref) (w : world) :
  creatable e (report_name target (now e (ticks w))) = false →
  write_report e target followers following w
  = (inl (Exception OSError (report_name target (now e (ticks w)))),
     World (stdin w) (console w) (net w)
       (heap w ++ [deref w followers ∩ deref w following])
       (fs w) (S (ticks w))).
Proof.
  intros Hcr. destruct w as [si co ne hp files tk]. simpl in *.
  unfold write_report, bind, set_and, new_set, datetime_now, open_w, deref.
  simpl. by rewrite Hcr.
Qed.

(** [write_report] allocates the mutual set and leaves the rest of the
    store alone, whether it succeeds or not. *)
Lemma write_report_heap (e : env) (target : string)
    (followers following : ref) (w : world) :
  valid_ref w followers → valid_ref w following →
  heap (write_report e target followers following w).2
  = heap w ++ [deref w followers ∩ deref w following].
Proof.
  intros Hfr Hfg.
  destruct (creatable e (report_name target (now e (ticks w)))) eqn:Hcr.
  - by rewrite write_report_run.
  - by rewrite write_report_refused.
Qed.

(** C9. [write_report] does not mutate the sets it is given: after the
    call both arguments refer to objects holding what they held before
    (also when both are the same object), every object of the store is
    as it was, and the mutual set is a new object. *)
Theorem write_report_keeps_arguments (e : env) (target : string)
    (followers following : ref) (w : world) :
  valid_ref w followers → valid_ref w following →
  let w' := (write_report e target followers following w).2 in
  deref w' followers = deref w followers ∧
  deref w' following = deref w following ∧
  (∀ r, valid_ref w r → heap w' !! r = heap w !! r) ∧
  heap w' !! length (heap w) = Some (deref w followers ∩ deref w following) ∧
  ¬ valid_ref w (length (heap w)).
Proof.
  intros Hfr Hfg w'.
  assert (Hheap : heap w' = heap w ++ [deref w followers ∩ deref w following])
    by (by apply write_report_heap).
  unfold valid_ref in *.
  unfold deref at 1 3. rewrite Hheap. split_and!.
  - by rewrite lookup_app_l.
  - by rewrite lookup_app_l.
  - intros r Hr. by rewrite lookup_app_l.
  - by apply list_lookup_middle.
  - lia.
Qed.

Lemma write_report_keeps_arguments_witness :
  valid_ref scenario_fetched 0 ∧ valid_ref scenario_fetched 1 ∧
  let w' := (write_report scenario_env "target" 0 1 scenario_fetched).2 in
  deref w' 0 = deref scenario_fetched 0 ∧
  deref w' 1 = deref scenario_fetched 1 ∧
  (∀ r, valid_ref scenario_fetched r → heap w' !! r = heap scenario_fetched !! r) ∧
  heap w' !! length (heap scenario_fetched)
    = Some (deref scenario_fetched 0 ∩ deref scenario_fetched 1) ∧
  ¬ valid_ref scenario_fetched (length (heap scenario_fetched)).
Proof.
  assert (H0 : valid_ref scenario_fetched 0) by (unfold valid_ref; simpl; lia).
  assert (H1 : valid_ref scenario_fetched 1) by (unfold valid_ref; simpl; lia).
  split; [done|]. split; [done|].
  apply (write_report_keeps_arguments scenario_env "target" 0 1
           scenario_fetched); done.
Defined.



(** ** Running [get_profile_data] *)

(** The loop that collects an enumeration into the set [r]: it always
    runs to the end of the items, shows progress, and adds the items to
    the object. *)
Lemma collect_loop (label : string) (r : ref) (items : list string) (w : world) :
  ∃ shown : list string,
    for_in items (λ username,
      set_add r username ;;
      n <- set_len r ;;
      print_end (label +:+ PyStr.of_nat n) cr) w
    = (inr tt,
       World (stdin w) (console w ++ shown) (net w)
         (alter (λ X, list_to_set items ∪ X) r (heap w)) (fs w) (ticks w)).
Proof.
  revert w. induction items as [|u items IH]; intros w.
  - exists []. simpl. unfold ret. f_equal. destruct w; simpl. f_equal.
    + by rewrite (right_id_L [] (++)).
    + symmetry. apply list_alter_id. intros X. apply (left_id_L ∅ (∪)).
  - cbn [for_in]. unfold bind at 1.
    unfold bind, set_add, set_len, gets, print_end, modify. simpl.
    match goal with
    | |- context [for_in items _ ?w1] => destruct (IH w1) as [shown Hloop]
    end.
    eexists (_ :: shown).
    unfold bind, set_add, set_len, gets, print_end, modify in Hloop.
    rewrite Hloop. simpl. f_equal. f_equal.
    + by rewrite <- (assoc_L (++)).
    + rewrite list_alter_alter_eq. apply list_alter_ext; [|done].
      intros X _. simpl.
      rewrite (assoc_L (∪)). f_equal. apply (comm_L (∪)).
Qed.

Lemma alter_last (hp : list (gset string)) (X : gset string)
    (f : gset string → gset string) :
  alter f (length hp) (hp ++ [X]) = hp ++ [f X].
Proof.
  rewrite <- (Nat.add_0_r (length hp)) at 1. by rewrite alter_app_r.
Qed.

(** [get_profile_data] in full: its result is the one the provider
    decides; it reads no input and no clock, touches no file and no
    object that existed; when the fetch is complete it leaves two new
    objects, the following set and then the followers set, holding the
    usernames enumerated, after the three calls to the provider. *)
Lemma get_profile_data_spec (e : env) (target : string) (w : world) :
  ∃ w',
    get_profile_data e target w
      = (fetch_result e target (length (heap w)), w') ∧
    stdin w' = stdin w ∧ fs w' = fs w ∧ ticks w' = ticks w ∧
    (∃ extra, heap w' = heap w ++ extra) ∧
    (fetch_complete e target →
       heap w' = heap w ++ [list_to_set (yields (get_followees (service e)));
                            list_to_set (yields (get_followers (service e)))] ∧
       net w' = net w ++ [ReqProfile target; ReqFollowees; ReqFollowers]).
Proof.
  destruct w as [si co ne hp files tk].
  unfold fetch_result, fetch_complete, get_profile_data.
  unfold bind at 1. unfold print at 1, print_end at 1, modify at 1.
  unfold bind at 1, try_except at 1, bind at 1, call at 1, modify at 1.
  cbn [show stdin console net heap fs ticks].
  destruct (from_username (service e) target) as [[cls msg]|p] eqn:Hlookup.
  { unfold throw, raise, on_lookup_error. simpl.
    destruct cls; simpl; eexists; (split; [reflexivity|]); simpl;
      (split_and!; try done;
         [exists []; by rewrite (right_id_L [] (++))|]); by intros [[p [=]] _]. }
  repeat (progress unfold bind, try_except, print, print_end, modify, call,
            new_set, ret, set_len, gets, for_enum, answer, throw, raise,
            sys_exit, deref, set_add).
  simpl.
  match goal with
  | |- context [for_in ?items _ ?w1] =>
      destruct (collect_loop "  Following: " (length hp) items w1)
        as [shown1 Hloop1]
  end.
  repeat (progress unfold bind, set_add, set_len, gets, print_end, modify,
            deref in Hloop1).
  simpl in Hloop1. rewrite Hloop1. clear Hloop1. simpl.
  rewrite alter_last, (right_id_L ∅ (∪)).
  destruct (ending (get_followees (service e))) as [[cls msg]|] eqn:Hend1.
  { unfold on_enum_error. simpl.
    destruct cls; simpl; eexists; (split; [reflexivity|]); simpl;
      (split_and!; try done; [by eexists|]); by intros (_ & [=] & _). }
  simpl.
  match goal with
  | |- context [for_in ?items _ ?w1] =>
      destruct (collect_loop "  Followers: " (length (heap w1) - 1) items w1)
        as [shown2 Hloop2]
  end.
  repeat (progress unfold bind, set_add, set_len, gets, print_end, modify,
            deref in Hloop2).
  simpl in Hloop2. rewrite length_app in Hloop2. simpl in Hloop2.
  rewrite Nat.add_sub in Hloop2.
  rewrite Hloop2. clear Hloop2. simpl.
  rewrite alter_last, (right_id_L ∅ (∪)).
  destruct (ending (get_followers (service e))) as [[cls msg]|] eqn:Hend2.
  { unfold on_enum_error. simpl.
    destruct cls; simpl; eexists; (split; [reflexivity|]); simpl;
      (split_and!; try done;
         [eexists; by rewrite <- (assoc_L (++))|]); by intros (_ & _ & [=]). }
  simpl. eexists. split.
  { rewrite length_app. simpl. rewrite Nat.add_1_r. reflexivity. }
  simpl. split_and!; try done.
  - eexists. by rewrite <- (assoc_L (++)).
  - intros _. by rewrite <- !(assoc_L (++)).
Qed.

(** ** Running [main] *)

Ltac run :=
  repeat (progress unfold bind, try_except, print, print_end, modify, call,
            ret, answer, throw, raise, sys_exit, input, getpass);
  simpl.

Tactic Notation "run" "in" hyp(H) :=
  repeat (progress unfold bind, try_except, print, print_end, modify, call,
            ret, answer, throw, raise, sys_exit, input, getpass in H);
  simpl in H.

(** C5. When the target username typed is empty once normalised, the
    program reports an input error and exits with status 1, and it has
    made no call to the provider: no login, no request. *)
Theorem empty_target_exits (e : env) (w : world) (raw : string)
    (rest : list string) :
  stdin w = raw :: rest → normalize_target raw = "" →
  main e w
  = (inl (SystemExit 1),
     World rest
       (console w ++ banner ++ ["Error: Username cannot be empty." +:+ nl])
       (net w) (heap w) (fs w) (ticks w)) ∧
  exit_status (main e w).1 = 1 ∧
  net (main e w).2 = net w ∧
  fs (main e w).2 = fs w.
Proof.
  intros Hin Hempty.
  assert (Hrun : main e w
    = (inl (SystemExit 1),
       World rest
         (console w ++ banner ++ ["Error: Username cannot be empty." +:+ nl])
         (net w) (heap w) (fs w) (ticks w))).
  { destruct w as [si co ne hp files tk]. simpl in Hin. subst si.
    unfold main. run. rewrite Hempty. simpl.
    unfold banner, show. simpl. by rewrite <- !(assoc_L (++)). }
  by rewrite Hrun.
Qed.

Lemma empty_target_exits_witness :
  normalize_target "  @ " = "" ∧
  exit_status (main scenario_env (initial ["  @ "; "me"; "pw"] ∅)).1 = 1 ∧
  net (main scenario_env (initial ["  @ "; "me"; "pw"] ∅)).2 = [] ∧
  fs (main scenario_env (initial ["  @ "; "me"; "pw"] ∅)).2 = ∅.
Proof.
  split; [reflexivity|].
  destruct (empty_target_exits scenario_env (initial ["  @ "; "me"; "pw"] ∅)
              "  @ " ["me"; "pw"] eq_refl eq_refl) as (_ & Hstatus & Hnet & Hfs).
  exact (conj Hstatus (conj Hnet Hfs)).
Defined.

Lemma fetch_result_refused (e : env) (target : string) (n : nat) :
  fetch_refused e target → fetch_result e target n = inl (SystemExit 1).
Proof.
  unfold fetch_result.
  intros [msg Hl | msg Hl | p msg Hl H1 | p msg Hl H1 H2];
    rewrite Hl; rewrite ?H1, ?H2; reflexivity.
Qed.

Lemma fetch_result_returns (e : env) (target : string) (n : nat)
    (data : ref * ref) :
  fetch_result e target n = inr data →
  fetch_complete e target ∧ data = (S n, n).
Proof.
  unfold fetch_result, fetch_complete.
  destruct (from_username (service e) target) as [err|p]; [done|].
  destruct (ending (get_followees (service e))); [done|].
  destruct (ending (get_followers (service e))); [done|].
  intros [= <-]. eauto.
Qed.

Lemma fetch_result_complete (e : env) (target : string) (n : nat) :
  fetch_complete e target → fetch_result e target n = inr (S n, n).
Proof.
  unfold fetch_result. intros ([p Hl] & H1 & H2). by rewrite Hl, H1, H2.
Qed.

(** What follows the login: no input is read; a refused fetch ends in
    [sys.exit(1)] with the files as they were; and the files change only
    when the fetch was complete. *)
Lemma fetch_and_report_spec (e : env) (target : string) (w : world) :
  stdin (fetch_and_report e target w).2 = stdin w ∧
  (fetch_refused e target →
     (fetch_and_report e target w).1 = inl (SystemExit 1) ∧
     fs (fetch_and_report e target w).2 = fs w) ∧
  (fs (fetch_and_report e target w).2 ≠ fs w → fetch_complete e target) ∧
  ((fetch_and_report e target w).1 = inr tt → fetch_complete e target).
Proof.
  destruct (get_profile_data_spec e target w)
    as (w1 & Hg & Hin & Hfs & Htk & [extra Hheap] & Hdone).
  destruct (fetch_and_report e target w) as [r w'] eqn:Hrun. simpl.
  unfold fetch_and_report in Hrun. unfold bind at 1 in Hrun.
  rewrite Hg in Hrun.
  destruct (fetch_result e target (length (heap w))) as [x|data] eqn:Hres.
  { injection Hrun as <- <-. split_and!; try done.
    intros Href. rewrite (fetch_result_refused e target) in Hres by done.
    by injection Hres as <-. }
  apply fetch_result_returns in Hres as [Hcomplete ->].
  assert (Hnot : fetch_refused e target → False).
  { intros Href. apply (fetch_result_refused e target 0) in Href.
    by rewrite (fetch_result_complete e target) in Href. }
  destruct (Hdone Hcomplete) as [Hheap' _]. clear Hheap extra Hdone.
  unfold bind at 1, print at 1, print_end at 1, modify at 1 in Hrun.
  cbn [fst snd] in Hrun. unfold bind at 1 in Hrun.
  set (w2 := show _ w1) in Hrun.
  assert (Hv1 : valid_ref w2 (S (length (heap w)))).
  { unfold valid_ref, w2. simpl. rewrite Hheap', length_app. simpl. lia. }
  assert (Hv0 : valid_ref w2 (length (heap w))).
  { unfold valid_ref, w2. simpl. rewrite Hheap', length_app. simpl. lia. }
  destruct (creatable e (report_name target (now e (ticks w2)))) eqn:Hcr.
  - rewrite write_report_run in Hrun by done. run in Hrun.
    injection Hrun as <- <-. subst w2. simpl.
    split_and!; try done; intros Href; by destruct Hnot.
  - rewrite write_report_refused in Hrun by done.
    injection Hrun as <- <-. subst w2. simpl.
    split_and!; try done; intros Href; by destruct Hnot.
Qed.

(** A complete fetch followed by a successful [open]: the run ends
    normally, the report of the two sets enumerated is on disk, and the
    last lines shown are the summary, with the counts of the report. *)
Lemma fetch_and_report_complete (e : env) (target : string) (w : world) :
  fetch_complete e target →
  creatable e (report_name target (now e (ticks w))) = true →
  let A : gset string := list_to_set (yields (get_followees (service e))) in
  let B : gset string := list_to_set (yields (get_followers (service e))) in
  ∃ (w' : world) (shown : list string),
    fetch_and_report e target w = (inr tt, w') ∧
    fs w' = <[report_name target (now e (ticks w)) :=
                report_layout target (now e (S (ticks w)))
                  (size A) (PyStr.sorted (iter_order e A))
                  (size B) (PyStr.sorted (iter_order e B))
                  (size (B ∩ A)) (PyStr.sorted (iter_order e (B ∩ A)))]> (fs w) ∧
    console w'
    = shown ++ [ nl +:+ "Writing report..." +:+ nl;
                 nl +:+ "Analysis complete!" +:+ nl;
                 "  Following:      " +:+ PyStr.of_nat (size A) +:+ nl;
                 "  Followers:      " +:+ PyStr.of_nat (size B) +:+ nl;
                 "  Mutual follows: " +:+ PyStr.of_nat (size (B ∩ A)) +:+ nl;
                 nl +:+ "Report saved to: "
                   +:+ report_name target (now e (ticks w)) +:+ nl ].
Proof.
  intros Hcomplete Hcr A B.
  destruct (get_profile_data_spec e target w)
    as (w1 & Hg & Hin & Hfs & Htk & _ & Hdone).
  destruct (Hdone Hcomplete) as [Hheap _]. clear Hdone.
  rewrite (fetch_result_complete e target) in Hg by done.
  unfold fetch_and_report. unfold bind at 1. rewrite Hg.
  unfold bind at 1, print at 1, print_end at 1, modify at 1.
  cbn [fst snd]. unfold bind at 1.
  set (w2 := show _ w1).
  assert (Hv1 : valid_ref w2 (S (length (heap w)))).
  { unfold valid_ref, w2. simpl. rewrite Hheap, length_app. simpl. lia. }
  assert (Hv0 : valid_ref w2 (length (heap w))).
  { unfold valid_ref, w2. simpl. rewrite Hheap, length_app. simpl. lia. }
  assert (HA : deref w2 (length (heap w)) = A).
  { unfold deref, w2. simpl. rewrite Hheap.
    by rewrite (list_lookup_middle _ _ _ (length (heap w))). }
  assert (HB : deref w2 (S (length (heap w))) = B).
  { unfold deref, w2. simpl. rewrite Hheap.
    rewrite (lookup_app_r (heap w)) by lia.
    by replace (S (length (heap w)) - length (heap w)) with 1 by lia. }
  assert (Htk2 : ticks w2 = ticks w) by done.
  rewrite write_report_run by (rewrite ?Htk2; done).
  rewrite HA, HB, Htk2. run.
  eexists _, (console w1). split; [reflexivity|]. simpl.
  split; [by rewrite Hfs|].
  unfold show, w2. simpl. by rewrite <- !(assoc_L (++)), !app_assoc_str.
Qed.

Local Arguments get_profile_data : simpl never.
Local Arguments write_report : simpl never.
Local Arguments normalize_target : simpl never.
Local Arguments PyStr.strip : simpl never.

(** A run of [main] either ends before the fetch, with exit status 1 and
    the files as they were, or goes on as [fetch_and_report] on the target
    typed, from a world with the same files. *)
Lemma main_reaches (e : env) (w : world) :
  (∃ x, (main e w).1 = inl x ∧ exit_status (inl x) = 1 ∧
        fs (main e w).2 = fs w) ∨
  (∃ w1, fs w1 = fs w ∧
         main e w = fetch_and_report e (typed_target w) w1).
Proof.
  destruct w as [si co ne hp files tk]. unfold typed_target. simpl.
  destruct si as [|raw si]; [left; eexists; by run|].
  unfold main. run.
  case_decide as Hempty; [left; eexists; by run|]. simpl.
  destruct si as [|user si]; [left; eexists; by run|]. simpl.
  destruct si as [|pw si]; [left; eexists; by run|]. simpl.
  destruct (login (service e) (PyStr.strip user) pw) as [[cls msg]|].
  - destruct cls; simpl; try (left; eexists; by run).
    destruct si as [|code si]; [left; eexists; by run|]. simpl.
    destruct (two_factor_login (service e) (PyStr.strip code)) as [[cls msg']|].
    + left. eexists. by run.
    + simpl. right. eexists. split; [|unfold fetch_and_report; run; reflexivity].
      done.
  - simpl. right. eexists. split; [|unfold fetch_and_report; run; reflexivity].
    done.
Qed.

(** The whole pipeline, when nothing fails: the login is accepted, the
    fetch is complete and the file can be created. [main] returns, the
    exit status is 0, and the report of the two sets enumerated is the
    one file written. *)
Lemma main_done (e : env) (w : world) (raw user pw : string)
    (rest : list string) :
  stdin w = raw :: user :: pw :: rest →
  normalize_target raw ≠ "" →
  login (service e) (PyStr.strip user) pw = None →
  fetch_complete e (normalize_target raw) →
  creatable e (report_name (normalize_target raw) (now e (ticks w))) = true →
  let A : gset string := list_to_set (yields (get_followees (service e))) in
  let B : gset string := list_to_set (yields (get_followers (service e))) in
  ∃ w',
    main e w = (inr tt, w') ∧
    exit_status (main e w).1 = 0 ∧
    fs w' = <[report_name (normalize_target raw) (now e (ticks w)) :=
                report_layout (normalize_target raw) (now e (S (ticks w)))
                  (size A) (PyStr.sorted (iter_order e A))
                  (size B) (PyStr.sorted (iter_order e B))
                  (size (B ∩ A)) (PyStr.sorted (iter_order e (B ∩ A)))]> (fs w).
Proof.
  intros Hin Htarget Hlogin Hcomplete Hcr A B.
  assert (∃ w1, main e w = fetch_and_report e (normalize_target raw) w1 ∧
                fs w1 = fs w ∧ ticks w1 = ticks w) as (w1 & Hrun & Hfs & Htk).
  { destruct w as [si co ne hp files tk]. simpl in Hin. subst si.
    unfold main. run. case_decide; [done|]. simpl. rewrite Hlogin. simpl.
    eexists. split; [unfold fetch_and_report; run; reflexivity|done]. }
  rewrite <- Htk in Hcr.
  destruct (fetch_and_report_complete e (normalize_target raw) w1 Hcomplete Hcr)
    as (w' & shown & Hdone & Hfiles & _).
  exists w'. rewrite Hrun, Hdone. split_and!; try done.
  by rewrite Hfiles, Hfs, Htk.
Qed.

(** C3. When the provider refuses access (the profile is not found or
    private at resolution, or a login-required error is raised while
    either list is enumerated), [get_profile_data] ends in [sys.exit(1)],
    the process exits with status 1 and no file is created or changed;
    and a run of [main] changes the files only when the profile was
    resolved and both enumerations ran to their end. *)
Theorem no_partial_report (e : env) (w : world) :
  (fetch_refused e (typed_target w) →
     (∀ w1, (get_profile_data e (typed_target w) w1).1 = inl (SystemExit 1) ∧
            fs (get_profile_data e (typed_target w) w1).2 = fs w1) ∧
     exit_status (main e w).1 = 1 ∧
     fs (main e w).2 = fs w) ∧
  (fs (main e w).2 ≠ fs w → fetch_complete e (typed_target w)).
Proof.
  split.
  - intros Href. split.
    { intros w1.
      destruct (get_profile_data_spec e (typed_target w) w1)
        as (w2 & Hg & _ & Hfs & _).
      rewrite Hg. simpl. by rewrite (fetch_result_refused e). }
    destruct (main_reaches e w) as [(x & Hx & Hstatus & Hfs)|(w1 & Hfs & Hrun)].
    + by rewrite Hx.
    + rewrite Hrun.
      destruct (fetch_and_report_spec e (typed_target w) w1)
        as (_ & Hrefused & _).
      destruct (Hrefused Href) as [-> ->]. done.
  - intros Hchanged.
    destruct (main_reaches e w) as [(x & Hx & Hstatus & Hfs)|(w1 & Hfs & Hrun)];
      [done|].
    destruct (fetch_and_report_spec e (typed_target w) w1)
      as (_ & _ & Hcomplete & _).
    apply Hcomplete. by rewrite <- Hrun, Hfs.
Qed.

Lemma no_partial_report_witness :
  (fetch_refused scenario5_env (typed_target (initial scenario_typed ∅)) ∧
   exit_status (main scenario5_env (initial scenario_typed ∅)).1 = 1 ∧
   fs (main scenario5_env (initial scenario_typed ∅)).2 = ∅) ∧
  (fs (main scenario_env (initial scenario_typed ∅)).2 ≠ ∅ ∧
   fetch_complete scenario_env (typed_target (initial scenario_typed ∅))).
Proof.
  assert (Href : fetch_refused scenario5_env
                   (typed_target (initial scenario_typed ∅))).
  { apply (refused_followers _ _ (Profile "Target" 2 2)
             "Login required to access followers."); reflexivity. }
  assert (Hch : fs (main scenario_env (initial scenario_typed ∅)).2
                ≠ fs (initial scenario_typed ∅)).
  { apply (bool_decide_eq_false_1 _). vm_compute. reflexivity. }
  destruct (no_partial_report scenario5_env (initial scenario_typed ∅))
    as [H5 _].
  destruct (no_partial_report scenario_env (initial scenario_typed ∅))
    as [_ H1].
  split.
  - split; [exact Href|]. destruct (H5 Href) as (_ & Hs & Hf).
    split; [exact Hs | exact Hf].
  - split; [exact Hch | exact (H1 Hch)].
Defined.

(** ** The two-factor login *)

(** On a two-factor challenge [main] prompts for the code and retries
    with it (stripped); whatever the retry raises escapes [main]: no
    [except] clause covers the handler, nothing more is shown, and there
    is no [sys.exit]. *)
Lemma two_factor_retry_unhandled (e : env) (w : world)
    (raw user pw code : string) (rest : list string)
    (challenge : string) (err : error) :
  stdin w = raw :: user :: pw :: code :: rest →
  normalize_target raw ≠ "" →
  login (service e) (PyStr.strip user) pw
    = Some (TwoFactorAuthRequiredException, challenge) →
  two_factor_login (service e) (PyStr.strip code) = Some err →
  (main e w).1 = inl (Exception err.1 err.2) ∧
  last (console (main e w).2)
    = Some "Two-factor authentication required. Enter the code: " ∧
  net (main e w).2
    = net w ++ [ReqLogin (PyStr.strip user) pw; ReqTwoFactor (PyStr.strip code)].
Proof.
  intros Hin Htarget Hlogin Hretry.
  destruct w as [si co ne hp files tk]. simpl in Hin. subst si.
  unfold main. run. case_decide; [done|]. simpl.
  rewrite Hlogin. simpl. rewrite Hretry. simpl.
  split_and!; [done| |by rewrite <- (assoc_L (++))].
  unfold show. simpl. by rewrite last_snoc.
Qed.

(** C4, at the failing input. The login raises the two-factor
    challenge and the code typed is rejected: [main] has prompted for the
    code and retried with it, and the [BadCredentialsException] of the
    retry escapes [main] uncaught. The last thing the script shows is the
    prompt; it prints no error message and calls no [sys.exit], and the
    status 1 is the interpreter's, after its traceback. On the sibling
    path, where the first login raises the same exception, the script
    prints its message and exits through [sys.exit(1)]. *)
Theorem two_factor_failure_uncaught :
  (main twofactor_env (initial (scenario_typed ++ ["000000"]) ∅)).1
    = inl (Exception BadCredentialsException "2FA error: invalid code.") ∧
  last (console (main twofactor_env
                   (initial (scenario_typed ++ ["000000"]) ∅)).2)
    = Some "Two-factor authentication required. Enter the code: " ∧
  net (main twofactor_env (initial (scenario_typed ++ ["000000"]) ∅)).2
    = [ReqLogin "me" "secret"; ReqTwoFactor "000000"] ∧
  exit_status
    (main twofactor_env (initial (scenario_typed ++ ["000000"]) ∅)).1 = 1 ∧
  (main badlogin_env (initial scenario_typed ∅)).1 = inl (SystemExit 1) ∧
  last (console (main badlogin_env (initial scenario_typed ∅)).2)
    = Some ("Error: Invalid username or password." +:+ nl).
Proof. vm_compute. done. Qed.

(** ** The target username of the pipeline *)

(** C6. The target username the pipeline uses is the line typed with
    the whitespace around it removed and the leading ["@"] stripped (the
    whole run of them, when several are typed), its characters otherwise
    as typed: [normalize_target raw] is the one and only string in
    [normal_form] with [raw], and it is the username [main] hands to the
    fetch and to the report whenever the run gets that far. *)
Theorem normalize_target_normal_form (raw : string) :
  normal_form raw (normalize_target raw) ∧
  (∀ res, normal_form raw res → res = normalize_target raw) ∧
  (∀ (e : env) (w : world) (rest : list string),
     stdin w = raw :: rest →
     (∃ x, (main e w).1 = inl x ∧ exit_status (inl x) = 1 ∧
           fs (main e w).2 = fs w) ∨
     (∃ w1, fs w1 = fs w ∧
            main e w = fetch_and_report e (normalize_target raw) w1)).
Proof.
  split_and!.
  - apply normalize_target_in_normal_form.
  - apply normal_form_unique.
  - intros e w rest Hin. pose proof (main_reaches e w) as Hmain.
    unfold typed_target in Hmain. by rewrite Hin in Hmain.
Qed.

Lemma normalize_target_normal_form_witness :
  normal_form "  @Bob_9 " "Bob_9" ∧
  "Bob_9" = normalize_target "  @Bob_9 " ∧
  ∃ w1, main scenario_env (initial ["  @Bob_9 "; "me"; "secret"] ∅)
        = fetch_and_report scenario_env "Bob_9" w1.
Proof.
  destruct (normalize_target_normal_form "  @Bob_9 ") as (Hnf & Huniq & Hmain).
  split; [exact Hnf|]. split; [exact (Huniq "Bob_9" Hnf)|].
  destruct (Hmain scenario_env (initial ["  @Bob_9 "; "me"; "secret"] ∅)
              ["me"; "secret"] eq_refl) as [(x & Hx & _)|(w1 & _ & Hrun)].
  - exfalso. vm_compute in Hx. discriminate Hx.
  - exists w1. exact Hrun.
Defined.

(** ** The scenarios of the specification, run *)

(** Scenario 1: the report of a target that follows alice and bob and is
    followed by bob and carol. *)
Example scenario1_report :
  (main scenario_env (initial scenario_typed ∅)).1 = inr tt ∧
  fs (main scenario_env (initial scenario_typed ∅)).2
    !! "target_analysis_20240305_070809.txt"
  = Some [ "Instagram Follower Analysis for @target" +:+ nl;
           "Generated: 2024-03-05 07:08:10" +:+ nl;
           PyStr.replicate_char 60 "=" +:+ nl +:+ nl;
           "ACCOUNTS @target FOLLOWS (2)" +:+ nl;
           PyStr.replicate_char 40 "-" +:+ nl;
           "@alice" +:+ nl; "@bob" +:+ nl;
           nl +:+ "ACCOUNTS THAT FOLLOW @target (2)" +:+ nl;
           PyStr.replicate_char 40 "-" +:+ nl;
           "@bob" +:+ nl; "@carol" +:+ nl;
           nl +:+ "MUTUAL FOLLOWS - Both follow each other (1)" +:+ nl;
           PyStr.replicate_char 40 "-" +:+ nl;
           "@bob" +:+ nl ] ∧
  drop 21 (console (main scenario_env (initial scenario_typed ∅)).2)
  = [ nl +:+ "Writing report..." +:+ nl;
      nl +:+ "Analysis complete!" +:+ nl;
      "  Following:      2" +:+ nl;
      "  Followers:      2" +:+ nl;
      "  Mutual follows: 1" +:+ nl;
      nl +:+ "Report saved to: target_analysis_20240305_070809.txt" +:+ nl ].
Proof. vm_compute. done. Qed.

(** Scenario 2: nobody followed, no follower. *)
Example scenario2_report :
  let e := Env (Provider (λ _ _, None) (λ _, None)
                  (λ _, inr (Profile "Target" 0 0))
                  (Enumeration [] None) (Enumeration [] None))
               scenario_clock elements (λ _, true) in
  fs (main e (initial scenario_typed ∅)).2
    !! "target_analysis_20240305_070809.txt"
  = Some [ "Instagram Follower Analysis for @target" +:+ nl;
           "Generated: 2024-03-05 07:08:10" +:+ nl;
           PyStr.replicate_char 60 "=" +:+ nl +:+ nl;
           "ACCOUNTS @target FOLLOWS (0)" +:+ nl;
           PyStr.replicate_char 40 "-" +:+ nl;
           nl +:+ "ACCOUNTS THAT FOLLOW @target (0)" +:+ nl;
           PyStr.replicate_char 40 "-" +:+ nl;
           nl +:+ "MUTUAL FOLLOWS - Both follow each other (0)" +:+ nl;
           PyStr.replicate_char 40 "-" +:+ nl ].
Proof. vm_compute. done. Qed.

(** Scenario 6: the two-factor code is accepted and the pipeline goes on
    to the report. *)
Example scenario6_two_factor :
  let e := Env (Provider
                  (λ _ _, Some (TwoFactorAuthRequiredException, "challenge"))
                  (λ _, None)
                  (λ _, inr (Profile "Target" 2 2))
                  (Enumeration ["alice"; "bob"] None)
                  (Enumeration ["bob"; "carol"] None))
               scenario_clock elements (λ _, true) in
  (main e (initial (scenario_typed ++ [" 123456 "]) ∅)).1 = inr tt ∧
  net (main e (initial (scenario_typed ++ [" 123456 "]) ∅)).2
  = [ReqLogin "me" "secret"; ReqTwoFactor "123456"; ReqProfile "target";
     ReqFollowees; ReqFollowers] ∧
  is_Some (fs (main e (initial (scenario_typed ++ [" 123456 "]) ∅)).2
             !! "target_analysis_20240305_070809.txt").
Proof. vm_compute. eauto. Qed.

(** * Further properties of the script *)

(** ** The login (lines 110-123) *)

(** The login fails, and not with the two-factor challenge: one of the
    two handlers of lines 114-116 and 121-123 shows its line and exits. *)
Lemma main_login_refused (e : env) (w : world)
    (raw user pw msg : string) (rest : list string) (cls : exn_class) :
  stdin w = raw :: user :: pw :: rest →
  normalize_target raw ≠ "" →
  login (service e) (PyStr.strip user) pw = Some (cls, msg) →
  cls ≠ TwoFactorAuthRequiredException →
  main e w
  = (inl (SystemExit 1),
     World rest
       (console w ++ login_shown ++ [login_error_line cls msg])
       (net w ++ [ReqLogin (PyStr.strip user) pw])
       (heap w) (fs w) (ticks w)).
Proof.
  intros Hin Htarget Hlogin Htwo.
  destruct w as [si co ne hp files tk]. simpl in Hin. subst si.
  unfold main. run. case_decide; [done|]. simpl.
  rewrite Hlogin. simpl.
  destruct cls; try done; simpl; unfold show, login_shown, banner; simpl;
    by rewrite <- !(assoc_L (++)).
Qed.

(** The login raises the two-factor challenge: [main] prompts for the
    code; what follows depends on the code typed and on the answer of
    the provider to it. *)
Lemma main_two_factor (e : env) (w : world)
    (raw user pw challenge : string) (rest : list string) :
  stdin w = raw :: user :: pw :: rest →
  normalize_target raw ≠ "" →
  login (service e) (PyStr.strip user) pw
    = Some (TwoFactorAuthRequiredException, challenge) →
  main e w
  = match rest with
    | [] =>
        (inl (Exception EOFError "EOF when reading a line"),
         World [] (console w ++ login_shown ++ [two_factor_prompt])
           (net w ++ [ReqLogin (PyStr.strip user) pw])
           (heap w) (fs w) (ticks w))
    | code :: rest' =>
        match two_factor_login (service e) (PyStr.strip code) with
        | Some err =>
            (inl (Exception err.1 err.2),
             World rest' (console w ++ login_shown ++ [two_factor_prompt])
               (net w ++ [ReqLogin (PyStr.strip user) pw;
                          ReqTwoFactor (PyStr.strip code)])
               (heap w) (fs w) (ticks w))
        | None =>
            fetch_and_report e (normalize_target raw)
              (World rest'
                 (console w ++ login_shown
                    ++ [two_factor_prompt; "Login successful." +:+ nl])
                 (net w ++ [ReqLogin (PyStr.strip user) pw;
                            ReqTwoFactor (PyStr.strip code)])
                 (heap w) (fs w) (ticks w))
        end
    end.
Proof.
  intros Hin Htarget Hlogin.
  destruct w as [si co ne hp files tk]. simpl in Hin. subst si.
  unfold main. run. case_decide; [done|]. simpl.
  rewrite Hlogin. simpl.
  destruct rest as [|code rest']; simpl.
  { unfold show, login_shown, banner, two_factor_prompt. simpl.
    by rewrite <- !(assoc_L (++)). }
  destruct (two_factor_login (service e) (PyStr.strip code)) as [err|]; simpl.
  - unfold show, login_shown, banner, two_factor_prompt. simpl.
    by rewrite <- !(assoc_L (++)).
  - unfold fetch_and_report. run.
    unfold show, login_shown, banner, two_factor_prompt. simpl.
    by rewrite <- !(assoc_L (++)).
Qed.

(** X1. Rejected credentials: when [loader.login] raises
    [BadCredentialsException], [main] shows "Error: Invalid username or
    password." and leaves through [sys.exit(1)]. The provider has been
    called once, with the session username stripped and the password
    exactly as typed; no file, no set object and no clock reading is
    touched, and the lines typed after the password are left unread. *)
Theorem bad_credentials_exit (e : env) (w : world)
    (raw user pw msg : string) (rest : list string) :
  stdin w = raw :: user :: pw :: rest →
  normalize_target raw ≠ "" →
  login (service e) (PyStr.strip user) pw
    = Some (BadCredentialsException, msg) →
  main e w
  = (inl (SystemExit 1),
     World rest
       (console w ++ login_shown
          ++ ["Error: Invalid username or password." +:+ nl])
       (net w ++ [ReqLogin (PyStr.strip user) pw])
       (heap w) (fs w) (ticks w)).
Proof.
  intros Hin Htarget Hlogin.
  by rewrite (main_login_refused e w raw user pw msg rest
                BadCredentialsException).
Qed.

Lemma bad_credentials_exit_witness :
  normalize_target " @target " ≠ "" ∧
  main badlogin_env (initial [" @target "; " me "; " secret "] ∅)
  = (inl (SystemExit 1),
     World []
       ([] ++ login_shown ++ ["Error: Invalid username or password." +:+ nl])
       ([] ++ [ReqLogin "me" " secret "]) [] ∅ 0).
Proof.
  assert (Ht : normalize_target " @target " ≠ "") by (vm_compute; discriminate).
  split; [exact Ht|].
  exact (bad_credentials_exit badlogin_env
           (initial [" @target "; " me "; " secret "] ∅)
           " @target " " me " " secret " "Login error: wrong password." []
           eq_refl Ht eq_refl).
Defined.

(** X2. Any other failure of [loader.login] (every exception that is
    neither [BadCredentialsException] nor
    [TwoFactorAuthRequiredException]) is caught by [except Exception]:
    [main] shows "Login error: " followed by the message of the
    exception and leaves through [sys.exit(1)], after that one call to
    the provider and with nothing else touched. *)
Theorem login_error_exit (e : env) (w : world)
    (raw user pw msg : string) (rest : list string) (cls : exn_class) :
  stdin w = raw :: user :: pw :: rest →
  normalize_target raw ≠ "" →
  login (service e) (PyStr.strip user) pw = Some (cls, msg) →
  cls ≠ BadCredentialsException →
  cls ≠ TwoFactorAuthRequiredException →
  main e w
  = (inl (SystemExit 1),
     World rest
       (console w ++ login_shown ++ [("Login error: " +:+ msg) +:+ nl])
       (net w ++ [ReqLogin (PyStr.strip user) pw])
       (heap w) (fs w) (ticks w)).
Proof.
  intros Hin Htarget Hlogin Hbad Htwo.
  rewrite (main_login_refused e w raw user pw msg rest cls) by done.
  by destruct cls.
Qed.

Lemma login_error_exit_witness :
  normalize_target " @target " ≠ "" ∧
  main offline_env (initial scenario_typed ∅)
  = (inl (SystemExit 1),
     World []
       ([] ++ login_shown ++ [("Login error: " +:+ "Network unreachable") +:+ nl])
       ([] ++ [ReqLogin "me" "secret"]) [] ∅ 0).
Proof.
  assert (Ht : normalize_target " @target " ≠ "") by (vm_compute; discriminate).
  split; [exact Ht|].
  apply (login_error_exit offline_env (initial scenario_typed ∅)
           " @target " "me" "secret" "Network unreachable" []
           ConnectionException eq_refl Ht eq_refl); discriminate.
Defined.

(** X3. An accepted two-factor code: on the challenge [main] prompts
    for the code, calls [two_factor_login] with the code stripped of the
    whitespace around it, shows "Login successful." and goes on to the
    fetch for the target typed, with nothing but the console, the input
    and the record of calls changed. *)
Theorem two_factor_accepted (e : env) (w : world)
    (raw user pw code challenge : string) (rest : list string) :
  stdin w = raw :: user :: pw :: code :: rest →
  normalize_target raw ≠ "" →
  login (service e) (PyStr.strip user) pw
    = Some (TwoFactorAuthRequiredException, challenge) →
  two_factor_login (service e) (PyStr.strip code) = None →
  main e w
  = fetch_and_report e (normalize_target raw)
      (World rest
         (console w ++ login_shown
            ++ [two_factor_prompt; "Login successful." +:+ nl])
         (net w ++ [ReqLogin (PyStr.strip user) pw;
                    ReqTwoFactor (PyStr.strip code)])
         (heap w) (fs w) (ticks w)).
Proof.
  intros Hin Htarget Hlogin Hcode.
  by rewrite (main_two_factor e w raw user pw challenge (code :: rest)),
       Hcode.
Qed.

Lemma two_factor_accepted_witness :
  normalize_target " @target " ≠ "" ∧
  main challenge_env (initial (scenario_typed ++ [" 123456 "]) ∅)
  = fetch_and_report challenge_env (normalize_target " @target ")
      (World []
         ([] ++ login_shown ++ [two_factor_prompt; "Login successful." +:+ nl])
         ([] ++ [ReqLogin (PyStr.strip "me") "secret";
                 ReqTwoFactor (PyStr.strip " 123456 ")])
         [] ∅ 0).
Proof.
  assert (Ht : normalize_target " @target " ≠ "") by (vm_compute; discriminate).
  split; [exact Ht|].
  exact (two_factor_accepted challenge_env
           (initial (scenario_typed ++ [" 123456 "]) ∅)
           " @target " "me" "secret" " 123456 " "challenge" []
           eq_refl Ht eq_refl eq_refl).
Defined.

(** ** The collecting loops (lines 29-33 and 40-44) *)

Lemma collect_loop_shown (label : string) (r : ref) (items : list string)
    (X : gset string) (w : world) :
  heap w !! r = Some X →
  for_in items (λ username,
    set_add r username ;;
    n <- set_len r ;;
    print_end (label +:+ PyStr.of_nat n) cr) w
  = (inr tt,
     World (stdin w) (console w ++ progress_from label X items) (net w)
       (<[r := list_to_set items ∪ X]> (heap w)) (fs w) (ticks w)).
Proof.
  revert X w. induction items as [|u items IH]; intros X w Hr.
  - simpl. unfold ret. f_equal. destruct w; simpl in *. f_equal.
    + by rewrite (right_id_L [] (++)).
    + rewrite (left_id_L ∅ (∪)). symmetry. by apply list_insert_id.
  - cbn [for_in]. unfold bind at 1.
    unfold bind, set_add, set_len, gets, print_end, modify, deref. simpl.
    rewrite list_lookup_alter_eq, Hr. simpl.
    match goal with
    | |- context [for_in items _ ?w1] =>
        pose proof (IH ({[u]} ∪ X) w1) as Hloop
    end.
    unfold bind, set_add, set_len, gets, print_end, modify, deref in Hloop.
    simpl in Hloop. rewrite Hloop.
    2:{ by rewrite list_lookup_alter_eq, Hr. }
    unfold show. simpl. f_equal. f_equal.
    + by rewrite <- (assoc_L (++)).
    + rewrite list_insert_alter, list_alter_alter_eq.
      rewrite list_insert_alter. apply list_alter_ext; [|done].
      intros Y _. simpl.
      rewrite (assoc_L (∪)). f_equal. apply (comm_L (∪)).
Qed.

Lemma progress_from_lines (label : string) (X : gset string)
    (items : list string) :
  progress_from label X items
  = (λ k, (label +:+ PyStr.of_nat (size (list_to_set (take k items) ∪ X)))
            +:+ cr) <$> seq 1 (length items).
Proof.
  revert X. induction items as [|u items IH]; intros X; [done|].
  cbn [progress_from length seq fmap list_fmap]. f_equal.
  - change (take 1 (u :: items)) with [u].
    by rewrite list_to_set_cons, list_to_set_nil, (right_id_L ∅ (∪)).
  - rewrite IH, <- (fmap_S_seq 1), <- list_fmap_compose.
    apply list_fmap_ext. intros _ k _. simpl.
    do 4 f_equal. rewrite (assoc_L (∪)). f_equal. apply (comm_L (∪)).
Qed.

Lemma progress_from_empty (label : string) (items : list string) :
  progress_from label ∅ items = progress_lines label items.
Proof.
  rewrite progress_from_lines. unfold progress_lines.
  apply list_fmap_ext. intros _ k _. simpl. by rewrite (right_id_L ∅ (∪)).
Qed.

(** ** [get_profile_data], case by case *)

Ltac run_fetch :=
  repeat (progress unfold bind, try_except, print, print_end, modify, call,
            new_set, ret, set_len, gets, for_enum, answer, throw, raise,
            sys_exit, deref, set_add);
  simpl.

(** The resolution fails: the handlers of lines 18-23 decide, nothing is
    enumerated and no set object is created. *)
Lemma get_profile_data_unresolved (e : env) (target : string) (w : world)
    (err : error) :
  from_username (service e) target = inl err →
  get_profile_data e target w
  = (inl (on_lookup_error err),
     World (stdin w)
       (console w ++ fetch_intro target :: lookup_line target err)
       (net w ++ [ReqProfile target]) (heap w) (fs w) (ticks w)).
Proof.
  intros Hlookup. destruct w as [si co ne hp files tk].
  unfold get_profile_data. run_fetch. rewrite Hlookup.
  destruct err as [cls msg].
  unfold on_lookup_error, lookup_line, fetch_intro, show.
  destruct cls; simpl; by rewrite <- ?(assoc_L (++)).
Qed.

(** The profile is resolved: the two loops run one after the other, and
    the ending of each enumeration decides. *)
Lemma get_profile_data_resolved (e : env) (target : string) (w : world)
    (p : profile) :
  from_username (service e) target = inr p →
  let A : gset string := list_to_set (yields (get_followees (service e))) in
  let B : gset string := list_to_set (yields (get_followers (service e))) in
  get_profile_data e target w
  = match ending (get_followees (service e)) with
    | Some err =>
        (inl (on_enum_error err),
         World (stdin w)
           (console w ++ fetch_intro target :: profile_shown p
              ++ progress_lines "  Following: "
                   (yields (get_followees (service e)))
              ++ denied_line "following" err)
           (net w ++ [ReqProfile target; ReqFollowees])
           (heap w ++ [A]) (fs w) (ticks w))
    | None =>
        match ending (get_followers (service e)) with
        | Some err =>
            (inl (on_enum_error err),
             World (stdin w)
               (console w ++ fetch_intro target :: profile_shown p
                  ++ progress_lines "  Following: "
                       (yields (get_followees (service e)))
                  ++ following_done A
                  ++ progress_lines "  Followers: "
                       (yields (get_followers (service e)))
                  ++ denied_line "followers" err)
               (net w ++ [ReqProfile target; ReqFollowees; ReqFollowers])
               (heap w ++ [A; B]) (fs w) (ticks w))
        | None =>
            (inr (S (length (heap w)), length (heap w)),
             World (stdin w)
               (console w ++ fetch_intro target :: profile_shown p
                  ++ progress_lines "  Following: "
                       (yields (get_followees (service e)))
                  ++ following_done A
                  ++ progress_lines "  Followers: "
                       (yields (get_followers (service e)))
                  ++ [followers_done B])
               (net w ++ [ReqProfile target; ReqFollowees; ReqFollowers])
               (heap w ++ [A; B]) (fs w) (ticks w))
        end
    end.
Proof.
  intros Hlookup A B. destruct w as [si co ne hp files tk].
  unfold get_profile_data. run_fetch. rewrite Hlookup. simpl.
  match goal with
  | |- context [for_in ?items _ ?w1] =>
      pose proof (collect_loop_shown "  Following: " (length hp) items ∅ w1)
        as Hloop1
  end.
  repeat (progress unfold bind, set_add, set_len, gets, print_end, modify,
            deref in Hloop1).
  simpl in Hloop1. rewrite Hloop1 by (by apply list_lookup_middle).
  clear Hloop1. simpl.
  rewrite list_insert_alter, alter_last, (right_id_L ∅ (∪)).
  rewrite progress_from_empty. fold A.
  destruct (ending (get_followees (service e))) as [[cls msg]|] eqn:Hend1.
  { unfold on_enum_error, denied_line, fetch_intro, profile_shown, show.
    destruct cls; simpl; rewrite <- ?(assoc_L (++)); simpl;
      try rewrite (right_id_L [] (++)); reflexivity. }
  simpl.
  match goal with
  | |- context [for_in ?items _ ?w1] =>
      pose proof (collect_loop_shown "  Followers: " (length (hp ++ [A]))
                    items ∅ w1) as Hloop2
  end.
  repeat (progress unfold bind, set_add, set_len, gets, print_end, modify,
            deref in Hloop2).
  simpl in Hloop2. rewrite Hloop2 by (by apply list_lookup_middle).
  clear Hloop2. simpl.
  rewrite list_insert_alter, alter_last, (right_id_L ∅ (∪)).
  rewrite progress_from_empty. fold B.
  rewrite (list_lookup_middle hp [] A (length hp)) by done. simpl.
  rewrite length_app. simpl. rewrite Nat.add_1_r.
  destruct (ending (get_followers (service e))) as [[cls msg]|] eqn:Hend2.
  { unfold on_enum_error, denied_line, fetch_intro, following_done, show.
    destruct cls; simpl; rewrite <- ?(assoc_L (++)); simpl;
      try rewrite (right_id_L [] (++)); reflexivity. }
  simpl. unfold show, followers_done, fetch_intro. simpl.
  rewrite (lookup_app_r (hp ++ [A])) by (rewrite length_app; simpl; lia).
  rewrite length_app. simpl.
  replace (S (length hp) - (length hp + 1)) with 0 by lia. simpl.
  by rewrite <- !(assoc_L (++)).
Qed.

(** ** Whole runs *)

(** After an accepted password [main] goes on to the fetch. *)
Lemma main_logged_in (e : env) (w : world) (raw user pw : string)
    (rest : list string) :
  stdin w = raw :: user :: pw :: rest →
  normalize_target raw ≠ "" →
  login (service e) (PyStr.strip user) pw = None →
  main e w
  = fetch_and_report e (normalize_target raw)
      (World rest
         (console w ++ login_shown ++ ["Login successful." +:+ nl])
         (net w ++ [ReqLogin (PyStr.strip user) pw])
         (heap w) (fs w) (ticks w)).
Proof.
  intros Hin Htarget Hlogin.
  destruct w as [si co ne hp files tk]. simpl in Hin. subst si.
  unfold main. run. case_decide; [done|]. simpl.
  rewrite Hlogin. simpl.
  unfold fetch_and_report. run.
  unfold show, login_shown, banner. simpl.
  by rewrite <- !(assoc_L (++)).
Qed.

(** A complete fetch and a file that can be created: the rest of the
    run, in full. *)
Lemma fetch_and_report_run (e : env) (target : string) (w : world)
    (p : profile) :
  from_username (service e) target = inr p →
  ending (get_followees (service e)) = None →
  ending (get_followers (service e)) = None →
  creatable e (report_name target (now e (ticks w))) = true →
  let A : gset string := list_to_set (yields (get_followees (service e))) in
  let B : gset string := list_to_set (yields (get_followers (service e))) in
  fetch_and_report e target w
  = (inr tt,
     World (stdin w)
       (console w ++ fetch_shown e target p
          ++ summary_shown (report_name target (now e (ticks w)))
               (size A) (size B) (size (B ∩ A)))
       (net w ++ [ReqProfile target; ReqFollowees; ReqFollowers])
       (heap w ++ [A; B; B ∩ A])
       (<[report_name target (now e (ticks w)) :=
            report_of e target (now e (S (ticks w))) A B]> (fs w))
       (S (S (ticks w)))).
Proof.
  intros Hlookup Hend1 Hend2 Hcr A B.
  unfold fetch_and_report. unfold bind at 1.
  rewrite (get_profile_data_resolved e target w p Hlookup), Hend1, Hend2.
  fold A B. unfold bind at 1, print at 1, print_end at 1, modify at 1.
  cbn [fst snd]. unfold bind at 1.
  set (w2 := show _ _).
  assert (Hv1 : valid_ref w2 (S (length (heap w)))).
  { unfold valid_ref, w2. simpl. rewrite length_app. simpl. lia. }
  assert (Hv0 : valid_ref w2 (length (heap w))).
  { unfold valid_ref, w2. simpl. rewrite length_app. simpl. lia. }
  assert (HA : deref w2 (length (heap w)) = A).
  { unfold deref, w2. simpl.
    by rewrite (list_lookup_middle _ _ _ (length (heap w))). }
  assert (HB : deref w2 (S (length (heap w))) = B).
  { unfold deref, w2. simpl.
    rewrite (lookup_app_r (heap w)) by lia.
    by replace (S (length (heap w)) - length (heap w)) with 1 by lia. }
  assert (Htk2 : ticks w2 = ticks w) by done.
  rewrite write_report_run by (rewrite ?Htk2; done).
  rewrite HA, HB, Htk2. run.
  unfold show, w2, summary_shown, fetch_shown, report_of. simpl.
  f_equal. f_equal.
  - subst A B. repeat (rewrite <- ?app_assoc; simpl). done.
  - by rewrite <- !(assoc_L (++)).
Qed.

(** ** Errors of the fetch (lines 16-23, 30-36, 41-47) *)

(** X4. A profile that does not exist: [get_profile_data] shows
    "Error: Profile @{target} does not exist." and leaves through
    [sys.exit(1)]. The profile lookup is the only call made to the
    provider; nothing is enumerated and no set object is created. *)
Theorem profile_not_found (e : env) (target msg : string) (w : world) :
  from_username (service e) target = inl (ProfileNotExistsException, msg) →
  get_profile_data e target w
  = (inl (SystemExit 1),
     World (stdin w)
       (console w ++
          [ (nl +:+ "Fetching profile: @" +:+ target) +:+ nl;
            ("Error: Profile @" +:+ target +:+ " does not exist.") +:+ nl ])
       (net w ++ [ReqProfile target]) (heap w) (fs w) (ticks w)).
Proof.
  intros Hlookup. by rewrite (get_profile_data_unresolved e target w _ Hlookup).
Qed.

Lemma profile_not_found_witness :
  get_profile_data notfound_env "target" (initial [] ∅)
  = (inl (SystemExit 1),
     World []
       ([] ++ [ (nl +:+ "Fetching profile: @" +:+ "target") +:+ nl;
                ("Error: Profile @" +:+ "target" +:+ " does not exist.") +:+ nl ])
       ([] ++ [ReqProfile "target"]) [] ∅ 0).
Proof.
  exact (profile_not_found notfound_env "target"
           "Profile target does not exist." (initial [] ∅) eq_refl).
Defined.

(** X5. A private profile: when the lookup raises
    [LoginRequiredException], [get_profile_data] shows "Error: This
    profile is private. Login is required and you must follow this
    account." and leaves through [sys.exit(1)], after that one call and
    without creating any set object. *)
Theorem profile_private (e : env) (target msg : string) (w : world) :
  from_username (service e) target = inl (LoginRequiredException, msg) →
  get_profile_data e target w
  = (inl (SystemExit 1),
     World (stdin w)
       (console w ++
          [ (nl +:+ "Fetching profile: @" +:+ target) +:+ nl;
            "Error: This profile is private. Login is required and you must follow this account." +:+ nl ])
       (net w ++ [ReqProfile target]) (heap w) (fs w) (ticks w)).
Proof.
  intros Hlookup. by rewrite (get_profile_data_unresolved e target w _ Hlookup).
Qed.

Lemma profile_private_witness :
  get_profile_data private_env "target" (initial [] ∅)
  = (inl (SystemExit 1),
     World []
       ([] ++ [ (nl +:+ "Fetching profile: @" +:+ "target") +:+ nl;
                "Error: This profile is private. Login is required and you must follow this account." +:+ nl ])
       ([] ++ [ReqProfile "target"]) [] ∅ 0).
Proof.
  exact (profile_private private_env "target" "Login required."
           (initial [] ∅) eq_refl).
Defined.

(** X6. Login required while the accounts followed are enumerated:
    [get_profile_data] shows the progress of the items received, then
    "Error: Login required to fetch following list." and leaves through
    [sys.exit(1)]. The followers are never requested, and the set
    collected so far is the only object created. *)
Theorem following_denied (e : env) (target msg : string) (p : profile)
    (w : world) :
  from_username (service e) target = inr p →
  ending (get_followees (service e)) = Some (LoginRequiredException, msg) →
  get_profile_data e target w
  = (inl (SystemExit 1),
     World (stdin w)
       (console w ++ fetch_intro target :: profile_shown p
          ++ progress_lines "  Following: " (yields (get_followees (service e)))
          ++ [ (nl +:+ "Error: Login required to fetch following list.") +:+ nl ])
       (net w ++ [ReqProfile target; ReqFollowees])
       (heap w ++ [list_to_set (yields (get_followees (service e)))])
       (fs w) (ticks w)).
Proof.
  intros Hlookup Hend.
  by rewrite (get_profile_data_resolved e target w p Hlookup), Hend.
Qed.

Lemma following_denied_witness :
  get_profile_data hidden_env "target" (initial [] ∅)
  = (inl (SystemExit 1),
     World []
       ([] ++ fetch_intro "target" :: profile_shown (Profile "Target" 2 2)
          ++ progress_lines "  Following: " ["alice"]
          ++ [ (nl +:+ "Error: Login required to fetch following list.") +:+ nl ])
       ([] ++ [ReqProfile "target"; ReqFollowees])
       ([] ++ [list_to_set ["alice"]]) ∅ 0).
Proof.
  exact (following_denied hidden_env "target" "Login required."
           (Profile "Target" 2 2) (initial [] ∅) eq_refl eq_refl).
Defined.

(** X7. Login required while the followers are enumerated, the
    accounts followed having been enumerated in full:
    [get_profile_data] has shown "Following fetched: " with the size of
    the following set, shows the progress of the followers received,
    then "Error: Login required to fetch followers list." and leaves
    through [sys.exit(1)]; both sets collected are dropped with it. *)
Theorem followers_denied (e : env) (target msg : string) (p : profile)
    (w : world) :
  from_username (service e) target = inr p →
  ending (get_followees (service e)) = None →
  ending (get_followers (service e)) = Some (LoginRequiredException, msg) →
  get_profile_data e target w
  = (inl (SystemExit 1),
     World (stdin w)
       (console w ++ fetch_intro target :: profile_shown p
          ++ progress_lines "  Following: " (yields (get_followees (service e)))
          ++ following_done (list_to_set (yields (get_followees (service e))))
          ++ progress_lines "  Followers: " (yields (get_followers (service e)))
          ++ [ (nl +:+ "Error: Login required to fetch followers list.") +:+ nl ])
       (net w ++ [ReqProfile target; ReqFollowees; ReqFollowers])
       (heap w ++ [list_to_set (yields (get_followees (service e)));
                   list_to_set (yields (get_followers (service e)))])
       (fs w) (ticks w)).
Proof.
  intros Hlookup Hend1 Hend2.
  by rewrite (get_profile_data_resolved e target w p Hlookup), Hend1, Hend2.
Qed.

Lemma followers_denied_witness :
  get_profile_data scenario5_env "target" (initial [] ∅)
  = (inl (SystemExit 1),
     World []
       ([] ++ fetch_intro "target" :: profile_shown (Profile "Target" 2 2)
          ++ progress_lines "  Following: " ["alice"; "bob"]
          ++ following_done (list_to_set ["alice"; "bob"])
          ++ progress_lines "  Followers: " ["bob"]
          ++ [ (nl +:+ "Error: Login required to fetch followers list.") +:+ nl ])
       ([] ++ [ReqProfile "target"; ReqFollowees; ReqFollowers])
       ([] ++ [list_to_set ["alice"; "bob"]; list_to_set ["bob"]]) ∅ 0).
Proof.
  exact (followers_denied scenario5_env "target"
           "Login required to access followers." (Profile "Target" 2 2)
           (initial [] ∅) eq_refl eq_refl eq_refl).
Defined.

(** X8. Every other exception of the provider passes through
    [get_profile_data] as it is: raised by the lookup (and neither
    profile-not-found nor login-required) or at the end of either
    enumeration (and not login-required), it is the exception
    [get_profile_data] raises, with its class and message; no [except]
    clause turns it into [sys.exit], and no file is touched. *)
Theorem provider_error_propagates (e : env) (target msg : string)
    (cls : exn_class) (w : world) :
  cls ≠ LoginRequiredException →
  (from_username (service e) target = inl (cls, msg) ∧
   cls ≠ ProfileNotExistsException) ∨
  ((∃ p, from_username (service e) target = inr p) ∧
   ending (get_followees (service e)) = Some (cls, msg)) ∨
  ((∃ p, from_username (service e) target = inr p) ∧
   ending (get_followees (service e)) = None ∧
   ending (get_followers (service e)) = Some (cls, msg)) →
  (get_profile_data e target w).1 = inl (Exception cls msg) ∧
  fs (get_profile_data e target w).2 = fs w ∧
  stdin (get_profile_data e target w).2 = stdin w.
Proof.
  intros Hcls [[Hlookup Hnf] | [[[p Hlookup] Hend] | [[p Hlookup] [Hend1 Hend2]]]].
  - rewrite (get_profile_data_unresolved e target w _ Hlookup).
    unfold on_lookup_error. by destruct cls.
  - rewrite (get_profile_data_resolved e target w p Hlookup), Hend.
    unfold on_enum_error. by destruct cls.
  - rewrite (get_profile_data_resolved e target w p Hlookup), Hend1, Hend2.
    unfold on_enum_error. by destruct cls.
Qed.

Lemma provider_error_propagates_witness :
  (get_profile_data flaky_env "target" (initial [] ∅)).1
    = inl (Exception ConnectionException "Connection reset") ∧
  fs (get_profile_data flaky_env "target" (initial [] ∅)).2 = ∅ ∧
  stdin (get_profile_data flaky_env "target" (initial [] ∅)).2 = [].
Proof.
  apply (provider_error_propagates flaky_env "target" "Connection reset"
           ConnectionException (initial [] ∅)); [discriminate|].
  right. right. split; [by exists (Profile "Target" 2 2)|]. split; reflexivity.
Defined.

(** ** The complete fetch (lines 25-50) *)

(** A set built from a list has at most as many elements as the list. *)
Lemma size_list_to_set_length (items : list string) :
  size (list_to_set items : gset string) ≤ length items.
Proof.
  induction items as [|u items IH].
  - rewrite list_to_set_nil, size_empty. done.
  - rewrite list_to_set_cons, size_union_alt, size_singleton. simpl.
    assert (size (list_to_set items ∖ {[u]} : gset string)
            ≤ size (list_to_set items : gset string))
      by (apply subseteq_size, subseteq_difference_l; done).
    lia.
Qed.

(** X9. When the profile is resolved and both enumerations run to their
    end, [get_profile_data] returns the pair (followers, following) of
    two new set objects. Each holds exactly the usernames its
    enumeration yielded, so a username yielded more than once counts
    once; the provider has been asked for the profile, the accounts
    followed and the followers, in that order; and no object that
    existed, no file, no input and no clock reading is touched. *)
Theorem fetch_collects (e : env) (target : string) (p : profile) (w : world) :
  from_username (service e) target = inr p →
  ending (get_followees (service e)) = None →
  ending (get_followers (service e)) = None →
  ∃ w',
    get_profile_data e target w
      = (inr (S (length (heap w)), length (heap w)), w') ∧
    heap w' = heap w ++ [deref w' (length (heap w));
                         deref w' (S (length (heap w)))] ∧
    (∀ u, u ∈ deref w' (length (heap w))
          ↔ u ∈ yields (get_followees (service e))) ∧
    (∀ u, u ∈ deref w' (S (length (heap w)))
          ↔ u ∈ yields (get_followers (service e))) ∧
    size (deref w' (length (heap w)))
      ≤ length (yields (get_followees (service e))) ∧
    size (deref w' (S (length (heap w))))
      ≤ length (yields (get_followers (service e))) ∧
    net w' = net w ++ [ReqProfile target; ReqFollowees; ReqFollowers] ∧
    stdin w' = stdin w ∧ fs w' = fs w ∧ ticks w' = ticks w.
Proof.
  intros Hlookup Hend1 Hend2. eexists. split.
  { by rewrite (get_profile_data_resolved e target w p Hlookup), Hend1, Hend2. }
  unfold deref. simpl.
  rewrite (list_lookup_middle (heap w) _ _ (length (heap w))) by done.
  rewrite (lookup_app_r (heap w)) by lia.
  replace (S (length (heap w)) - length (heap w)) with 1 by lia. simpl.
  split_and!; try done.
  - intros u. apply elem_of_list_to_set.
  - intros u. apply elem_of_list_to_set.
  - apply size_list_to_set_length.
  - apply size_list_to_set_length.
Qed.

Lemma fetch_collects_witness :
  ∃ w',
    get_profile_data repeating_env "target" (initial [] ∅) = (inr (1, 0), w') ∧
    heap w' = [] ++ [deref w' 0; deref w' 1] ∧
    (∀ u, u ∈ deref w' 0 ↔ u ∈ ["bob"; "alice"; "bob"]) ∧
    (∀ u, u ∈ deref w' 1 ↔ u ∈ ["carol"; "carol"; "bob"]) ∧
    size (deref w' 0) ≤ 3 ∧ size (deref w' 1) ≤ 3 ∧
    net w' = [] ++ [ReqProfile "target"; ReqFollowees; ReqFollowers] ∧
    stdin w' = [] ∧ fs w' = ∅ ∧ ticks w' = 0.
Proof.
  exact (fetch_collects repeating_env "target" (Profile "Target" 2 2)
           (initial [] ∅) eq_refl eq_refl eq_refl).
Defined.

(** X10. Progress of a complete fetch: [get_profile_data] shows the
    profile line, the note, and for each list the announcement, one
    progress line per item received and the line "fetched" with the size
    of the set. The progress line after the [k]-th item shows the number
    of distinct usernames among the first [k] items, so a username that
    comes again leaves the count where it was. *)
Theorem fetch_progress (e : env) (target : string) (p : profile) (w : world) :
  from_username (service e) target = inr p →
  ending (get_followees (service e)) = None →
  ending (get_followers (service e)) = None →
  console (get_profile_data e target w).2
  = console w ++ fetch_intro target :: profile_shown p
      ++ progress_lines "  Following: " (yields (get_followees (service e)))
      ++ following_done (list_to_set (yields (get_followees (service e))))
      ++ progress_lines "  Followers: " (yields (get_followers (service e)))
      ++ [followers_done (list_to_set (yields (get_followers (service e))))] ∧
  ∀ (label : string) (items : list string),
    length (progress_lines label items) = length items ∧
    ∀ k, k < length items →
      progress_lines label items !! k
      = Some ((label +:+ PyStr.of_nat
                 (size (list_to_set (take (S k) items) : gset string))) +:+ cr).
Proof.
  intros Hlookup Hend1 Hend2. split.
  { by rewrite (get_profile_data_resolved e target w p Hlookup), Hend1, Hend2. }
  intros label items. unfold progress_lines. split.
  - by rewrite length_fmap, length_seq.
  - intros k Hk. by rewrite list_lookup_fmap, lookup_seq_lt.
Qed.

Lemma fetch_progress_witness :
  console (get_profile_data repeating_env "target" (initial [] ∅)).2
  = [] ++ fetch_intro "target" :: profile_shown (Profile "Target" 2 2)
      ++ progress_lines "  Following: " ["bob"; "alice"; "bob"]
      ++ following_done (list_to_set ["bob"; "alice"; "bob"])
      ++ progress_lines "  Followers: " ["carol"; "carol"; "bob"]
      ++ [followers_done (list_to_set ["carol"; "carol"; "bob"])] ∧
  progress_lines "  Following: " ["bob"; "alice"; "bob"] !! 2
  = Some (("  Following: " +:+ PyStr.of_nat
             (size (list_to_set (take 3 ["bob"; "alice"; "bob"])
                      : gset string))) +:+ cr).
Proof.
  destruct (fetch_progress repeating_env "target" (Profile "Target" 2 2)
              (initial [] ∅) eq_refl eq_refl eq_refl) as [Hshown Hlines].
  split; [exact Hshown|].
  destruct (Hlines "  Following: " ["bob"; "alice"; "bob"]) as [_ Hk].
  apply (Hk 2). simpl. lia.
Defined.

(** ** A file that cannot be created (lines 59, 127-128) *)



(** ** Writing over a report (lines 56-59) *)

(** X13. Two reports of the same target whose names carry the same
    second collide: the second call of [write_report] opens the file of
    the first for writing and truncates it, so that afterwards the
    directory holds, under that one name, the second report only; the
    first is lost, and no other file is touched. *)
Theorem same_second_overwrite (e : env) (target : string)
    (followers following : ref) (w : world) :
  valid_ref w followers → valid_ref w following →
  report_name target (now e (S (S (ticks w))))
    = report_name target (now e (ticks w)) →
  creatable e (report_name target (now e (ticks w))) = true →
  let w1 := (write_report e target followers following w).2 in
  let w2 := (write_report e target followers following w1).2 in
  fs w1 = <[report_name target (now e (ticks w)) :=
              report_of e target (now e (S (ticks w)))
                (deref w following) (deref w followers)]> (fs w) ∧
  fs w2 = <[report_name target (now e (ticks w)) :=
              report_of e target (now e (S (S (S (ticks w)))))
                (deref w following) (deref w followers)]> (fs w).
Proof.
  intros Hfr Hfg Hname Hcr w1 w2.
  assert (Hw1 : w1 = World (stdin w) (console w) (net w)
            (heap w ++ [deref w followers ∩ deref w following])
            (<[report_name target (now e (ticks w)) :=
                 report_of e target (now e (S (ticks w)))
                   (deref w following) (deref w followers)]> (fs w))
            (S (S (ticks w)))).
  { unfold w1. by rewrite write_report_run. }
  split; [by rewrite Hw1|].
  unfold valid_ref in *.
  assert (Hfr1 : valid_ref w1 followers).
  { rewrite Hw1. unfold valid_ref. simpl. rewrite length_app. lia. }
  assert (Hfg1 : valid_ref w1 following).
  { rewrite Hw1. unfold valid_ref. simpl. rewrite length_app. lia. }
  assert (Hd1 : deref w1 followers = deref w followers).
  { rewrite Hw1. unfold deref. simpl. by rewrite lookup_app_l. }
  assert (Hd2 : deref w1 following = deref w following).
  { rewrite Hw1. unfold deref. simpl. by rewrite lookup_app_l. }
  assert (Htk : ticks w1 = S (S (ticks w))) by (by rewrite Hw1).
  unfold w2. rewrite write_report_run; try done.
  - simpl. rewrite Hd1, Hd2, Htk, Hname. rewrite Hw1 at 1. simpl.
    by rewrite insert_insert_eq.
  - by rewrite Htk, Hname.
Qed.

Lemma same_second_overwrite_witness :
  valid_ref scenario_fetched 0 ∧ valid_ref scenario_fetched 1 ∧
  let w1 := (write_report same_second_env "target" 0 1 scenario_fetched).2 in
  let w2 := (write_report same_second_env "target" 0 1 w1).2 in
  fs w1 = <[report_name "target" (DateTime 2024 3 5 7 8 9) :=
              report_of same_second_env "target" (DateTime 2024 3 5 7 8 9)
                (deref scenario_fetched 1) (deref scenario_fetched 0)]> ∅ ∧
  fs w2 = <[report_name "target" (DateTime 2024 3 5 7 8 9) :=
              report_of same_second_env "target" (DateTime 2024 3 5 7 8 9)
                (deref scenario_fetched 1) (deref scenario_fetched 0)]> ∅.
Proof.
  assert (H0 : valid_ref scenario_fetched 0) by (unfold valid_ref; simpl; lia).
  assert (H1 : valid_ref scenario_fetched 1) by (unfold valid_ref; simpl; lia).
  split; [exact H0|]. split; [exact H1|].
  exact (same_second_overwrite same_second_env "target" 0 1 scenario_fetched
           H0 H1 eq_refl eq_refl).
Defined.

(** ** The mutual section among the sections (lines 55, 67-80) *)

Lemma StronglySorted_sublist {A} (R : relation A) (l1 l2 : list A) :
  l1 `sublist_of` l2 → StronglySorted R l2 → StronglySorted R l1.
Proof.
  intros Hsub. induction Hsub as [|x l1 l2 Hsub IH|x l1 l2 Hsub IH];
    intros Hsorted; [done|..].
  - apply StronglySorted_inv in Hsorted as [Hl2 Hx]. constructor; [auto|].
    rewrite Forall_forall in Hx |- *. intros y Hy. apply Hx.
    by eapply elem_of_sublist.
  - apply StronglySorted_inv in Hsorted as [Hl2 _]. auto.
Qed.

(** Two sorted lists of sets: the list of the intersection is the first
    list with the names that are not in the second taken out. *)
Lemma lists_sorted_intersection (l1 l2 l3 : list string) (X Y : gset string) :
  lists_sorted l1 X → lists_sorted l2 Y → lists_sorted l3 (X ∩ Y) →
  l3 = filter (λ u, u ∈ l2) l1.
Proof.
  intros (Hs1 & Hn1 & He1) (Hs2 & Hn2 & He2) (Hs3 & Hn3 & He3).
  apply (StronglySorted_unique String.le); [done| |].
  - apply (StronglySorted_sublist _ _ l1); [apply sublist_filter|done].
  - apply NoDup_Permutation; [done|by apply NoDup_filter|].
    intros u. rewrite He3, list_elem_of_filter, He1, He2, elem_of_intersection.
    tauto.
Qed.

(** X14. The three sections of a report agree: the names of the mutual
    section are the names listed in both other sections, it is the
    following section with the names that are no followers taken out (in
    the same order), and its count is at most either of the two other
    counts. *)
Theorem mutual_section_agrees (e : env) (target : string)
    (followers following : ref) (w : world) :
  iter_ok e → valid_ref w followers → valid_ref w following →
  creatable e (report_name target (now e (ticks w))) = true →
  ∃ (names_following names_followers names_mutual : list string)
    (filename : string) (w' : world),
    write_report e target followers following w
      = (inr (filename, length names_followers, length names_following,
              length names_mutual), w') ∧
    fs w' !! filename
      = Some (report_layout target (now e (S (ticks w)))
                (length names_following) names_following
                (length names_followers) names_followers
                (length names_mutual) names_mutual) ∧
    (∀ u, u ∈ names_mutual ↔ u ∈ names_following ∧ u ∈ names_followers) ∧
    names_mutual = filter (λ u, u ∈ names_followers) names_following ∧
    names_mutual `sublist_of` names_following ∧
    length names_mutual ≤ length names_following `min` length names_followers.
Proof.
  intros Hit Hfr Hfg Hcr.
  pose proof (sorted_set_lists e (deref w following) Hit) as H1.
  pose proof (sorted_set_lists e (deref w followers) Hit) as H2.
  pose proof (sorted_set_lists e (deref w followers ∩ deref w following) Hit)
    as H3.
  rewrite (comm_L (∩)) in H3.
  pose proof (lists_sorted_intersection _ _ _ _ _ H1 H2 H3) as Hfilter.
  exists (PyStr.sorted (iter_order e (deref w following))),
         (PyStr.sorted (iter_order e (deref w followers))),
         (PyStr.sorted (iter_order e (deref w following ∩ deref w followers))).
  eexists _, _. rewrite !(sorted_set_length e) by done.
  rewrite (comm_L (∩) (deref w following)).
  split; [by apply write_report_run|].
  simpl. rewrite lookup_insert_eq.
  rewrite (comm_L (∩) (deref w followers)).
  split; [done|]. split_and!.
  - intros u. destruct H1 as (_ & _ & He1), H2 as (_ & _ & He2),
      H3 as (_ & _ & He3).
    rewrite He1, He2, He3, elem_of_intersection. done.
  - done.
  - rewrite Hfilter. apply sublist_filter.
  - apply Nat.min_glb; apply subseteq_size;
      [apply intersection_subseteq_l | apply intersection_subseteq_r].
Qed.

Lemma mutual_section_agrees_witness :
  iter_ok scenario_env ∧
  ∃ (names_following names_followers names_mutual : list string)
    (filename : string) (w' : world),
    write_report scenario_env "target" 0 1 scenario_fetched
      = (inr (filename, length names_followers, length names_following,
              length names_mutual), w') ∧
    fs w' !! filename
      = Some (report_layout "target" (scenario_clock 1)
                (length names_following) names_following
                (length names_followers) names_followers
                (length names_mutual) names_mutual) ∧
    (∀ u, u ∈ names_mutual ↔ u ∈ names_following ∧ u ∈ names_followers) ∧
    names_mutual = filter (λ u, u ∈ names_followers) names_following ∧
    names_mutual `sublist_of` names_following ∧
    length names_mutual ≤ length names_following `min` length names_followers.
Proof.
  assert (Hit : iter_ok scenario_env) by (intros X; reflexivity).
  assert (H0 : valid_ref scenario_fetched 0) by (unfold valid_ref; simpl; lia).
  assert (H1 : valid_ref scenario_fetched 1) by (unfold valid_ref; simpl; lia).
  split; [exact Hit|].
  exact (mutual_section_agrees scenario_env "target" 0 1 scenario_fetched
           Hit H0 H1 eq_refl).
Defined.

(** ** File names never collide across targets or seconds (lines 56-57) *)

Lemma length_app_str (a b : string) :
  String.length (a +:+ b) = String.length a + String.length b.
Proof. induction a as [|c a IH]; [done|]. rewrite app_cons_str. simpl. by rewrite IH. Qed.

Lemma app_inj_length_l (a1 a2 b1 b2 : string) :
  String.length a1 = String.length a2 →
  a1 +:+ b1 = a2 +:+ b2 → a1 = a2 ∧ b1 = b2.
Proof.
  revert a2. induction a1 as [|c a1 IH]; intros [|d a2] Hlen Heq; try done.
  rewrite !app_cons_str in Heq. injection Heq as -> Heq.
  injection Hlen as Hlen. destruct (IH a2 Hlen Heq) as [-> ->]. done.
Qed.

Lemma app_inj_length_r (a1 a2 b1 b2 : string) :
  String.length b1 = String.length b2 →
  a1 +:+ b1 = a2 +:+ b2 → a1 = a2 ∧ b1 = b2.
Proof.
  intros Hlen Heq. apply app_inj_length_l; [|done].
  apply (f_equal String.length) in Heq. rewrite !length_app_str in Heq. lia.
Qed.

Lemma compact_length (t : datetime) :
  Strftime.valid t → String.length (Strftime.compact t) = 15.
Proof.
  intros (Hy & Hmo & Hd & Hh & Hmi & Hs). unfold Strftime.compact.
  rewrite !length_app_str.
  destruct (four_digits (year t)) as [-> _]; [lia|].
  destruct (two_digits (month t)) as [-> _]; [lia|].
  destruct (two_digits (day t)) as [-> _]; [lia|].
  destruct (two_digits (hour t)) as [-> _]; [lia|].
  destruct (two_digits (minute t)) as [-> _]; [lia|].
  destruct (two_digits (second t)) as [-> _]; [lia|].
  done.
Qed.

Lemma four_inj (m n : nat) :
  m < 10 ^ 4 → n < 10 ^ 4 → Strftime.four m = Strftime.four n → m = n.
Proof.
  intros Hm Hn Heq.
  destruct (four_digits m Hm) as [_ Hvm], (four_digits n Hn) as [_ Hvn].
  rewrite Heq, Hvn in Hvm. injection Hvm as Hvm. lia.
Qed.

Lemma two_inj (m n : nat) :
  m < 100 → n < 100 → Strftime.two m = Strftime.two n → m = n.
Proof.
  intros Hm Hn Heq.
  destruct (two_digits m Hm) as [_ Hvm], (two_digits n Hn) as [_ Hvn].
  rewrite Heq, Hvn in Hvm. injection Hvm as Hvm. lia.
Qed.

Lemma compact_inj (t1 t2 : datetime) :
  Strftime.valid t1 → Strftime.valid t2 →
  Strftime.compact t1 = Strftime.compact t2 → t1 = t2.
Proof.
  intros (Hy1 & Hmo1 & Hd1 & Hh1 & Hmi1 & Hs1)
         (Hy2 & Hmo2 & Hd2 & Hh2 & Hmi2 & Hs2) Heq.
  unfold Strftime.compact in Heq.
  apply app_inj_length_l in Heq as [Hy Heq].
  2:{ destruct (four_digits (year t1)) as [-> _]; [lia|].
      destruct (four_digits (year t2)) as [-> _]; [lia|]. done. }
  apply app_inj_length_l in Heq as [Hmo Heq].
  2:{ destruct (two_digits (month t1)) as [-> _]; [lia|].
      destruct (two_digits (month t2)) as [-> _]; [lia|]. done. }
  apply app_inj_length_l in Heq as [Hd Heq].
  2:{ destruct (two_digits (day t1)) as [-> _]; [lia|].
      destruct (two_digits (day t2)) as [-> _]; [lia|]. done. }
  apply app_inj_length_l in Heq as [_ Heq]; [|done].
  apply app_inj_length_l in Heq as [Hh Heq].
  2:{ destruct (two_digits (hour t1)) as [-> _]; [lia|].
      destruct (two_digits (hour t2)) as [-> _]; [lia|]. done. }
  apply app_inj_length_l in Heq as [Hmi Hs].
  2:{ destruct (two_digits (minute t1)) as [-> _]; [lia|].
      destruct (two_digits (minute t2)) as [-> _]; [lia|]. done. }
  apply four_inj in Hy; [|lia..]. apply two_inj in Hmo; [|lia..].
  apply two_inj in Hd; [|lia..]. apply two_inj in Hh; [|lia..].
  apply two_inj in Hmi; [|lia..]. apply two_inj in Hs; [|lia..].
  destruct t1, t2. simpl in *. by subst.
Qed.

(** X15. The name of a report determines the target and the second:
    two reports whose targets differ, or whose names were made at
    different seconds, have different file names, so neither run can
    write over the report of the other. *)
Theorem report_name_injective (target1 target2 : string) (t1 t2 : datetime) :
  Strftime.valid t1 → Strftime.valid t2 →
  report_name target1 t1 = report_name target2 t2 →
  target1 = target2 ∧ t1 = t2.
Proof.
  intros Hv1 Hv2 Heq. unfold report_name in Heq.
  apply app_inj_length_r in Heq as [-> Heq].
  2:{ rewrite !length_app_str, !compact_length by done. done. }
  split; [done|].
  apply app_inj_length_l in Heq as [_ Heq]; [|done].
  apply app_inj_length_r in Heq as [Heq _]; [|done].
  by apply compact_inj.
Qed.

Lemma report_name_injective_witness :
  Strftime.valid (scenario_clock 0) ∧
  report_name "target" (scenario_clock 0)
    = report_name "target" (DateTime 2024 3 5 7 8 9) ∧
  "target" = "target" ∧ scenario_clock 0 = DateTime 2024 3 5 7 8 9.
Proof.
  assert (Hv : Strftime.valid (scenario_clock 0))
    by (unfold Strftime.valid; simpl; lia).
  split; [exact Hv|]. split; [reflexivity|].
  exact (report_name_injective "target" "target" (scenario_clock 0)
           (DateTime 2024 3 5 7 8 9) Hv Hv eq_refl).
Defined.

(** ** How a run ends after the login *)

Lemma exit_status_lookup_error (err : error) :
  exit_status (inl (on_lookup_error err)) = 1.
Proof. destruct err as [[] msg]; done. Qed.

Lemma exit_status_enum_error (err : error) :
  exit_status (inl (on_enum_error err)) = 1.
Proof. destruct err as [[] msg]; done. Qed.

(** What follows the login ends in one of two ways: with an exception,
    status 1 and the files as they were, or normally, with the report
    of the two sets as the one change to the files. *)
Lemma fetch_and_report_cases (e : env) (target : string) (w : world) :
  (∃ x, (fetch_and_report e target w).1 = inl x ∧
        exit_status (inl x) = 1 ∧
        fs (fetch_and_report e target w).2 = fs w) ∨
  (fetch_complete e target ∧
   (fetch_and_report e target w).1 = inr tt ∧
   fs (fetch_and_report e target w).2
   = <[report_name target (now e (ticks w)) :=
         report_of e target (now e (S (ticks w)))
           (list_to_set (yields (get_followees (service e))))
           (list_to_set (yields (get_followers (service e))))]> (fs w)).
Proof.
  destruct (from_username (service e) target) as [err|p] eqn:Hlookup.
  { left. unfold fetch_and_report, bind.
    rewrite (get_profile_data_unresolved e target w err Hlookup).
    simpl. eexists. split; [reflexivity|].
    split; [apply exit_status_lookup_error|done]. }
  destruct (ending (get_followees (service e))) as [err|] eqn:Hend1.
  { left. unfold fetch_and_report, bind.
    rewrite (get_profile_data_resolved e target w p Hlookup), Hend1.
    simpl. eexists. split; [reflexivity|].
    split; [apply exit_status_enum_error|done]. }
  destruct (ending (get_followers (service e))) as [err|] eqn:Hend2.
  { left. unfold fetch_and_report, bind.
    rewrite (get_profile_data_resolved e target w p Hlookup), Hend1, Hend2.
    simpl. eexists. split; [reflexivity|].
    split; [apply exit_status_enum_error|done]. }
  destruct (creatable e (report_name target (now e (ticks w)))) eqn:Hcr.
  - right. rewrite (fetch_and_report_run e target w p) by done.
    split; [|done]. split; [by exists p|done].
  - left. destruct (fetch_and_report e target w) as [r w'] eqn:Hrun.
    unfold fetch_and_report in Hrun. unfold bind at 1 in Hrun.
    rewrite (get_profile_data_resolved e target w p Hlookup), Hend1, Hend2
      in Hrun.
    unfold bind at 1, print at 1, print_end at 1, modify at 1 in Hrun.
    cbn [fst snd] in Hrun. unfold bind at 1 in Hrun.
    rewrite write_report_refused in Hrun by done.
    injection Hrun as <- <-.
    eexists. split; [reflexivity|]. split; done.
Qed.


(** ** The record of provider calls *)

(** What follows the login, whatever calls the record holds already:
    the result, what is shown, the objects created, the files and the
    clock do not depend on the record, and between one and three calls
    are added to it, in the order lookup, accounts followed, followers;
    all three have been made whenever the run returns or a file has
    changed. *)
Lemma fetch_and_report_frame (e : env) (target : string)
    (si co : list string) (hp : list (gset string))
    (files : gmap string (list string)) (tk : nat) :
  ∃ (r : exn + unit) (shown : list string) (k : nat)
    (objs : list (gset string)) (files' : gmap string (list string))
    (tk' : nat),
    1 ≤ k ≤ 3 ∧ (files' ≠ files → k = 3) ∧ (r = inr tt → k = 3) ∧
    ∀ nt, fetch_and_report e target (World si co nt hp files tk)
          = (r, World si (co ++ shown)
                  (nt ++ take k [ReqProfile target; ReqFollowees; ReqFollowers])
                  (hp ++ objs) files' tk').
Proof.
  destruct (from_username (service e) target) as [err|p] eqn:Hlookup.
  { eexists _, _, 1, [], _, _. split; [lia|]. split; [|split]; cycle 2.
    - intros nt. unfold fetch_and_report, bind.
      rewrite (get_profile_data_unresolved e target _ err Hlookup). simpl.
      rewrite (app_nil_r hp). reflexivity.
    - done.
    - done. }
  destruct (ending (get_followees (service e))) as [err|] eqn:Hend1.
  { eexists _, _, 2, _, _, _. split; [lia|]. split; [|split]; cycle 2.
    - intros nt. unfold fetch_and_report, bind.
      rewrite (get_profile_data_resolved e target _ p Hlookup), Hend1. simpl.
      reflexivity.
    - done.
    - done. }
  destruct (ending (get_followers (service e))) as [err|] eqn:Hend2.
  { eexists _, _, 3, _, _, _. split; [lia|]. split; [|split]; cycle 2.
    - intros nt. unfold fetch_and_report, bind.
      rewrite (get_profile_data_resolved e target _ p Hlookup), Hend1, Hend2.
      simpl. reflexivity.
    - done.
    - done. }
  destruct (creatable e (report_name target (now e tk))) eqn:Hcr.
  - eexists _, _, 3, _, _, _. split; [lia|]. split; [done|]. split; [done|].
    intros nt. rewrite (fetch_and_report_run e target _ p) by done.
    simpl. reflexivity.
  - eexists _, _, 3, _, _, _. split; [lia|]. split; [done|]. split; [done|].
    intros nt. unfold fetch_and_report. unfold bind at 1.
    rewrite (get_profile_data_resolved e target _ p Hlookup), Hend1, Hend2.
    unfold bind at 1, print at 1, print_end at 1, modify at 1.
    cbn [fst snd]. unfold bind at 1.
    rewrite write_report_refused by done.
    unfold deref, show. simpl.
    rewrite (list_lookup_middle hp _ _ (length hp)) by done.
    rewrite (lookup_app_r hp) by lia.
    replace (S (length hp) - length hp) with 1 by lia. simpl.
    rewrite <- !(assoc_L (++)). simpl. reflexivity.
Qed.

(** An empty target: the run of lines 86-93. *)
Lemma main_no_target (e : env) (w : world) (raw : string) (rest : list string) :
  stdin w = raw :: rest → normalize_target raw = "" →
  main e w
  = (inl (SystemExit 1),
     World rest
       (console w ++ banner ++ ["Error: Username cannot be empty." +:+ nl])
       (net w) (heap w) (fs w) (ticks w)).
Proof.
  intros Hin Hempty.
  destruct w as [si co ne hp files tk]. simpl in Hin. subst si.
  unfold main. run. rewrite Hempty. simpl.
  unfold banner, show. simpl. by rewrite <- !(assoc_L (++)).
Qed.

(** X17. The password goes to the login call of the provider and
    nowhere else: two runs that differ only in the password typed (and
    in the calls recorded before), the provider answering both logins
    alike, end with the same result, have shown the same console, and
    hold the same set objects and the same files. *)
Theorem password_not_disclosed (e : env) (w1 w2 : world)
    (raw user pw1 pw2 : string) (rest : list string) :
  stdin w1 = raw :: user :: pw1 :: rest →
  stdin w2 = raw :: user :: pw2 :: rest →
  console w1 = console w2 → heap w1 = heap w2 →
  fs w1 = fs w2 → ticks w1 = ticks w2 →
  login (service e) (PyStr.strip user) pw1
    = login (service e) (PyStr.strip user) pw2 →
  (main e w1).1 = (main e w2).1 ∧
  console (main e w1).2 = console (main e w2).2 ∧
  heap (main e w1).2 = heap (main e w2).2 ∧
  fs (main e w1).2 = fs (main e w2).2 ∧
  ticks (main e w1).2 = ticks (main e w2).2.
Proof.
  intros Hin1 Hin2 Hco Hhp Hfs Htk Hlogin.
  destruct w1 as [si1 co1 ne1 hp1 files1 tk1],
           w2 as [si2 co2 ne2 hp2 files2 tk2].
  simpl in *. subst.
  destruct (decide (normalize_target raw = "")) as [Hempty|Htarget].
  { rewrite !(main_no_target e _ raw (user :: _ :: rest)) by done. simpl.
    done. }
  destruct (login (service e) (PyStr.strip user) pw2) as [[cls msg]|] eqn:H2.
  - destruct (decide (cls = TwoFactorAuthRequiredException)) as [->|Hcls].
    + rewrite !(main_two_factor e _ raw user _ msg rest) by done.
      cbn [stdin console net heap fs ticks].
      destruct rest as [|code rest']; [done|].
      destruct (two_factor_login (service e) (PyStr.strip code)) as [err|];
        [done|].
      match goal with
      | |- context [fetch_and_report e ?t (World ?si ?co _ ?hp ?fl ?tk)] =>
          destruct (fetch_and_report_frame e t si co hp fl tk)
            as (r & shown & k & objs & fl' & tk' & _ & _ & _ & Hrun)
      end.
      by rewrite !Hrun.
    + rewrite !(main_login_refused e _ raw user _ msg rest cls) by done.
      done.
  - rewrite !(main_logged_in e _ raw user _ rest) by done.
    cbn [stdin console net heap fs ticks].
    match goal with
    | |- context [fetch_and_report e ?t (World ?si ?co _ ?hp ?fl ?tk)] =>
        destruct (fetch_and_report_frame e t si co hp fl tk)
          as (r & shown & k & objs & fl' & tk' & _ & _ & _ & Hrun)
    end.
    by rewrite !Hrun.
Qed.

Lemma password_not_disclosed_witness :
  (main scenario_env (initial [" @target "; "me"; "secret"] ∅)).1
    = (main scenario_env (initial [" @target "; "me"; "hunter2"] ∅)).1 ∧
  console (main scenario_env (initial [" @target "; "me"; "secret"] ∅)).2
    = console (main scenario_env (initial [" @target "; "me"; "hunter2"] ∅)).2 ∧
  heap (main scenario_env (initial [" @target "; "me"; "secret"] ∅)).2
    = heap (main scenario_env (initial [" @target "; "me"; "hunter2"] ∅)).2 ∧
  fs (main scenario_env (initial [" @target "; "me"; "secret"] ∅)).2
    = fs (main scenario_env (initial [" @target "; "me"; "hunter2"] ∅)).2 ∧
  ticks (main scenario_env (initial [" @target "; "me"; "secret"] ∅)).2
    = ticks (main scenario_env (initial [" @target "; "me"; "hunter2"] ∅)).2.
Proof.
  exact (password_not_disclosed scenario_env
           (initial [" @target "; "me"; "secret"] ∅)
           (initial [" @target "; "me"; "hunter2"] ∅)
           " @target " "me" "secret" "hunter2" []
           eq_refl eq_refl eq_refl eq_refl eq_refl eq_refl eq_refl).
Defined.

(** X18. The calls a run makes to the provider. None is made before
    the target, the session username and the password have been typed
    and the target found non-empty. Those made are an initial part of
    the session (login, two-factor completion if challenged, profile
    lookup, accounts followed, followers), in that order, each once:
    nothing is retried and nothing is requested out of turn. And the
    profile is looked up only after a login that succeeded, at once or
    through an accepted two-factor code. *)
Theorem fetch_requires_login (e : env) (w : world) :
  ∃ reqs : list request,
    net (main e w).2 = net w ++ reqs ∧
    (reqs = [] ∨
     ∃ (user pw : string) (code : option string),
       stdin w !! 1 = Some user ∧ stdin w !! 2 = Some pw ∧
       typed_target w ≠ "" ∧
       reqs `prefix_of`
         session_requests (PyStr.strip user) pw code (typed_target w) ∧
       (ReqProfile (typed_target w) ∈ reqs →
          match code with
          | None => login (service e) (PyStr.strip user) pw = None
          | Some c =>
              (∃ challenge, login (service e) (PyStr.strip user) pw
                            = Some (TwoFactorAuthRequiredException, challenge)) ∧
              (∃ typed, stdin w !! 3 = Some typed ∧ c = PyStr.strip typed) ∧
              two_factor_login (service e) c = None
          end)).
Proof.
  destruct w as [si co ne hp files tk]. unfold typed_target. simpl.
  destruct si as [|raw [|user [|pw rest]]].
  - exists []. split; [|by left]. unfold main. run.
    by rewrite (right_id_L [] (++)).
  - exists []. split; [|by left]. unfold main. run.
    case_decide; simpl; by rewrite (right_id_L [] (++)).
  - exists []. split; [|by left]. unfold main. run.
    case_decide; simpl; by rewrite (right_id_L [] (++)).
  - destruct (decide (normalize_target raw = "")) as [Hempty|Htarget].
    { exists []. split; [|by left].
      rewrite (main_no_target e _ raw (user :: pw :: rest)) by done.
      simpl. by rewrite (right_id_L [] (++)). }
    destruct (login (service e) (PyStr.strip user) pw) as [[cls msg]|]
      eqn:Hlogin.
    + destruct (decide (cls = TwoFactorAuthRequiredException)) as [->|Hcls].
      * rewrite (main_two_factor e _ raw user pw msg rest) by done.
        cbn [stdin console net heap fs ticks].
        destruct rest as [|code rest'].
        { eexists. split; [reflexivity|]. right. exists user, pw, None.
          split_and!; try done.
          - by eexists.
          - intros Hin. apply list_elem_of_singleton in Hin. done. }
        destruct (two_factor_login (service e) (PyStr.strip code)) as [err|]
          eqn:Hcode.
        { eexists. split; [reflexivity|]. right.
          exists user, pw, (Some (PyStr.strip code)).
          split_and!; try done.
          - by eexists.
          - intros Hin. apply elem_of_cons in Hin as [Hin|Hin]; [done|].
            apply list_elem_of_singleton in Hin. done. }
        match goal with
        | |- context [fetch_and_report e ?t (World ?si ?co _ ?hp ?fl ?tk)] =>
            destruct (fetch_and_report_frame e t si co hp fl tk)
              as (r & shown & k & objs & fl' & tk' & _ & _ & _ & Hrun)
        end.
        rewrite Hrun. simpl. eexists. split; [by rewrite <- (assoc_L (++))|].
        right. exists user, pw, (Some (PyStr.strip code)).
        split_and!; try done.
        -- unfold session_requests. simpl. do 2 apply prefix_cons.
           apply prefix_take.
        -- intros _. split_and!; [by eexists|by eexists|done].
      * rewrite (main_login_refused e _ raw user pw msg rest cls) by done.
        simpl. eexists. split; [reflexivity|]. right. exists user, pw, None.
        split_and!; try done.
        -- by eexists.
        -- intros Hin. apply list_elem_of_singleton in Hin. done.
    + rewrite (main_logged_in e _ raw user pw rest) by done.
      cbn [stdin console net heap fs ticks].
      match goal with
      | |- context [fetch_and_report e ?t (World ?si ?co _ ?hp ?fl ?tk)] =>
          destruct (fetch_and_report_frame e t si co hp fl tk)
            as (r & shown & k & objs & fl' & tk' & _ & _ & _ & Hrun)
      end.
      rewrite Hrun. simpl. eexists. split; [by rewrite <- (assoc_L (++))|].
      right. exists user, pw, None. split_and!; try done.
      unfold session_requests. simpl. apply prefix_cons, prefix_take.
Qed.

Lemma fetch_requires_login_witness :
  ∃ reqs : list request,
    net (main scenario_env (initial scenario_typed ∅)).2 = [] ++ reqs ∧
    ReqProfile (typed_target (initial scenario_typed ∅)) ∈ reqs ∧
    login (service scenario_env) (PyStr.strip "me") "secret" = None.
Proof.
  destruct (fetch_requires_login scenario_env (initial scenario_typed ∅))
    as (reqs & Hnet & Hreqs).
  exists reqs. split; [exact Hnet|].
  assert (Hin : ReqProfile (typed_target (initial scenario_typed ∅)) ∈ reqs).
  { vm_compute in Hnet. rewrite <- Hnet. vm_compute.
    apply list_elem_of_further, list_elem_of_here. }
  split; [exact Hin|].
  destruct Hreqs as [->|(user & pw & code & Huser & Hpw & _ & _ & Hgate)].
  - apply not_elem_of_nil in Hin. destruct Hin.
  - injection Huser as <-. injection Hpw as <-.
    specialize (Hgate Hin). destruct code as [c|]; [|exact Hgate].
    destruct Hgate as [[challenge Hchallenge] _]. discriminate Hchallenge.
Defined.

(** ** Which lines are rejected (lines 90-93) *)

Lemma first_char_replicate (n : nat) (c d : ascii) (s : string) :
  s = "" → PyStr.first_char (PyStr.replicate_char n c +:+ s) = Some d → d = c.
Proof. intros ->. destruct n; [done|]. simpl. by intros [= <-]. Qed.

Lemma last_char_replicate (n : nat) (c d : ascii) :
  PyStr.last_char (PyStr.replicate_char n c +:+ "") = Some d → d = c.
Proof.
  rewrite app_nil_r_str. induction n as [|n IH]; [done|]. simpl.
  destruct n; simpl in *; [by intros [= <-]|done].
Qed.


(** X19. The lines rejected as an empty username are exactly those made
    of whitespace, then any number of ["@"] (none included), then
    whitespace: a line of blanks is rejected, and so is ["@"] alone. *)
Theorem empty_target_lines (raw : string) :
  normalize_target raw = "" ↔
  ∃ (pre post : string) (n : nat),
    raw = pre +:+ PyStr.replicate_char n "@" +:+ post ∧
    PyStr.all_chars PyStr.isspace pre = true ∧
    PyStr.all_chars PyStr.isspace post = true.
Proof.
  split.
  - intros Hempty.
    destruct (normalize_target_in_normal_form raw)
      as (pre & post & n & Hraw & Hpre & Hpost & _).
    rewrite Hempty, app_nil_r_str in Hraw. by exists pre, post, n.
  - intros (pre & post & n & Hraw & Hpre & Hpost).
    symmetry. apply normal_form_unique. exists pre, post, n.
    rewrite app_nil_r_str. split_and!; try done.
    + intros c Hc. rewrite <- (app_nil_r_str (PyStr.replicate_char n "@")) in Hc.
      by apply first_char_replicate in Hc as ->.
    + intros c Hc. rewrite <- (app_nil_r_str (PyStr.replicate_char n "@")) in Hc.
      by apply last_char_replicate in Hc as ->.
Qed.

Lemma empty_target_lines_witness :
  normalize_target "  @@ " = "" ∧
  ∃ (pre post : string) (n : nat),
    "  @@ " = pre +:+ PyStr.replicate_char n "@" +:+ post ∧
    PyStr.all_chars PyStr.isspace pre = true ∧
    PyStr.all_chars PyStr.isspace post = true.
Proof.
  destruct (empty_target_lines "  @@ ") as [Hto Hfrom].
  assert (He : normalize_target "  @@ " = "").
  { apply Hfrom. exists "  ", " ", 2. split_and!; reflexivity. }
  split; [exact He | exact (Hto He)].
Defined.


(** ** Input that ends too early (lines 90, 97, 98) *)

(** X21. When the input ends before the target, the session username
    and the password have all been typed (the target typed, if any,
    being non-empty), [main] ends on the [EOFError] of the prompt left
    unanswered: the exception is not caught, the exit status is 1, and
    no call to the provider has been made and no file touched. *)
Theorem input_exhausted (e : env) (w : world) :
  length (stdin w) < 3 →
  typed_target w ≠ "" ∨ stdin w = [] →
  (∃ msg, (main e w).1 = inl (Exception EOFError msg)) ∧
  exit_status (main e w).1 = 1 ∧
  net (main e w).2 = net w ∧ fs (main e w).2 = fs w ∧
  stdin (main e w).2 = [].
Proof.
  intros Hlen Htarget.
  destruct w as [si co ne hp files tk]. unfold typed_target in Htarget.
  simpl in *.
  destruct si as [|raw [|user [|pw rest]]]; simpl in Hlen; [| | |lia].
  - unfold main. run. split_and!; try done. by eexists.
  - destruct Htarget as [Htarget|?]; [|done].
    unfold main. run. case_decide; [done|]. simpl.
    split_and!; try done. by eexists.
  - destruct Htarget as [Htarget|?]; [|done].
    unfold main. run. case_decide; [done|]. simpl.
    split_and!; try done. by eexists.
Qed.

Lemma input_exhausted_witness :
  (∃ msg, (main scenario_env (initial [" @target "; "me"] ∅)).1
          = inl (Exception EOFError msg)) ∧
  exit_status (main scenario_env (initial [" @target "; "me"] ∅)).1 = 1 ∧
  net (main scenario_env (initial [" @target "; "me"] ∅)).2 = [] ∧
  fs (main scenario_env (initial [" @target "; "me"] ∅)).2 = ∅ ∧
  stdin (main scenario_env (initial [" @target "; "me"] ∅)).2 = [].
Proof.
  apply (input_exhausted scenario_env (initial [" @target "; "me"] ∅)).
  - simpl. lia.
  - left. vm_compute. discriminate.
Defined.

(** ** [write_report] and the rest of the world (lines 53-82) *)

(** X22. [write_report] is silent: it shows nothing on the console,
    makes no call to the provider and reads no input. It reads the clock
    twice when the file can be created (once for the name, once for the
    "Generated:" line) and once when it cannot. *)
Theorem write_report_silent (e : env) (target : string)
    (followers following : ref) (w : world) :
  valid_ref w followers → valid_ref w following →
  let w' := (write_report e target followers following w).2 in
  console w' = console w ∧ net w' = net w ∧ stdin w' = stdin w ∧
  ticks w' = (if creatable e (report_name target (now e (ticks w)))
              then 2 else 1) + ticks w.
Proof.
  intros Hfr Hfg w'. unfold w'.
  destruct (creatable e (report_name target (now e (ticks w)))) eqn:Hcr.
  - by rewrite write_report_run.
  - by rewrite write_report_refused.
Qed.

Lemma write_report_silent_witness :
  valid_ref scenario_fetched 0 ∧ valid_ref scenario_fetched 1 ∧
  let w' := (write_report scenario_env "target" 0 1 scenario_fetched).2 in
  console w' = [] ∧ net w' = [] ∧ stdin w' = [] ∧
  ticks w' = (if creatable scenario_env
                   (report_name "target" (now scenario_env 0))
              then 2 else 1) + 0.
Proof.
  assert (H0 : valid_ref scenario_fetched 0) by (unfold valid_ref; simpl; lia).
  assert (H1 : valid_ref scenario_fetched 1) by (unfold valid_ref; simpl; lia).
  split; [exact H0|]. split; [exact H1|].
  exact (write_report_silent scenario_env "target" 0 1 scenario_fetched H0 H1).
Defined.

(** ** The report and the order of the enumerations *)



(** ** Writes that fail (lines 59-80) *)

Lemma first_fault_app (d : disk) (name : string) (written cs1 cs2 : list string) :
  first_fault d name written (cs1 ++ cs2)
  = match first_write_fault d name written cs1 with
    | Some fault => Some fault
    | None => first_fault d name (written ++ cs1) cs2
    end.
Proof.
  revert written. induction cs1 as [|c cs1 IH]; intros written; simpl.
  - by rewrite (right_id_L [] (++)).
  - destruct (write_fault d name written c); [done|].
    by rewrite IH, <- (assoc_L (++)).
Qed.

Lemma first_fault_writes (d : disk) (name : string) (written cs : list string) :
  first_fault d name written cs
  = match first_write_fault d name written cs with
    | Some fault => Some fault
    | None => close_fault d name (written ++ cs)
    end.
Proof.
  rewrite <- (right_id_L [] (++) cs) at 1. by rewrite first_fault_app.
Qed.

Local Arguments OnDisk.write : simpl never.
Local Arguments OnDisk.close : simpl never.

(** One write to an open file. *)
Lemma on_disk_write (d : disk) (name s : string) (si co : list string)
    (nt : list request) (hp : list (gset string)) (written : list string)
    (files : gmap string (list string)) (tk : nat) :
  OnDisk.write d name s (World si co nt hp (<[name := written]> files) tk)
  = match write_fault d name written s with
    | Some fault =>
        (inl (Exception OSError fault.1),
         World si co nt hp (<[name := fault.2]> files) tk)
    | None =>
        (inr tt, World si co nt hp (<[name := written ++ [s]]> files) tk)
    end.
Proof.
  unfold OnDisk.write, OnDisk.written, OnDisk.fail. simpl.
  rewrite lookup_insert_eq. simpl.
  destruct (write_fault d name written s) as [fault|].
  - by rewrite insert_insert_eq.
  - by rewrite alter_insert_eq.
Qed.

Lemma on_disk_close (d : disk) (name : string) (si co : list string)
    (nt : list request) (hp : list (gset string)) (written : list string)
    (files : gmap string (list string)) (tk : nat) :
  OnDisk.close d name (World si co nt hp (<[name := written]> files) tk)
  = match close_fault d name written with
    | Some fault =>
        (inl (Exception OSError fault.1),
         World si co nt hp (<[name := fault.2]> files) tk)
    | None => (inr tt, World si co nt hp (<[name := written]> files) tk)
    end.
Proof.
  unfold OnDisk.close, OnDisk.written, OnDisk.fail. simpl.
  rewrite lookup_insert_eq. simpl.
  destruct (close_fault d name written) as [fault|]; [|done].
  by rewrite insert_insert_eq.
Qed.

(** The entries of a section: the loop stops at the first write that
    fails. *)
Lemma on_disk_entries (d : disk) (name : string) (names : list string)
    (si co : list string) (nt : list request) (hp : list (gset string))
    (written : list string) (files : gmap string (list string)) (tk : nat) :
  for_in names (λ username, OnDisk.write d name (entry_line username))
    (World si co nt hp (<[name := written]> files) tk)
  = match first_write_fault d name written (entry_line <$> names) with
    | Some fault =>
        (inl (Exception OSError fault.1),
         World si co nt hp (<[name := fault.2]> files) tk)
    | None =>
        (inr tt,
         World si co nt hp
           (<[name := written ++ (entry_line <$> names)]> files) tk)
    end.
Proof.
  revert written. induction names as [|u names IH]; intros written.
  - simpl. by rewrite (right_id_L [] (++)).
  - cbn [for_in fmap list_fmap first_write_fault]. unfold bind at 1.
    rewrite on_disk_write.
    destruct (write_fault d name written (entry_line u)) as [fault|]; [done|].
    rewrite IH. by rewrite <- (assoc_L (++)).
Qed.

(** One operation on the open file: it fails, which ends the call, or
    the next one is reached. *)
Ltac disk_step :=
  first [rewrite on_disk_write | rewrite on_disk_entries
        | rewrite on_disk_close];
  repeat first [rewrite <- (assoc_L (++)) | progress simpl];
  match goal with
  | |- (let (_, _) := match ?o with _ => _ end in _) = _ =>
      destruct o as [?fault|] eqn:?; [reflexivity|]
  end;
  simpl.

(** [write_report] on a device: when the file can be created, the
    report is written unless the device fails; the first failure ends the
    call with its [OSError] and leaves the file as the fault says. The
    clock has been read once when the very first write fails, twice
    otherwise. *)
Lemma on_disk_write_report (d : disk) (e : env) (target : string)
    (followers following : ref) (w : world) :
  valid_ref w followers → valid_ref w following →
  creatable e (report_name target (now e (ticks w))) = true →
  OnDisk.write_report d e target followers following w
  = match first_fault d (report_name target (now e (ticks w))) []
            (report_layout target (now e (S (ticks w)))
               (size (deref w following))
               (PyStr.sorted (iter_order e (deref w following)))
               (size (deref w followers))
               (PyStr.sorted (iter_order e (deref w followers)))
               (size (deref w followers ∩ deref w following))
               (PyStr.sorted (iter_order e
                  (deref w followers ∩ deref w following)))) with
    | None => write_report e target followers following w
    | Some fault =>
        (inl (Exception OSError fault.1),
         World (stdin w) (console w) (net w)
           (heap w ++ [deref w followers ∩ deref w following])
           (<[report_name target (now e (ticks w)) := fault.2]> (fs w))
           (match write_fault d (report_name target (now e (ticks w))) []
                    ("Instagram Follower Analysis for @" +:+ target +:+ nl) with
            | Some _ => S (ticks w)
            | None => S (S (ticks w))
            end))
    end.
Proof.
  intros Hfr Hfg Hcr. rewrite write_report_run by done.
  unfold valid_ref in *.
  destruct w as [si co ne hp files tk]. simpl in *.
  unfold OnDisk.write_report, bind, set_and, new_set, datetime_now, open_w,
    set_len, sorted_set, gets, deref.
  simpl. rewrite Hcr. simpl.
  set (name := report_name target (now e tk)).
  remember (mutual_of (default ∅ (hp !! followers))
              (default ∅ (hp !! following))) as M eqn:HM.
  assert (Hlf : (hp ++ [M]) !! followers = hp !! followers)
    by (by apply lookup_app_l).
  assert (Hlg : (hp ++ [M]) !! following = hp !! following)
    by (by apply lookup_app_l).
  assert (Hlm : (hp ++ [M]) !! length hp = Some M)
    by (by apply list_lookup_middle).
  unfold report_layout, section_of. cbn [app first_fault].
  do 2 (rewrite first_fault_app; cbn [first_fault]).
  rewrite first_fault_writes.
  unfold mutual_of in HM. rewrite <- ?HM.
  repeat first [rewrite <- (assoc_L (++)) | progress simpl].
  do 13 (disk_step; rewrite ?Hlf, ?Hlg, ?Hlm; simpl).
  reflexivity.
Qed.

(** When [open] fails the device is never reached. *)
Lemma on_disk_write_report_refused (d : disk) (e : env) (target : string)
    (followers following : ref) (w : world) :
  creatable e (report_name target (now e (ticks w))) = false →
  OnDisk.write_report d e target followers following w
  = write_report e target followers following w.
Proof.
  intros Hcr. destruct w as [si co ne hp files tk]. simpl in Hcr.
  unfold OnDisk.write_report, write_report, bind, set_and, new_set,
    datetime_now, open_w.
  simpl. by rewrite Hcr.
Qed.

Local Arguments OnDisk.write_report : simpl never.

(** Up to the report the two models of [main] are the same program. *)
Lemma on_disk_main_reaches (d : disk) (e : env) (w : world) :
  (OnDisk.main d e w = main e w ∧
   ∃ x, (main e w).1 = inl x ∧ exit_status (inl x) = 1 ∧
        fs (main e w).2 = fs w) ∨
  (∃ w1, fs w1 = fs w ∧ ticks w1 = ticks w ∧
         main e w = fetch_and_report e (typed_target w) w1 ∧
         OnDisk.main d e w
         = OnDisk.fetch_and_report d e (typed_target w) w1).
Proof.
  destruct w as [si co ne hp files tk]. unfold typed_target. simpl.
  destruct si as [|raw si]; [left; split; [done|eexists; by run]|].
  unfold OnDisk.main, main. run.
  case_decide as Hempty; [left; split; [done|eexists; by run]|]. simpl.
  destruct si as [|user si]; [left; split; [done|eexists; by run]|]. simpl.
  destruct si as [|pw si]; [left; split; [done|eexists; by run]|]. simpl.
  destruct (login (service e) (PyStr.strip user) pw) as [[cls msg]|].
  - destruct cls; simpl; try (left; split; [done|eexists; by run]).
    destruct si as [|code si]; [left; split; [done|eexists; by run]|]. simpl.
    destruct (two_factor_login (service e) (PyStr.strip code)) as [[cls msg']|].
    + left. split; [done|]. eexists. by run.
    + simpl. right. eexists. split_and!; [| |
        unfold fetch_and_report; run; reflexivity
      | unfold OnDisk.fetch_and_report; run; reflexivity]; done.
  - simpl. right. eexists. split_and!; [| |
      unfold fetch_and_report; run; reflexivity
    | unfold OnDisk.fetch_and_report; run; reflexivity]; done.
Qed.

Lemma on_disk_main_logged_in (d : disk) (e : env) (w : world)
    (raw user pw : string) (rest : list string) :
  stdin w = raw :: user :: pw :: rest →
  normalize_target raw ≠ "" →
  login (service e) (PyStr.strip user) pw = None →
  OnDisk.main d e w
  = OnDisk.fetch_and_report d e (normalize_target raw)
      (World rest
         (console w ++ login_shown ++ ["Login successful." +:+ nl])
         (net w ++ [ReqLogin (PyStr.strip user) pw])
         (heap w) (fs w) (ticks w)).
Proof.
  intros Hin Htarget Hlogin.
  destruct w as [si co ne hp files tk]. simpl in Hin. subst si.
  unfold OnDisk.main. run. case_decide; [done|]. simpl.
  rewrite Hlogin. simpl.
  unfold OnDisk.fetch_and_report. run.
  unfold show, login_shown, banner. simpl.
  by rewrite <- !(assoc_L (++)).
Qed.

(** After a complete fetch, with a file that can be created: the
    device decides. *)
Lemma on_disk_fetch_and_report (d : disk) (e : env) (target : string)
    (w : world) (p : profile) :
  from_username (service e) target = inr p →
  ending (get_followees (service e)) = None →
  ending (get_followers (service e)) = None →
  creatable e (report_name target (now e (ticks w))) = true →
  let A : gset string := list_to_set (yields (get_followees (service e))) in
  let B : gset string := list_to_set (yields (get_followers (service e))) in
  let name := report_name target (now e (ticks w)) in
  OnDisk.fetch_and_report d e target w
  = match first_fault d name []
            (report_of e target (now e (S (ticks w))) A B) with
    | None => fetch_and_report e target w
    | Some fault =>
        (inl (Exception OSError fault.1),
         World (stdin w)
           (console w ++ fetch_shown e target p
              ++ [(nl +:+ "Writing report...") +:+ nl])
           (net w ++ [ReqProfile target; ReqFollowees; ReqFollowers])
           (heap w ++ [A; B; B ∩ A])
           (<[name := fault.2]> (fs w))
           (match write_fault d name []
                    ("Instagram Follower Analysis for @" +:+ target +:+ nl) with
            | Some _ => S (ticks w)
            | None => S (S (ticks w))
            end))
    end.
Proof.
  intros Hlookup Hend1 Hend2 Hcr A B name.
  set (w2 := show ((nl +:+ "Writing report...") +:+ nl)
               (World (stdin w)
                  (console w ++ fetch_shown e target p)
                  (net w ++ [ReqProfile target; ReqFollowees; ReqFollowers])
                  (heap w ++ [A; B]) (fs w) (ticks w))).
  assert (Hv1 : valid_ref w2 (S (length (heap w)))).
  { unfold valid_ref, w2. simpl. rewrite length_app. simpl. lia. }
  assert (Hv0 : valid_ref w2 (length (heap w))).
  { unfold valid_ref, w2. simpl. rewrite length_app. simpl. lia. }
  assert (HA : deref w2 (length (heap w)) = A).
  { unfold deref, w2. simpl.
    by rewrite (list_lookup_middle _ _ _ (length (heap w))). }
  assert (HB : deref w2 (S (length (heap w))) = B).
  { unfold deref, w2. simpl.
    rewrite (lookup_app_r (heap w)) by lia.
    by replace (S (length (heap w)) - length (heap w)) with 1 by lia. }
  assert (Htk2 : ticks w2 = ticks w) by done.
  assert (Hget : get_profile_data e target w
                 = (inr (S (length (heap w)), length (heap w)),
                    World (stdin w)
                      (console w ++ fetch_shown e target p)
                      (net w ++ [ReqProfile target; ReqFollowees; ReqFollowers])
                      (heap w ++ [A; B]) (fs w) (ticks w))).
  { rewrite (get_profile_data_resolved e target w p Hlookup), Hend1, Hend2.
    unfold fetch_shown. fold A B. do 2 f_equal. }
  assert (Hdisk : OnDisk.fetch_and_report d e target w
    = match OnDisk.write_report d e target
              (S (length (heap w))) (length (heap w)) w2 with
      | (inl x, w') => (inl x, w')
      | (inr (filename, n_followers, n_following, n_mutual), w') =>
          (print (nl +:+ "Analysis complete!") ;;
           print ("  Following:      " +:+ PyStr.of_nat n_following) ;;
           print ("  Followers:      " +:+ PyStr.of_nat n_followers) ;;
           print ("  Mutual follows: " +:+ PyStr.of_nat n_mutual) ;;
           print (nl +:+ "Report saved to: " +:+ filename)) w'
      end).
  { unfold OnDisk.fetch_and_report. unfold bind at 1. rewrite Hget.
    unfold bind at 1, print at 1, print_end at 1, modify at 1.
    cbn [fst snd]. unfold bind at 1. fold w2.
    destruct (OnDisk.write_report _ _ _ _ _ _) as [[x|[[[? ?] ?] ?]] w'];
      reflexivity. }
  assert (Hplain : fetch_and_report e target w
    = match write_report e target
              (S (length (heap w))) (length (heap w)) w2 with
      | (inl x, w') => (inl x, w')
      | (inr (filename, n_followers, n_following, n_mutual), w') =>
          (print (nl +:+ "Analysis complete!") ;;
           print ("  Following:      " +:+ PyStr.of_nat n_following) ;;
           print ("  Followers:      " +:+ PyStr.of_nat n_followers) ;;
           print ("  Mutual follows: " +:+ PyStr.of_nat n_mutual) ;;
           print (nl +:+ "Report saved to: " +:+ filename)) w'
      end).
  { unfold fetch_and_report. unfold bind at 1. rewrite Hget.
    unfold bind at 1, print at 1, print_end at 1, modify at 1.
    cbn [fst snd]. unfold bind at 1. fold w2.
    destruct (write_report _ _ _ _ _) as [[x|[[[? ?] ?] ?]] w'];
      reflexivity. }
  rewrite Hdisk, Hplain.
  rewrite on_disk_write_report by (rewrite ?Htk2; done).
  rewrite HA, HB, Htk2. fold name. unfold report_of.
  destruct (first_fault d name [] _) as [fault|]; [|done].
  unfold w2, show. cbn [stdin console net heap fs ticks fst snd].
  f_equal. f_equal; by rewrite <- (assoc_L (++)).
Qed.

(** Otherwise the device is never written to. *)
Lemma on_disk_fetch_and_report_same (d : disk) (e : env) (target : string)
    (w : world) :
  ¬ (fetch_complete e target ∧
     creatable e (report_name target (now e (ticks w))) = true) →
  OnDisk.fetch_and_report d e target w = fetch_and_report e target w.
Proof.
  intros Hnot.
  destruct (get_profile_data_spec e target w)
    as (w' & Hget & _ & _ & Htk & _ & _).
  unfold OnDisk.fetch_and_report, fetch_and_report. unfold bind.
  rewrite Hget.
  destruct (fetch_result e target (length (heap w))) as [x|data] eqn:Hres;
    [done|].
  apply fetch_result_returns in Hres as [Hcomplete ->].
  unfold print, print_end, modify. cbn [fst snd].
  rewrite on_disk_write_report_refused; [done|].
  unfold show. cbn [ticks]. rewrite Htk.
  destruct (creatable e _) eqn:Hcr; [|done]. by destruct Hnot.
Qed.

(** What the device adds to the ends of a run: a run on a device is the
    run described by [fetch_and_report], unless the fetch was complete,
    the file was created and the device then failed; the [OSError] of
    that failure ends the run, with the file left as the fault says. *)
Lemma on_disk_fetch_and_report_cases (d : disk) (e : env) (target : string)
    (w : world) :
  OnDisk.fetch_and_report d e target w = fetch_and_report e target w ∨
  (fetch_complete e target ∧
   creatable e (report_name target (now e (ticks w))) = true ∧
   ∃ (fault : string * list string) (w' : world),
     first_fault d (report_name target (now e (ticks w))) []
       (report_of e target (now e (S (ticks w)))
          (list_to_set (yields (get_followees (service e))))
          (list_to_set (yields (get_followers (service e)))))
     = Some fault ∧
     OnDisk.fetch_and_report d e target w
     = (inl (Exception OSError fault.1), w') ∧
     fs w' = <[report_name target (now e (ticks w)) := fault.2]> (fs w)).
Proof.
  destruct (from_username (service e) target) as [err|p] eqn:Hlookup.
  { left. apply on_disk_fetch_and_report_same.
    intros [([q Hq] & _) _]. congruence. }
  destruct (ending (get_followees (service e))) as [err|] eqn:Hend1.
  { left. apply on_disk_fetch_and_report_same.
    intros [(_ & H1 & _) _]. congruence. }
  destruct (ending (get_followers (service e))) as [err|] eqn:Hend2.
  { left. apply on_disk_fetch_and_report_same.
    intros [(_ & _ & H2) _]. congruence. }
  destruct (creatable e (report_name target (now e (ticks w)))) eqn:Hcr.
  2: { left. apply on_disk_fetch_and_report_same.
       intros [_ Hc]. congruence. }
  rewrite (on_disk_fetch_and_report d e target w p) by done.
  destruct (first_fault d _ [] _) as [fault|] eqn:Hfault; [|by left].
  right. split; [by split; [exists p|]|]. split; [done|].
  eexists fault, _. split; [done|]. split; [reflexivity|done].
Qed.

(** The two translations of [main] agree on a device that accepts
    everything: the statements about [main] are about such runs. *)
Lemma on_disk_main_accepted (d : disk) (e : env) (w : world) :
  (∀ name chunks, first_fault d name [] chunks = None) →
  OnDisk.main d e w = main e w.
Proof.
  intros Hok.
  destruct (on_disk_main_reaches d e w)
    as [[Hsame _]|(w1 & _ & _ & Hmain & Hdisk)]; [done|].
  rewrite Hdisk, Hmain.
  destruct (on_disk_fetch_and_report_cases d e (typed_target w) w1)
    as [Hsame|(_ & _ & fault & w' & Hfault & _)]; [done|].
  by rewrite Hok in Hfault.
Qed.

(** ** The whole pipeline on a device (lines 85-134) *)

(** X11. The whole pipeline, when nothing fails: the password is
    accepted, the profile is resolved, both enumerations run to their
    end, the file can be created, and the device accepts every write of
    the report and the close of the file. Then [main] returns and the
    exit status is 0. It has called the provider four times, for the
    login, the profile, the accounts followed and the followers, in that
    order; the report of the two sets enumerated is the one file
    written, under the name made of the target and the first clock
    reading; and the last lines shown are the summary, with the size of
    the following set after "Following:", of the followers set after
    "Followers:", of their intersection after "Mutual follows:", and the
    file name. *)
Theorem pipeline_success (d : disk) (e : env) (w : world)
    (raw user pw : string) (rest : list string) (p : profile) :
  stdin w = raw :: user :: pw :: rest →
  normalize_target raw ≠ "" →
  login (service e) (PyStr.strip user) pw = None →
  from_username (service e) (normalize_target raw) = inr p →
  ending (get_followees (service e)) = None →
  ending (get_followers (service e)) = None →
  creatable e (report_name (normalize_target raw) (now e (ticks w))) = true →
  let A : gset string := list_to_set (yields (get_followees (service e))) in
  let B : gset string := list_to_set (yields (get_followers (service e))) in
  first_fault d (report_name (normalize_target raw) (now e (ticks w))) []
    (report_of e (normalize_target raw) (now e (S (ticks w))) A B) = None →
  OnDisk.main d e w
  = (inr tt,
     World rest
       (console w ++ login_shown ++ ["Login successful." +:+ nl]
          ++ fetch_shown e (normalize_target raw) p
          ++ summary_shown
               (report_name (normalize_target raw) (now e (ticks w)))
               (size A) (size B) (size (B ∩ A)))
       (net w ++ [ReqLogin (PyStr.strip user) pw;
                  ReqProfile (normalize_target raw);
                  ReqFollowees; ReqFollowers])
       (heap w ++ [A; B; B ∩ A])
       (<[report_name (normalize_target raw) (now e (ticks w)) :=
            report_of e (normalize_target raw) (now e (S (ticks w))) A B]>
          (fs w))
       (S (S (ticks w)))) ∧
  exit_status (OnDisk.main d e w).1 = 0.
Proof.
  intros Hin Htarget Hlogin Hlookup Hend1 Hend2 Hcr A B Hfault.
  assert (Hrun : OnDisk.main d e w = (inr tt,
     World rest
       (console w ++ login_shown ++ ["Login successful." +:+ nl]
          ++ fetch_shown e (normalize_target raw) p
          ++ summary_shown
               (report_name (normalize_target raw) (now e (ticks w)))
               (size A) (size B) (size (B ∩ A)))
       (net w ++ [ReqLogin (PyStr.strip user) pw;
                  ReqProfile (normalize_target raw);
                  ReqFollowees; ReqFollowers])
       (heap w ++ [A; B; B ∩ A])
       (<[report_name (normalize_target raw) (now e (ticks w)) :=
            report_of e (normalize_target raw) (now e (S (ticks w))) A B]>
          (fs w))
       (S (S (ticks w))))).
  { rewrite (on_disk_main_logged_in d e w raw user pw rest) by done.
    rewrite (on_disk_fetch_and_report d e _ _ p) by done.
    cbn [stdin console net heap fs ticks]. fold A B. rewrite Hfault.
    rewrite (fetch_and_report_run e _ _ p) by done.
    cbn [stdin console net heap fs ticks]. fold A B.
    f_equal. f_equal; by rewrite <- ?(assoc_L (++)). }
  by rewrite Hrun.
Qed.

Lemma pipeline_success_witness :
  normalize_target " @target " ≠ "" ∧
  let A : gset string := list_to_set ["alice"; "bob"] in
  let B : gset string := list_to_set ["bob"; "carol"] in
  OnDisk.main sound_disk scenario_env (initial scenario_typed ∅)
  = (inr tt,
     World []
       ([] ++ login_shown ++ ["Login successful." +:+ nl]
          ++ fetch_shown scenario_env (normalize_target " @target ")
               (Profile "Target" 2 2)
          ++ summary_shown
               (report_name (normalize_target " @target ") (scenario_clock 0))
               (size A) (size B) (size (B ∩ A)))
       ([] ++ [ReqLogin (PyStr.strip "me") "secret";
               ReqProfile (normalize_target " @target ");
               ReqFollowees; ReqFollowers])
       ([] ++ [A; B; B ∩ A])
       (<[report_name (normalize_target " @target ") (scenario_clock 0) :=
            report_of scenario_env (normalize_target " @target ")
              (scenario_clock 1) A B]> ∅)
       2) ∧
  exit_status (OnDisk.main sound_disk scenario_env
                 (initial scenario_typed ∅)).1 = 0.
Proof.
  assert (Ht : normalize_target " @target " ≠ "") by (vm_compute; discriminate).
  split; [exact Ht|].
  exact (pipeline_success sound_disk scenario_env (initial scenario_typed ∅)
           " @target " "me" "secret" [] (Profile "Target" 2 2)
           eq_refl Ht eq_refl eq_refl eq_refl eq_refl eq_refl eq_refl).
Defined.



(** ** What the exit status tells (lines 20-47, 93, 116, 123, 128, 134) *)

(** X16. The exit status of a run is 0 or 1. It is 0 only when [main]
    returned, the profile having been resolved and both enumerations
    having run to their end, and then the one change to the files is the
    report of the two sets enumerated. When it is 1, either no file has
    been created or changed, or the fetch was complete, the run ended on
    an [OSError] and the report file is the one file touched (a write or
    the close failed after [open] had created it). *)
Theorem exit_status_meaning (d : disk) (e : env) (w : world) :
  let name := report_name (typed_target w) (now e (ticks w)) in
  exit_status (OnDisk.main d e w).1 ≤ 1 ∧
  (exit_status (OnDisk.main d e w).1 = 0 →
     (OnDisk.main d e w).1 = inr tt ∧
     fetch_complete e (typed_target w) ∧
     fs (OnDisk.main d e w).2
     = <[name := report_of e (typed_target w) (now e (S (ticks w)))
           (list_to_set (yields (get_followees (service e))))
           (list_to_set (yields (get_followers (service e))))]> (fs w)) ∧
  (exit_status (OnDisk.main d e w).1 = 1 →
     fs (OnDisk.main d e w).2 = fs w ∨
     (fetch_complete e (typed_target w) ∧ creatable e name = true ∧
      ∃ (msg : string) (left : list string),
        (OnDisk.main d e w).1 = inl (Exception OSError msg) ∧
        fs (OnDisk.main d e w).2 = <[name := left]> (fs w))).
Proof.
  intros name.
  destruct (on_disk_main_reaches d e w)
    as [[Hsame (x & Hx & Hstatus & Hfs)]|(w1 & Hfs & Htk & _ & Hrun)].
  { rewrite Hsame, Hx, Hstatus. split_and!; [lia|done|by left]. }
  rewrite Hrun. unfold name. rewrite <- Htk, <- Hfs.
  destruct (on_disk_fetch_and_report_cases d e (typed_target w) w1)
    as [Hsame|(Hcomplete & Hcr & fault & w' & _ & Hfail & Hfs')].
  - rewrite Hsame.
    destruct (fetch_and_report_cases e (typed_target w) w1)
      as [(x & Hx & Hstatus & Hfs1)|(Hcomplete & Hret & Hfs1)].
    + rewrite Hx, Hstatus. split_and!; [lia|done|by left].
    + rewrite Hret. simpl. split_and!; [lia|done|done].
  - rewrite Hfail. simpl. split_and!; [lia|done|].
    intros _. right. split_and!; [done|done|]. by eexists _, _.
Qed.

Lemma exit_status_meaning_witness :
  (OnDisk.main sound_disk scenario_env (initial scenario_typed ∅)).1
  = inr tt ∧
  fetch_complete scenario_env (typed_target (initial scenario_typed ∅)) ∧
  (fs (OnDisk.main full_disk scenario_env (initial scenario_typed ∅)).2 = ∅ ∨
   (fetch_complete scenario_env (typed_target (initial scenario_typed ∅)) ∧
    creatable scenario_env
      (report_name (typed_target (initial scenario_typed ∅))
         (scenario_clock 0)) = true ∧
    ∃ (msg : string) (left : list string),
      (OnDisk.main full_disk scenario_env (initial scenario_typed ∅)).1
      = inl (Exception OSError msg) ∧
      fs (OnDisk.main full_disk scenario_env (initial scenario_typed ∅)).2
      = <[report_name (typed_target (initial scenario_typed ∅))
            (scenario_clock 0) := left]> ∅)).
Proof.
  destruct (exit_status_meaning sound_disk scenario_env
              (initial scenario_typed ∅)) as (_ & Hzero & _).
  destruct (exit_status_meaning full_disk scenario_env
              (initial scenario_typed ∅)) as (_ & _ & Hone).
  assert (H0 : exit_status (OnDisk.main sound_disk scenario_env
                              (initial scenario_typed ∅)).1 = 0)
    by (vm_compute; reflexivity).
  assert (H1 : exit_status (OnDisk.main full_disk scenario_env
                              (initial scenario_typed ∅)).1 = 1)
    by (vm_compute; reflexivity).
  destruct (Hzero H0) as (Hret & Hcomplete & _).
  split; [exact Hret|]. split; [exact Hcomplete|]. exact (Hone H1).
Defined.

(** ** The targets of a fetch (lines 90-93, 125) *)




